(** * mcp-go-sdk: session, registry, invocation engine and resource matcher

    A shallow embedding of [pkg/mcp/server] (server.go, handlers.go,
    resource.go, prompt.go), of the envelope handling of [pkg/mcp/transport]
    and of the Go library calls they rely on, followed by the properties
    of the specification that were checked against it.

    Conventions.
    - A Go function returning [(T, error)] becomes a function into
      [outcome T]; a run-time panic is the third constructor of [outcome].
    - [map[string]T] is [gmap string T]; a nil map is [None].
    - The order in which [range] visits a map is not fixed by Go: it is
      the parameter [rangeOrder] of the functions that iterate.
    - Locks, contexts and logging are left out: every operation is
      modelled as it runs once its lock is held. *)

From Stdlib Require Import ZArith String Ascii List Bool Lia DecimalString.
From Stdlib Require Import DecimalNat DecimalFacts.
From stdpp Require Import base option gmap strings list fin_maps.

Set Warnings "-register-all".
Open Scope string_scope.
Open Scope list_scope.

(** ** Go values, types, errors *)

Module Go.

(** The types handlers are declared with. [TNamed] stands for a struct
    type known by its printed name.  Function and channel types are not
    among them. *)
Inductive GoType : Type :=
| TBool | TString
| TInt | TInt8 | TInt16 | TInt32 | TInt64
| TUint | TUint8 | TUint16 | TUint32 | TUint64
| TFloat32 | TFloat64
| TError                         (* the interface type error *)
| TIface                         (* interface{} *)
| TSlice (elem : GoType)
| TMap (key elem : GoType)
| TPtr (elem : GoType)
| TNamed (name : string).

#[export] Instance GoType_eq_dec : EqDecision GoType.
Proof. solve_decision. Defined.

(** reflect.Kind, as far as convertValue distinguishes kinds; the integer
    kinds carry their width in bits (int and uint are 64 bits wide). *)
Inductive Kind : Type :=
| KString | KInt (bits : Z) | KUint (bits : Z) | KFloat | KBool
| KInterface | KSlice | KMap | KPtr | KStruct.

Definition kindOf (t : GoType) : Kind :=
  match t with
  | TBool => KBool
  | TString => KString
  | TInt => KInt 64 | TInt8 => KInt 8 | TInt16 => KInt 16
  | TInt32 => KInt 32 | TInt64 => KInt 64
  | TUint => KUint 64 | TUint8 => KUint 8 | TUint16 => KUint 16
  | TUint32 => KUint 32 | TUint64 => KUint 64
  | TFloat32 | TFloat64 => KFloat
  | TError | TIface => KInterface
  | TSlice _ => KSlice
  | TMap _ _ => KMap
  | TPtr _ => KPtr
  | TNamed _ => KStruct
  end.

(** Type.String() *)
Fixpoint typeString (t : GoType) : string :=
  match t with
  | TBool => "bool" | TString => "string"
  | TInt => "int" | TInt8 => "int8" | TInt16 => "int16"
  | TInt32 => "int32" | TInt64 => "int64"
  | TUint => "uint" | TUint8 => "uint8" | TUint16 => "uint16"
  | TUint32 => "uint32" | TUint64 => "uint64"
  | TFloat32 => "float32" | TFloat64 => "float64"
  | TError => "error"
  | TIface => "interface {}"
  | TSlice e => "[]" +:+ typeString e
  | TMap k e => "map[" +:+ typeString k +:+ "]" +:+ typeString e
  | TPtr e => "*" +:+ typeString e
  | TNamed n => n
  end.

(** What an [interface{}] can hold.  A floating-point number is kept as
    the literal that denotes it; an error value as its Error() text. *)
Inductive value : Type :=
| VNil                                   (* the nil interface *)
| VBool (b : bool)
| VString (s : string)
| VInt (t : GoType) (z : Z)              (* any integer kind *)
| VFloat (t : GoType) (lit : string)
| VError (msg : string)                  (* a non-nil error *)
| VNilOf (t : GoType)                    (* the nil slice, map or pointer of type t *)
| VSlice (elem : GoType) (xs : list value)
| VMap (key elem : GoType) (kvs : list (string * value))
| VStruct (name : string) (fields : list (string * value)).

(** Dynamic type of the content of an interface; none for nil. *)
Definition dynType (v : value) : option GoType :=
  match v with
  | VNil => None
  | VBool _ => Some TBool
  | VString _ => Some TString
  | VInt t _ => Some t
  | VFloat t _ => Some t
  | VError _ => Some (TPtr (TNamed "errors.errorString"))
  | VNilOf t => Some t
  | VSlice e _ => Some (TSlice e)
  | VMap k e _ => Some (TMap k e)
  | VStruct n _ => Some (TNamed n)
  end.

(** Errors.  [errorText s] is an error whose Error() is [s] (errors.New,
    fmt.Errorf without %w, or whatever a handler returned); [wrapError]
    is fmt.Errorf("...: %w", err); the errors of library calls are kept
    apart, their texts are not reproduced. *)
Inductive LibError : Type :=
| JSONError            (* encoding/json: syntax error or type mismatch *)
| URLError             (* net/url.Parse *)
| RegexpError          (* regexp.Compile *)
| ScanError.           (* fmt.Sscanf *)

Inductive error : Type :=
| errorText (s : string)
| libError (e : LibError)
| wrapError (msg : string) (err : error).

(** The run-time panics the modelled code can raise. *)
Inductive PanicCause : Type :=
| InterfaceConversion            (* a failed type assertion x.(T) *)
| NilDereference                 (* method call through a nil reflect.Type *)
| NumInOfNonFunc (t : GoType)    (* reflect: NumIn of non-func type *)
| CallOfNonFunc (t : GoType)     (* reflect: call of Call on non-func Value *)
| CallArity                      (* reflect: Call with too few/many input arguments *)
| CallZeroValueArgument          (* reflect: Call using zero Value argument *)
| CallTypeMismatch (have want : GoType) (* reflect: Call using T as type U *)
| CallCannotUse (have want : GoType)    (* reflect: cannot use T as type U in Call *)
| IsNilOfKind (t : GoType)       (* reflect: call of reflect.Value.IsNil on T Value *)
| IndexOutOfRange (i len : nat). (* runtime error: index out of range *)

Inductive outcome (A : Type) : Type :=
| Ok (a : A)
| Err (e : error)
| Panic (p : PanicCause).
Arguments Ok {A} a.
Arguments Err {A} e.
Arguments Panic {A} p.

#[export] Instance outcome_ret : MRet outcome := fun A a => Ok a.
#[export] Instance outcome_bind : MBind outcome := fun A B f m =>
  match m with
  | Ok a => f a
  | Err e => Err e
  | Panic p => Panic p
  end.

(** *** reflect *)

(** A reflect.Value: the zero Value, or a value seen at a type (the
    dynamic type for ValueOf, the declared type for Zero and for the
    results of Call). *)
Inductive Value : Type :=
| Invalid
| Val (t : GoType) (x : value).

Definition ValueOf (x : value) : Value :=
  match dynType x with
  | None => Invalid
  | Some t => Val t x
  end.

Definition zeroValue (t : GoType) : value :=
  match kindOf t with
  | KBool => VBool false
  | KString => VString ""
  | KInt _ | KUint _ => VInt t 0
  | KFloat => VFloat t "0"
  | KInterface => VNil
  | KSlice | KMap | KPtr => VNilOf t
  | KStruct => VStruct (typeString t) []
  end.

(** reflect.Zero *)
Definition Zero (t : GoType) : Value := Val t (zeroValue t).

(** Value.Interface() (only used on valid Values here). *)
Definition Interface (v : Value) : value :=
  match v with
  | Invalid => VNil
  | Val _ x => x
  end.

(** Value.String(): the string itself for a Value of Kind String, the
    type between angle brackets for any other. *)
Definition String_ (v : Value) : string :=
  match v with
  | Invalid => "<invalid Value>"
  | Val t x =>
      match kindOf t, x with
      | KString, VString s => s
      | KString, _ => ""
      | _, _ => "<" +:+ typeString t +:+ " Value>"
      end
  end.

(** Value.IsNil(): defined on interfaces, slices, maps and pointers, a
    panic on every other kind. *)
Definition IsNil (v : Value) : outcome bool :=
  match v with
  | Invalid => Panic (IsNilOfKind TIface)
  | Val t x =>
      match kindOf t with
      | KInterface => Ok (match x with VNil => true | _ => false end)
      | KSlice | KMap | KPtr => Ok (match x with VNilOf _ => true | _ => false end)
      | _ => Panic (IsNilOfKind t)
      end
  end.

(** Type.AssignableTo: identical types, or an interface type the source
    type implements.  Of the types with an Error method the model knows
    the interface error itself and *errors.errorString, the type of the
    errors the handlers here return; a named type of the application
    with an Error method is not represented. *)
Definition implementsError (t : GoType) : bool :=
  match t with
  | TError => true
  | TPtr (TNamed "errors.errorString") => true
  | _ => false
  end.

Definition AssignableTo (xt targ : GoType) : bool :=
  if decide (xt = targ) then true
  else match targ with
       | TIface => true
       | TError => implementsError xt
       | _ => false
       end.

(** A function value: its declared parameter and result types, whether
    it is variadic (its last parameter is declared [...T], and In of
    that position is then [[]T]), and what it computes.  Handler bodies
    are application code; they are taken to be total and to return one
    value per declared result. *)
Record FuncValue : Type := {
  inTypes : list GoType;
  outTypes : list GoType;
  variadic : bool;
  body : list value -> list value
}.

(** What a registration stores in its [Handler interface{}] field. *)
Inductive HandlerValue : Type :=
| NilHandler
| NonFunc (t : GoType)
| Func (f : FuncValue).

(** reflect.TypeOf(h).Kind() != reflect.Func, as parsePromptTemplate and
    parseResourcePattern test it. *)
Definition kindIsFunc (h : HandlerValue) : outcome bool :=
  match h with
  | NilHandler => Panic NilDereference
  | NonFunc _ => Ok false
  | Func _ => Ok true
  end.

(** reflect.TypeOf(h), read through NumIn()/In(i). *)
Definition handlerIn (h : HandlerValue) : outcome (list GoType) :=
  match h with
  | NilHandler => Panic NilDereference
  | NonFunc t => Panic (NumInOfNonFunc t)
  | Func f => Ok (inTypes f)
  end.

Fixpoint checkArgs (args : list Value) (ins : list GoType) : outcome unit :=
  match args, ins with
  | [], [] => Ok ()
  | Val xt _ :: args', targ :: ins' =>
      if AssignableTo xt targ then checkArgs args' ins'
      else Panic (CallTypeMismatch xt targ)
  | _, _ => Panic CallArity
  end.

(** The arguments that Call packs into the slice of a variadic
    parameter, checked against its element type. *)
Fixpoint checkVariadic (args : list Value) (elem : GoType) : outcome unit :=
  match args with
  | [] => Ok ()
  | Val xt _ :: args' =>
      if AssignableTo xt elem then checkVariadic args' elem
      else Panic (CallCannotUse xt elem)
  | Invalid :: _ => Panic CallZeroValueArgument
  end.

(** Call on a variadic function: the arguments before the variadic
    position are checked against their parameters, those from that
    position on against the element type, and are passed as one new
    slice. *)
Definition callVariadic (f : FuncValue) (args : list Value) : outcome (list Value) :=
  let n := pred (length (inTypes f)) in
  if (length args <? n)%nat then Panic CallArity
  else if existsb (fun a => match a with Invalid => true | _ => false end) args
  then Panic CallZeroValueArgument
  else
    _ ← checkArgs (take n args) (take n (inTypes f));
    match inTypes f !! n with
    | Some (TSlice elem) =>
        _ ← checkVariadic (drop n args) elem;
        Ok (zip_with Val (outTypes f)
              (body f (map Interface (take n args)
                       ++ [VSlice elem (map Interface (drop n args))])))
    | _ => Panic CallArity               (* no function type of Go is like this *)
    end.

(** reflect.ValueOf(h).Call(args) *)
Definition Call (h : HandlerValue) (args : list Value) : outcome (list Value) :=
  match h with
  | NilHandler => Panic (CallOfNonFunc TIface)
  | NonFunc t => Panic (CallOfNonFunc t)
  | Func f =>
      if variadic f then callVariadic f args
      else if negb (length args =? length (inTypes f))%nat then Panic CallArity
      else if existsb (fun a => match a with Invalid => true | _ => false end) args
      then Panic CallZeroValueArgument
      else
        _ ← checkArgs args (inTypes f);
        Ok (zip_with Val (outTypes f) (body f (map Interface args)))
  end.

(** *** strings *)

Fixpoint dropString (n : nat) (s : string) : string :=
  match n, s with
  | O, _ => s
  | S n', String _ s' => dropString n' s'
  | S _, "" => ""
  end.

(** strings.Replace(s, old, new, 1) for a non-empty [old] *)
Fixpoint Replace1 (s old new : string) : string :=
  if String.prefix old s then new +:+ dropString (String.length old) s
  else match s with
       | "" => ""
       | String c s' => String c (Replace1 s' old new)
       end.

(** strings.Cut(s, sep) for a one-character separator: what precedes the
    first [sep], what follows it, and whether it was found *)
Fixpoint Cut (s : string) (sep : ascii) : string * string * bool :=
  match s with
  | "" => ("", "", false)
  | String c s' =>
      if Ascii.eqb c sep then ("", s', true)
      else let '(a, b, f) := Cut s' sep in (String c a, b, f)
  end.

Fixpoint Contains (s : string) (c : ascii) : bool :=
  match s with
  | "" => false
  | String c' s' => Ascii.eqb c c' || Contains s' c
  end.

(** *** fmt *)

(** fmt.Sprintf("%d", i) *)
Definition itoa (i : nat) : string := NilZero.string_of_uint (Nat.to_uint i).

(** fmt.Sprintf("%d", z) for an integer of either sign *)
Definition formatInt (z : Z) : string :=
  if (z <? 0)%Z then "-" +:+ itoa (Z.to_nat (- z)) else itoa (Z.to_nat z).


(** fmt.Sscanf(value, verb, &x) with a single verb, as convertValue calls
    it: blanks are skipped, the longest acceptable token is read, what
    follows the token is ignored.  A newline before the token is an
    error.  The blanks are the ASCII ones; the other Unicode spaces that
    fmt skips are not covered. *)
Definition isBlank (c : ascii) : bool :=
  match c with
  | " "%char | "009"%char | "011"%char | "012"%char | "013"%char => true
  | _ => false
  end.

Fixpoint skipSpace (s : string) : option string :=
  match s with
  | "" => Some ""
  | String c s' =>
      if isBlank c then skipSpace s'
      else if Ascii.eqb c "010" then None
      else Some s
  end.

Definition digitVal (c : ascii) : option Z :=
  let n := Z.of_nat (nat_of_ascii c) in
  if (48 <=? n)%Z && (n <=? 57)%Z then Some (n - 48)%Z else None.

(** Reads the digits at the head of [s], accumulating their value. *)
Fixpoint scanDigits (s : string) (acc : Z) (seen : bool) : option Z * string :=
  match s with
  | "" => (if seen then Some acc else None, "")
  | String c s' =>
      match digitVal c with
      | Some d => scanDigits s' (10 * acc + d)%Z true
      | None => (if seen then Some acc else None, s)
      end
  end.

(** verb %d into an int64 *)
Definition Sscanf_d (input : string) : option Z :=
  match skipSpace input with
  | None | Some "" => None
  | Some (String c s' as s) =>
      let '(neg, s1) :=
        if Ascii.eqb c "-" then (true, s')
        else if Ascii.eqb c "+" then (false, s') else (false, s) in
      match fst (scanDigits s1 0 false) with
      | None => None
      | Some n =>
          let i := if neg then (- n)%Z else n in
          if (- 2 ^ 63 <=? i)%Z && (i <? 2 ^ 63)%Z then Some i else None
      end
  end.

(** verb %d into a uint64: no sign is accepted *)
Definition Sscanf_u (input : string) : option Z :=
  match skipSpace input with
  | None | Some "" => None
  | Some s =>
      match fst (scanDigits s 0 false) with
      | None => None
      | Some n => if (n <? 2 ^ 64)%Z then Some n else None
      end
  end.

(** verb %t *)
Definition acceptChar (set : list ascii) (s : string) : bool * string :=
  match s with
  | String c s' => if existsb (Ascii.eqb c) set then (true, s') else (false, s)
  | "" => (false, s)
  end.

Definition Sscanf_t (input : string) : option bool :=
  match skipSpace input with
  | None | Some "" => None
  | Some (String c s1) =>
      if Ascii.eqb c "0" then Some false
      else if Ascii.eqb c "1" then Some true
      else if Ascii.eqb c "t" || Ascii.eqb c "T" then
        let '(r, s2) := acceptChar ["r"; "R"]%char s1 in
        if r then
          let '(u, s3) := acceptChar ["u"; "U"]%char s2 in
          let '(e, _) := acceptChar ["e"; "E"]%char s3 in
          if u && e then Some true else None
        else Some true
      else if Ascii.eqb c "f" || Ascii.eqb c "F" then
        let '(a, s2) := acceptChar ["a"; "A"]%char s1 in
        if a then
          let '(l, s3) := acceptChar ["l"; "L"]%char s2 in
          let '(s_, s4) := acceptChar ["s"; "S"]%char s3 in
          let '(e, _) := acceptChar ["e"; "E"]%char s4 in
          if l && s_ && e then Some false else None
        else Some false
      else Some false                 (* any other character: false, no error *)
  end.

(** verb %f: the token is returned as it stands.  Covered: an optional
    sign, decimal digits with an optional fraction and an optional
    decimal exponent.  Not covered, and answered with a scan error by
    the model whatever fmt does: a token with a digit separator '_',
    NaN, Inf, hexadecimal mantissas and binary exponents; nor does the
    model fail on a number out of the range of float64. *)
Fixpoint takeDigits (s : string) : string * string :=
  match s with
  | "" => ("", "")
  | String c s' =>
      match digitVal c with
      | Some _ => let '(d, r) := takeDigits s' in (String c d, r)
      | None =>
          if Ascii.eqb c "_" then let '(d, r) := takeDigits s' in (String c d, r)
          else ("", s)
      end
  end.

Fixpoint countDigits (s : string) : nat :=
  match s with
  | "" => 0%nat
  | String c s' =>
      (match digitVal c with Some _ => 1 | None => 0 end + countDigits s')%nat
  end.

Definition Sscanf_f (input : string) : option string :=
  match skipSpace input with
  | None | Some "" => None
  | Some s =>
      let '(sg, s1) := acceptChar ["+"; "-"]%char s in
      let sign := if sg then substring 0 1 s else "" in
      let '(ip, s2) := takeDigits s1 in
      let '(dot, s3) := acceptChar ["."]%char s2 in
      let '(fp, s4) := if dot then takeDigits s3 else ("", s3) in
      let '(ex, s5) := acceptChar ["e"; "E"]%char s4 in
      let '(esg, s6) := if ex then acceptChar ["+"; "-"]%char s5 else (false, s5) in
      let '(ed, _) := if ex then takeDigits s6 else ("", s6) in
      if Contains (ip +:+ fp +:+ ed) "_" then None
      else if (countDigits ip + countDigits fp =? 0)%nat then None
      else if ex && (countDigits ed =? 0)%nat then None
      else Some (sign +:+ ip +:+ (if dot then "." else "") +:+ fp
                 +:+ (if ex then substring 0 1 s4 else "")
                 +:+ (if esg then substring 0 1 s5 else "") +:+ ed)
  end.

(** Two's-complement truncation of SetInt / SetUint into a narrower kind. *)
Definition wrapSigned (bits i : Z) : Z :=
  ((i + 2 ^ (bits - 1)) mod 2 ^ bits - 2 ^ (bits - 1))%Z.

Definition wrapUnsigned (bits i : Z) : Z := (i mod 2 ^ bits)%Z.

(** *** regexp

    The expressions parseResourcePattern builds are anchored sequences of
    literal characters and of the group it substitutes for a placeholder.
    The model covers that fragment: [Compile] answers [None] on any
    other expression (one with a further metacharacter), where Go would
    either reject the expression or build another matcher. *)
Inductive reItem : Type :=
| reLit (c : ascii)
| reGroup.                         (* ([^/]+) *)

Definition Regexp := list reItem.

Definition isMeta (c : ascii) : bool :=
  existsb (Ascii.eqb c)
    ["\"; "."; "+"; "*"; "?"; "("; ")"; "|"; "["; "]"; "{"; "}"; "^"; "$"]%char.

Definition groupExpr : string := "([^/]+)".

Fixpoint parseItems (fuel : nat) (s : string) : option Regexp :=
  match fuel with
  | O => None
  | S fuel' =>
      match s with
      | "" => None                                   (* the closing $ is missing *)
      | String "$" "" => Some []
      | String c s' =>
          if String.prefix groupExpr s
          then cons reGroup <$> parseItems fuel' (dropString (String.length groupExpr) s)
          else if isMeta c then None
          else cons (reLit c) <$> parseItems fuel' s'
      end
  end.

(** regexp.Compile on "^" + regexStr + "$" *)
Definition Compile (expr : string) : option Regexp :=
  match expr with
  | String "^" s => parseItems (S (String.length s)) s
  | _ => None
  end.

(** Leftmost-first matching of the whole input.  [matchGroup k] is the
    group followed by what [k] matches: the group takes the longest run
    of characters other than '/' that lets the rest match. *)
Fixpoint matchGroup (k : string -> option (list string)) (s : string)
    : option (list string) :=
  match s with
  | "" => None
  | String c s' =>
      if Ascii.eqb c "/" then None
      else match matchGroup k s' with
           | Some (cap :: caps) => Some (String c cap :: caps)
           | _ => match k s' with
                  | Some caps => Some (String c "" :: caps)
                  | None => None
                  end
           end
  end.

Fixpoint matchItems (re : Regexp) (s : string) : option (list string) :=
  match re with
  | [] => match s with "" => Some [] | _ => None end
  | reLit c :: re' =>
      match s with
      | String c' s' => if Ascii.eqb c c' then matchItems re' s' else None
      | "" => None
      end
  | reGroup :: re' => matchGroup (matchItems re') s
  end.


(** Regexp.FindStringSubmatch: the whole match, then the captures *)
Definition FindStringSubmatch (re : Regexp) (s : string) : option (list string) :=
  cons s <$> matchItems re s.

(** FindAllStringSubmatch(pattern, -1) for the expression \{([^}]+)\}:
    the successive placeholders, each as (match[0], match[1]).
    [inside] holds the name read so far after an opening brace. *)
Fixpoint scanPlaceholders (s : string) (inside : option string) : list (string * string) :=
  match s with
  | "" => []
  | String c s' =>
      match inside with
      | None =>
          if Ascii.eqb c "{" then scanPlaceholders s' (Some "")
          else scanPlaceholders s' None
      | Some name =>
          if Ascii.eqb c "}" then
            match name with
            | "" => scanPlaceholders s' None
            | _ => ("{" +:+ name +:+ "}", name) :: scanPlaceholders s' None
            end
          else scanPlaceholders s' (Some (name +:+ String c ""))
      end
  end.

Definition FindAllPlaceholders (pattern : string) : list (string * string) :=
  scanPlaceholders pattern None.

(** *** net/url

    url.Parse, as far as matchResource reads its result: whether parsing
    fails, and the Path of the parsed URL.  The fragment is cut off, the
    scheme and the query are split off, an authority introduced by "//"
    is skipped, and the percent-escapes of the path are decoded.  The
    validation of the authority itself (user information, port, address
    literals) is not reproduced: it is taken to be well formed, so a URI
    that url.Parse refuses for its authority is parsed here. *)
Definition isLetter (c : ascii) : bool :=
  let n := nat_of_ascii c in
  ((65 <=? n) && (n <=? 90) || (97 <=? n) && (n <=? 122))%nat.

Definition isSchemeChar (c : ascii) : bool :=
  let n := nat_of_ascii c in
  ((48 <=? n) && (n <=? 57))%nat
  || Ascii.eqb c "+" || Ascii.eqb c "-" || Ascii.eqb c ".".

Definition isCTL (c : ascii) : bool :=
  let n := nat_of_ascii c in ((n <? 32) || (n =? 127))%nat.

Fixpoint containsCTL (s : string) : bool :=
  match s with
  | "" => false
  | String c s' => isCTL c || containsCTL s'
  end.

(** getScheme: [None] for the error "missing protocol scheme", otherwise
    the scheme (possibly empty) and what follows it. *)
Fixpoint getSchemeFrom (whole s : string) (i : nat) (acc : string)
    : option (string * string) :=
  match s with
  | "" => Some ("", whole)
  | String c s' =>
      if isLetter c then getSchemeFrom whole s' (S i) (acc +:+ String c "")
      else if isSchemeChar c then
        match i with
        | O => Some ("", whole)
        | _ => getSchemeFrom whole s' (S i) (acc +:+ String c "")
        end
      else if Ascii.eqb c ":" then
        match i with
        | O => None
        | _ => Some (acc, s')
        end
      else Some ("", whole)
  end.

Definition getScheme (rawURL : string) : option (string * string) :=
  getSchemeFrom rawURL rawURL 0 "".

Definition hexVal (c : ascii) : option nat :=
  let n := nat_of_ascii c in
  if ((48 <=? n) && (n <=? 57))%nat then Some (n - 48)%nat
  else if ((97 <=? n) && (n <=? 102))%nat then Some (n - 87)%nat
  else if ((65 <=? n) && (n <=? 70))%nat then Some (n - 55)%nat
  else None.

(** unescape(s, encodePath) and unescape(s, encodeFragment) *)
Fixpoint unescape (s : string) : option string :=
  match s with
  | "" => Some ""
  | String "%" (String a (String b rest)) =>
      match hexVal a, hexVal b with
      | Some x, Some y => String (ascii_of_nat (16 * x + y)) <$> unescape rest
      | _, _ => None
      end
  | String "%" _ => None
  | String c rest => String c <$> unescape rest
  end.

Fixpoint countChar (s : string) (c : ascii) : nat :=
  match s with
  | "" => 0%nat
  | String c' s' => ((if Ascii.eqb c c' then 1 else 0) + countChar s' c)%nat
  end.

Fixpoint hasSuffixChar (s : string) (c : ascii) : bool :=
  match s with
  | "" => false
  | String c' "" => Ascii.eqb c c'
  | String _ s' => hasSuffixChar s' c
  end.

(** parse(rawURL, viaRequest = false), reduced to the Path it sets *)
Definition parsePath (rawURL : string) : option string :=
  if containsCTL rawURL then None
  else if String.eqb rawURL "*" then Some "*"
  else
    match getScheme rawURL with
    | None => None
    | Some (scheme, rest0) =>
        let rest :=
          if hasSuffixChar rest0 "?" && (countChar rest0 "?" =? 1)%nat
          then substring 0 (String.length rest0 - 1) rest0
          else fst (fst (Cut rest0 "?")) in
        if negb (String.prefix "/" rest) && negb (String.eqb scheme "")
        then Some ""                                  (* an opaque URL *)
        else if negb (String.prefix "/" rest)
                && Contains (fst (fst (Cut rest "/"))) ":"
        then None                  (* first path segment cannot contain colon *)
        else
          let rest' :=
            if (negb (String.eqb scheme "") || negb (String.prefix "///" rest))
               && String.prefix "//" rest
            then
              let authority := dropString 2 rest in
              let '(_, after, found) := Cut authority "/" in
              if found then String "/" after else ""
            else rest in
          unescape rest'
    end.

(** url.Parse(uri).Path; [None] when Parse returns an error *)
Definition Parse_Path (rawURL : string) : option string :=
  let '(u, frag, _) := Cut rawURL "#" in
  match parsePath u with
  | None => None
  | Some path =>
      match unescape frag with
      | None => None
      | Some _ => Some path
      end
  end.




End Go.
Export Go.

(** ** Package protocol *)

Module protocol.

Definition LatestProtocolVersion : string := "2024-11-05".

(** RequestID is interface{}: a string or a number. *)
Definition RequestID := value.

Definition RoleUser : string := "user".
Definition RoleAssistant : string := "assistant".

Record Implementation : Type := {
  Impl_Name : string;
  Impl_Version : string
}.

(** Capabilities; a nil pointer or nil map is [None]. *)
Record ClientCapabilities : Type := {
  CC_Experimental : option (gmap string (gmap string value));
  CC_Sampling : option unit;
  CC_Roots : option (option bool)
}.

Record ServerCapabilities : Type := {
  SC_Experimental : option (gmap string (gmap string value));
  SC_Logging : option unit;
  SC_Prompts : option (option bool);
  SC_Resources : option (option bool * option bool);
  SC_Tools : option (option bool)
}.

Record InitializeRequestParams : Type := {
  Init_Meta : option value;
  Init_ProtocolVersion : string;
  Init_Capabilities : ClientCapabilities;
  Init_ClientInfo : Implementation
}.

Record InitializeResult : Type := {
  IR_ProtocolVersion : string;
  IR_Capabilities : ServerCapabilities;
  IR_ServerInfo : Implementation;
  IR_Instructions : option string
}.

Record CallToolRequestParams : Type := {
  Call_Meta : option value;
  Call_Name : string;
  Call_Arguments : option (gmap string value)
}.

(** Content is []interface{}. *)
Record CallToolResult : Type := {
  CTR_Content : list value;
  CTR_IsError : bool
}.

(** A *url.URL is represented by the text its String() method returns. *)
Record ReadResourceRequestParams : Type := {
  Read_Meta : option value;
  Read_URI : option string
}.

Record GetPromptRequestParams : Type := {
  Get_Meta : option value;
  Get_Name : string;
  Get_Arguments : option (gmap string string)
}.

Record CancelledNotificationParams : Type := {
  Cancel_Meta : option value;
  Cancel_RequestID : RequestID;
  Cancel_Reason : string
}.

Record PromptArgument : Type := {
  PA_Name : string;
  PA_Description : string;
  PA_Required : option bool
}.

(** protocol.PromptMessage as a value; Content is interface{}. *)
Definition PromptMessage (role : string) (content : value) : value :=
  VStruct "protocol.PromptMessage" [("Role", VString role); ("Content", content)].

Record GetPromptResult : Type := {
  GPR_Description : string;
  GPR_Messages : list value
}.

Record Tool : Type := { Tool_Name : string; Tool_Description : string }.
Record Resource : Type := {
  Resource_URI : string; Resource_Name : string; Resource_Description : string
}.
Record Prompt : Type := { Prompt_Name : string; Prompt_Description : string }.

(** protocol.TextContent as a value held in an interface{} *)
Definition TextContent (text : string) : value :=
  VStruct "protocol.TextContent"
    [("Type", VString "text"); ("Text", VString text);
     ("Annotations", VNilOf (TPtr (TNamed "protocol.Annotations")))].

Definition NewTextContent (text : string) : value := TextContent text.

(** A json.RawMessage, given by what json.Unmarshal makes of it for each
    of the parameter structs; [None] when Unmarshal returns an error (the
    bytes are no JSON text, or a member has the wrong JSON type). *)
Record RawMessage : Type := {
  asInitializeRequestParams : option InitializeRequestParams;
  asCallToolRequestParams : option CallToolRequestParams;
  asReadResourceRequestParams : option ReadResourceRequestParams;
  asGetPromptRequestParams : option GetPromptRequestParams;
  asCancelledNotificationParams : option CancelledNotificationParams
}.

(** The Params field is interface{}: the transports store a
    json.RawMessage in it, another caller may store anything or nothing. *)
Inductive ParamsField : Type :=
| Raw (m : RawMessage)
| NotRaw (x : value).

Record JSONRPCRequest : Type := {
  Req_JSONRPC : string;
  Req_ID : RequestID;
  Req_Method : string;
  Req_Params : ParamsField
}.

Record JSONRPCNotification : Type := {
  Notif_JSONRPC : string;
  Notif_Method : string;
  Notif_Params : ParamsField
}.

(** The Result field is interface{}; these are the results the handlers
    store in it. *)
Inductive ResultValue : Type :=
| ResInitialize (r : InitializeResult)
| ResEmpty                                   (* struct{}{} *)
| ResListTools (tools : list Tool)
| ResCallTool (r : CallToolResult)
| ResListResources (resources : list Resource)
| ResReadResource (contents : list value)
| ResListPrompts (prompts : list Prompt)
| ResGetPrompt (r : GetPromptResult).

Record JSONRPCResponse : Type := {
  Resp_JSONRPC : string;
  Resp_ID : RequestID;
  Resp_Result : ResultValue
}.

(** Data holds err.Error(); the error is kept as it is. *)
Record ErrorData : Type := {
  ED_Code : Z;
  ED_Message : string;
  ED_Data : error
}.

Record JSONRPCError : Type := {
  JErr_JSONRPC : string;
  JErr_ID : RequestID;
  JErr_Error : ErrorData
}.

End protocol.

(** ** Package server: the registry *)

Module server.

Record Tool : Type := {
  Tool_Handler : HandlerValue;
  Tool_Description : string;
  Tool_IsAsync : bool
}.

Record Resource : Type := {
  Resource_Handler : HandlerValue;
  Resource_Description : string;
  Resource_Pattern : string
}.

Record Prompt : Type := {
  Prompt_Handler : HandlerValue;
  Prompt_Description : string
}.

Record Server : Type := {
  Server_name : string;
  Server_capabilities : protocol.ServerCapabilities;
  Server_info : protocol.Implementation;
  Server_tools : gmap string Tool;
  Server_resources : gmap string Resource;
  Server_prompts : gmap string Prompt
}.

(** options.go *)
Definition ServerOption := Server -> Server.

Definition WithCapabilities (caps : protocol.ServerCapabilities) : ServerOption :=
  fun s =>
  {| Server_name := Server_name s; Server_capabilities := caps;
     Server_info := Server_info s; Server_tools := Server_tools s;
     Server_resources := Server_resources s; Server_prompts := Server_prompts s |}.

Definition WithImplementation (impl : protocol.Implementation) : ServerOption :=
  fun s =>
  {| Server_name := Server_name s; Server_capabilities := Server_capabilities s;
     Server_info := impl; Server_tools := Server_tools s;
     Server_resources := Server_resources s; Server_prompts := Server_prompts s |}.

Definition NewServer (name : string) (opts : list ServerOption) : Server :=
  foldl (fun s opt => opt s)
    {| Server_name := name;
       Server_tools := ∅;
       Server_resources := ∅;
       Server_prompts := ∅;
       Server_info := {| protocol.Impl_Name := name;
                         protocol.Impl_Version := protocol.LatestProtocolVersion |};
       Server_capabilities :=
         {| protocol.SC_Experimental := None;
            protocol.SC_Tools := Some None;
            protocol.SC_Resources := Some (None, None);
            protocol.SC_Prompts := Some None;
            protocol.SC_Logging := Some () |} |}
    opts.

Definition setTools (s : Server) (m : gmap string Tool) : Server :=
  {| Server_name := Server_name s; Server_capabilities := Server_capabilities s;
     Server_info := Server_info s; Server_tools := m;
     Server_resources := Server_resources s; Server_prompts := Server_prompts s |}.

Definition setResources (s : Server) (m : gmap string Resource) : Server :=
  {| Server_name := Server_name s; Server_capabilities := Server_capabilities s;
     Server_info := Server_info s; Server_tools := Server_tools s;
     Server_resources := m; Server_prompts := Server_prompts s |}.

Definition setPrompts (s : Server) (m : gmap string Prompt) : Server :=
  {| Server_name := Server_name s; Server_capabilities := Server_capabilities s;
     Server_info := Server_info s; Server_tools := Server_tools s;
     Server_resources := Server_resources s; Server_prompts := m |}.

(** The Add functions return the server as it is afterwards and the
    error, [None] for nil. *)
Definition AddTool (name : string) (handler : HandlerValue) (description : string)
    (s : Server) : Server * option error :=
  match Server_tools s !! name with
  | Some _ => (s, Some (errorText ("tool " +:+ name +:+ " already exists")))
  | None =>
      (setTools s (<[name := {| Tool_Handler := handler;
                                Tool_Description := description;
                                Tool_IsAsync := false |}]> (Server_tools s)),
       None)
  end.

Definition AddAsyncTool (name : string) (handler : HandlerValue) (description : string)
    (s : Server) : Server * option error :=
  match Server_tools s !! name with
  | Some _ => (s, Some (errorText ("tool " +:+ name +:+ " already exists")))
  | None =>
      (setTools s (<[name := {| Tool_Handler := handler;
                                Tool_Description := description;
                                Tool_IsAsync := true |}]> (Server_tools s)),
       None)
  end.

Definition AddResource (pattern : string) (handler : HandlerValue) (description : string)
    (s : Server) : Server * option error :=
  match Server_resources s !! pattern with
  | Some _ => (s, Some (errorText ("resource " +:+ pattern +:+ " already exists")))
  | None =>
      (setResources s (<[pattern := {| Resource_Handler := handler;
                                       Resource_Description := description;
                                       Resource_Pattern := pattern |}]>
                         (Server_resources s)),
       None)
  end.

Definition AddPrompt (name : string) (handler : HandlerValue) (description : string)
    (s : Server) : Server * option error :=
  match Server_prompts s !! name with
  | Some _ => (s, Some (errorText ("prompt " +:+ name +:+ " already exists")))
  | None =>
      (setPrompts s (<[name := {| Prompt_Handler := handler;
                                  Prompt_Description := description |}]>
                       (Server_prompts s)),
       None)
  end.

(** *** Sessions (server.go) *)

(** The session: its server is passed to the operations, which read the
    registry as it is at the time of the call. *)
Record Session : Type := {
  Session_initialized : bool;
  Session_capabilities : protocol.ClientCapabilities;
  Session_clientInfo : protocol.Implementation
}.

Definition NewSession : Session :=
  {| Session_initialized := false;
     Session_capabilities :=
       {| protocol.CC_Experimental := None; protocol.CC_Sampling := None;
          protocol.CC_Roots := None |};
     Session_clientInfo := {| protocol.Impl_Name := ""; protocol.Impl_Version := "" |} |}.

(** req.Params.(json.RawMessage) *)
Definition assertRawMessage (p : protocol.ParamsField) : outcome protocol.RawMessage :=
  match p with
  | protocol.Raw m => Ok m
  | protocol.NotRaw _ => Panic InterfaceConversion
  end.

(** json.Unmarshal(raw, &params) *)
Definition Unmarshal {A} (target : protocol.RawMessage -> option A)
    (raw : protocol.RawMessage) : outcome A :=
  match target raw with
  | Some params => Ok params
  | None => Err (libError JSONError)
  end.

(** fmt.Errorf(msg + "%w", err) on the error path of a call *)
Definition wrapping {A} (msg : string) (o : outcome A) : outcome A :=
  match o with
  | Err e => Err (wrapError msg e)
  | _ => o
  end.

Definition response (req : protocol.JSONRPCRequest) (result : protocol.ResultValue)
    : protocol.JSONRPCResponse :=
  {| protocol.Resp_JSONRPC := "2.0";
     protocol.Resp_ID := protocol.Req_ID req;
     protocol.Resp_Result := result |}.

Definition handleInitialize (srv : Server) (s : Session) (req : protocol.JSONRPCRequest)
    : Session * outcome protocol.JSONRPCResponse :=
  match raw ← assertRawMessage (protocol.Req_Params req);
        wrapping "invalid initialize params: "
          (Unmarshal protocol.asInitializeRequestParams raw) with
  | Panic p => (s, Panic p)
  | Err e => (s, Err e)
  | Ok params =>
      ({| Session_capabilities := protocol.Init_Capabilities params;
          Session_clientInfo := protocol.Init_ClientInfo params;
          Session_initialized := true |},
       Ok (response req (protocol.ResInitialize
             {| protocol.IR_ProtocolVersion := protocol.LatestProtocolVersion;
                protocol.IR_Capabilities := Server_capabilities srv;
                protocol.IR_ServerInfo := Server_info srv;
                protocol.IR_Instructions := None |})))
  end.

Definition handlePing (req : protocol.JSONRPCRequest) : outcome protocol.JSONRPCResponse :=
  Ok (response req protocol.ResEmpty).

Definition handleInitialized (notif : protocol.JSONRPCNotification) : outcome unit :=
  Ok ().

Definition handleCancelled (notif : protocol.JSONRPCNotification) : outcome unit :=
  raw ← assertRawMessage (protocol.Notif_Params notif);
  _ ← wrapping "invalid cancellation params: "
        (Unmarshal protocol.asCancelledNotificationParams raw);
  Ok ().

(** *** The invocation engine for tools (handlers.go) *)

(** The loop of handleCallTool over the declared parameters, from
    parameter [i] on. *)
Fixpoint bindToolArgs (arguments : option (gmap string value)) (i : nat)
    (ins : list GoType) : outcome (list Value) :=
  match ins with
  | [] => Ok []
  | paramType :: ins' =>
      let argName := "arg" +:+ itoa i in
      match arguments with
      | Some m =>
          match m !! argName with
          | Some argValue =>
              (* Directly assign the argument value *)
              args ← bindToolArgs arguments (S i) ins';
              Ok (ValueOf argValue :: args)
          | None => Err (errorText ("missing argument: " +:+ argName))
          end
      | None => Err (errorText "arguments map is nil")
      end
  end.

(** "Process results" of handleCallTool *)
Definition toolResult (results : list Value) : outcome protocol.CallToolResult :=
  match results with
  | [r0; r1] =>                                 (* Function returns (value, error) *)
      isNil ← IsNil r1;
      if negb isNil then
        match Interface r1 with
        | VError msg =>
            Ok {| protocol.CTR_Content := [protocol.NewTextContent msg];
                  protocol.CTR_IsError := true |}
        | _ => Panic InterfaceConversion
        end
      else Ok {| protocol.CTR_Content := [VString (String_ r0)];
                 protocol.CTR_IsError := false |}
  | r0 :: _ =>                                  (* Function returns single value *)
      Ok {| protocol.CTR_Content := [VString (String_ r0)];
            protocol.CTR_IsError := false |}
  | [] => Panic (IndexOutOfRange 0 0)
  end.

Definition handleCallTool (srv : Server) (req : protocol.JSONRPCRequest)
    : outcome protocol.JSONRPCResponse :=
  raw ← assertRawMessage (protocol.Req_Params req);
  params ← wrapping "invalid tool call params: "
             (Unmarshal protocol.asCallToolRequestParams raw);
  match Server_tools srv !! protocol.Call_Name params with
  | None => Err (errorText ("tool not found: " +:+ protocol.Call_Name params))
  | Some tool =>
      ins ← handlerIn (Tool_Handler tool);
      args ← bindToolArgs (protocol.Call_Arguments params) 0 ins;
      results ← Call (Tool_Handler tool) args;
      result ← toolResult results;
      Ok (response req (protocol.ResCallTool result))
  end.

(** *** Resources (resource.go) *)

Record resourcePattern : Type := {
  rp_pattern : string;
  rp_regex : Regexp;
  rp_paramNames : list string;
  rp_paramTypes : list GoType;
  rp_handlerType : list GoType
}.

(** The loop of parseResourcePattern over the placeholders found, from
    placeholder [i] on; the names and types are collected in order. *)
Fixpoint placeholderLoop (pattern : string) (ins : list GoType)
    (matches : list (string * string)) (i : nat) (regexStr : string)
    : outcome (list string * list GoType * string) :=
  match matches with
  | [] => Ok ([], [], regexStr)
  | (match0, paramName) :: matches' =>
      match ins !! i with
      | None =>
          Err (errorText ("not enough parameters in handler for pattern " +:+ pattern))
      | Some paramType =>
          '(names, types, regexStr') ←
            placeholderLoop pattern ins matches' (S i)
              (Replace1 regexStr match0 groupExpr);
          Ok (paramName :: names, paramType :: types, regexStr')
      end
  end.

Definition parseResourcePattern (pattern : string) (handler : HandlerValue)
    : outcome resourcePattern :=
  isFunc ← kindIsFunc handler;
  if negb isFunc then Err (errorText "handler must be a function")
  else
    ins ← handlerIn handler;
    '(paramNames, paramTypes, regexStr) ←
      placeholderLoop pattern ins (FindAllPlaceholders pattern) 0 pattern;
    match Compile ("^" +:+ regexStr +:+ "$") with
    | None =>
        Err (wrapError ("invalid pattern " +:+ pattern +:+ ": ") (libError RegexpError))
    | Some regex =>
        Ok {| rp_pattern := pattern; rp_regex := regex;
              rp_paramNames := paramNames; rp_paramTypes := paramTypes;
              rp_handlerType := ins |}
    end.



(** convertValue(value, target) for a target of type [t]: the value that
    ends up stored in the target. *)
Definition convertValue (value : string) (t : GoType) : outcome Go.value :=
  match kindOf t with
  | KString => Ok (VString value)
  | KInt bits =>
      match Sscanf_d value with
      | Some i => Ok (VInt t (wrapSigned bits i))
      | None => Err (libError ScanError)
      end
  | KUint bits =>
      match Sscanf_u value with
      | Some u => Ok (VInt t (wrapUnsigned bits u))
      | None => Err (libError ScanError)
      end
  | KFloat =>
      match Sscanf_f value with
      | Some f => Ok (VFloat t f)
      | None => Err (libError ScanError)
      end
  | KBool =>
      match Sscanf_t value with
      | Some b => Ok (VBool b)
      | None => Err (libError ScanError)
      end
  | _ => Err (errorText ("unsupported type: " +:+ typeString t))
  end.

(** "Extract parameters" of matchResource: the names paired with their
    types, [matches] being the result of FindStringSubmatch. *)
Fixpoint extractParams (names : list string) (types : list GoType)
    (matches : list string) (i : nat) (params : gmap string value)
    : outcome (gmap string value) :=
  match names with
  | [] => Ok params
  | name :: names' =>
      match types !! i, matches !! S i with
      | Some t, Some m =>
          match convertValue m t with
          | Ok v => extractParams names' types matches (S i) (<[name := v]> params)
          | Err e => Err (wrapError ("invalid parameter " +:+ name +:+ ": ") e)
          | Panic p => Panic p
          end
      | None, _ => Panic (IndexOutOfRange i (length types))
      | _, None => Panic (IndexOutOfRange (S i) (length matches))
      end
  end.

(** The loop of matchResource over the registered patterns, in the order
    [range] yields them. *)
Fixpoint matchLoop (entries : list (string * Resource)) (path uri : string)
    : outcome (Resource * gmap string value) :=
  match entries with
  | [] => Err (errorText ("no matching resource found for " +:+ uri))
  | (pattern, resource) :: entries' =>
      match parseResourcePattern pattern (Resource_Handler resource) with
      | Panic p => Panic p
      | Err _ => matchLoop entries' path uri
      | Ok rp =>
          match FindStringSubmatch (rp_regex rp) path with
          | None => matchLoop entries' path uri
          | Some matches =>
              params ← extractParams (rp_paramNames rp) (rp_paramTypes rp) matches 0 ∅;
              Ok (resource, params)
          end
      end
  end.

(** The loop of readResource over the declared parameters. *)
Fixpoint bindResourceArgs (params : gmap string value) (i : nat) (ins : list GoType)
    : list Value :=
  match ins with
  | [] => []
  | paramType :: ins' =>
      let paramName := "param" +:+ itoa i in
      match params !! paramName with
      | Some paramValue => ValueOf paramValue
      | None => Zero paramType
      end :: bindResourceArgs params (S i) ins'
  end.

Definition readResource (resource : Resource) (params : gmap string value)
    : outcome (list value) :=
  ins ← handlerIn (Resource_Handler resource);
  results ← Call (Resource_Handler resource) (bindResourceArgs params 0 ins);
  match results with
  | [r0; r1] =>                                 (* Handler returns (value, error) *)
      isNil ← IsNil r1;
      if negb isNil then
        match Interface r1 with
        | VError msg => Err (errorText msg)
        | _ => Panic InterfaceConversion
        end
      else Ok [Interface r0]
  | r0 :: _ => Ok [Interface r0]                (* Handler returns single value *)
  | [] => Panic (IndexOutOfRange 0 0)
  end.

(** *** Prompts (prompt.go) *)

Record promptTemplate : Type := {
  pt_handler : HandlerValue;
  pt_description : string;
  pt_arguments : list protocol.PromptArgument
}.

Fixpoint promptArguments (i : nat) (ins : list GoType) : list protocol.PromptArgument :=
  match ins with
  | [] => []
  | paramType :: ins' =>
      {| protocol.PA_Name := "arg" +:+ itoa i;
         protocol.PA_Description := "Argument of type " +:+ typeString paramType;
         protocol.PA_Required := Some true |} :: promptArguments (S i) ins'
  end.

Definition parsePromptTemplate (name : string) (handler : HandlerValue)
    (description : string) : outcome promptTemplate :=
  isFunc ← kindIsFunc handler;
  if negb isFunc then Err (errorText "handler must be a function")
  else
    ins ← handlerIn handler;
    Ok {| pt_handler := handler; pt_description := description;
          pt_arguments := promptArguments 0 ins |}.

(** args[argName]: a lookup in a nil map finds nothing. *)
Definition lookupArg {V} (args : option (gmap string V)) (argName : string) : option V :=
  args ≫= (fun m => m !! argName).

(** The loop of renderPrompt over the declared parameters, from
    parameter [i] on. *)
Fixpoint bindPromptArgs (args : option (gmap string string)) (i : nat)
    (ins : list GoType) : outcome (list Value) :=
  match ins with
  | [] => Ok []
  | paramType :: ins' =>
      let argName := "arg" +:+ itoa i in
      match lookupArg args argName with
      | Some argValue =>
          match convertValue argValue paramType with
          | Ok v =>
              handlerArgs ← bindPromptArgs args (S i) ins';
              Ok (Val paramType v :: handlerArgs)
          | Err e => Err (wrapError ("invalid argument " +:+ argName +:+ ": ") e)
          | Panic p => Panic p
          end
      | None =>
          handlerArgs ← bindPromptArgs args (S i) ins';
          Ok (Zero paramType :: handlerArgs)
      end
  end.

(** fmt's %T *)
Definition fmtT (v : value) : string :=
  match dynType v with
  | Some t => typeString t
  | None => "<nil>"
  end.

Definition promptMessages (results : list Value) : outcome (list value) :=
  match results with
  | [] => Panic (IndexOutOfRange 0 0)
  | r0 :: _ =>
      match Interface r0 with
      | VString result =>
          Ok [protocol.PromptMessage protocol.RoleAssistant (protocol.TextContent result)]
      | VSlice (TNamed "protocol.PromptMessage") result => Ok result
      | VNilOf (TSlice (TNamed "protocol.PromptMessage")) => Ok []
      | result =>
          Err (errorText ("invalid prompt handler return type: " +:+ fmtT result))
      end
  end.

Definition renderPrompt (prompt : Prompt) (args : option (gmap string string))
    : outcome (list value) :=
  ins ← handlerIn (Prompt_Handler prompt);
  handlerArgs ← bindPromptArgs args 0 ins;
  results ← Call (Prompt_Handler prompt) handlerArgs;
  promptMessages results.

Definition handleGetPrompt (srv : Server) (req : protocol.JSONRPCRequest)
    : outcome protocol.JSONRPCResponse :=
  raw ← assertRawMessage (protocol.Req_Params req);
  params ← wrapping "invalid prompt get params: "
             (Unmarshal protocol.asGetPromptRequestParams raw);
  match Server_prompts srv !! protocol.Get_Name params with
  | None => Err (errorText ("prompt not found: " +:+ protocol.Get_Name params))
  | Some prompt =>
      messages ← wrapping "failed to render prompt: "
                   (renderPrompt prompt (protocol.Get_Arguments params));
      Ok (response req (protocol.ResGetPrompt
            {| protocol.GPR_Description := Prompt_Description prompt;
               protocol.GPR_Messages := messages |}))
  end.

(** *** Operations that range over the registry *)

Section Ranging.

(** The order in which a [range] statement visits the entries of a map. *)
Variable rangeOrder : forall A : Type, gmap string A -> list (string * A).

Definition matchResource (srv : Server) (uri : string)
    : outcome (Resource * gmap string value) :=
  match Parse_Path uri with
  | None => Err (wrapError "invalid URI: " (libError URLError))
  | Some path => matchLoop (rangeOrder _ (Server_resources srv)) path uri
  end.

Definition handleListTools (srv : Server) (req : protocol.JSONRPCRequest)
    : outcome protocol.JSONRPCResponse :=
  Ok (response req (protocol.ResListTools
        (map (fun '(name, tool) =>
                {| protocol.Tool_Name := name;
                   protocol.Tool_Description := Tool_Description tool |})
             (rangeOrder _ (Server_tools srv))))).

Definition handleListResources (srv : Server) (req : protocol.JSONRPCRequest)
    : outcome protocol.JSONRPCResponse :=
  Ok (response req (protocol.ResListResources
        (map (fun '(_, resource) =>
                {| protocol.Resource_URI := Resource_Pattern resource;
                   protocol.Resource_Name := Resource_Pattern resource;
                   protocol.Resource_Description := Resource_Description resource |})
             (rangeOrder _ (Server_resources srv))))).

Definition handleListPrompts (srv : Server) (req : protocol.JSONRPCRequest)
    : outcome protocol.JSONRPCResponse :=
  Ok (response req (protocol.ResListPrompts
        (map (fun '(name, prompt) =>
                {| protocol.Prompt_Name := name;
                   protocol.Prompt_Description := Prompt_Description prompt |})
             (rangeOrder _ (Server_prompts srv))))).

Definition handleReadResource (srv : Server) (req : protocol.JSONRPCRequest)
    : outcome protocol.JSONRPCResponse :=
  raw ← assertRawMessage (protocol.Req_Params req);
  params ← wrapping "invalid resource read params: "
             (Unmarshal protocol.asReadResourceRequestParams raw);
  match protocol.Read_URI params with
  | None => Panic NilDereference                 (* String() on a nil *url.URL *)
  | Some uri =>
      '(resource, resourceParams) ←
        wrapping "failed to match resource: " (matchResource srv uri);
      contents ← wrapping "failed to read resource: "
                   (readResource resource resourceParams);
      Ok (response req (protocol.ResReadResource contents))
  end.

Definition HandleRequest (srv : Server) (s : Session) (req : protocol.JSONRPCRequest)
    : Session * outcome protocol.JSONRPCResponse :=
  let initialized := Session_initialized s in
  if String.eqb (protocol.Req_Method req) "initialize" then
    if initialized then (s, Err (errorText "server already initialized"))
    else handleInitialize srv s req
  else if negb initialized then (s, Err (errorText "server not initialized"))
  else
    let method := protocol.Req_Method req in
    (s,
     if String.eqb method "ping" then handlePing req
     else if String.eqb method "tools/list" then handleListTools srv req
     else if String.eqb method "tools/call" then handleCallTool srv req
     else if String.eqb method "resources/list" then handleListResources srv req
     else if String.eqb method "resources/read" then handleReadResource srv req
     else if String.eqb method "prompts/list" then handleListPrompts srv req
     else if String.eqb method "prompts/get" then handleGetPrompt srv req
     else Err (errorText ("unknown method: " +:+ method))).

Definition HandleNotification (s : Session) (notif : protocol.JSONRPCNotification)
    : outcome unit :=
  let initialized := Session_initialized s in
  let method := protocol.Notif_Method notif in
  if negb initialized && negb (String.eqb method "notifications/initialized")
  then Err (errorText "server not initialized")
  else if String.eqb method "notifications/initialized" then handleInitialized notif
  else if String.eqb method "notifications/cancelled" then handleCancelled notif
  else Err (errorText ("unknown notification method: " +:+ method)).

End Ranging.

(** An iteration order is admissible when it visits every entry of the
    map once. *)
Definition admissible (rangeOrder : forall A : Type, gmap string A -> list (string * A))
    : Prop :=
  forall (A : Type) (m : gmap string A), rangeOrder A m ≡ₚ map_to_list m.


(** *** More options (options.go) *)

Definition boolPtr (b : bool) : option bool := Some b.

Definition WithDefaultCapabilities : ServerOption :=
  WithCapabilities
    {| protocol.SC_Experimental := None;
       protocol.SC_Tools := Some (boolPtr true);
       protocol.SC_Resources := Some (boolPtr true, boolPtr true);
       protocol.SC_Prompts := Some (boolPtr true);
       protocol.SC_Logging := Some () |}.


End server.
Export server.

(** ** Package transport: what each transport does with one inbound unit *)

Module transport.

(** The anonymous struct every transport decodes an inbound unit into;
    ID is a pointer, nil when the member is absent or null. *)
Record message : Type := {
  msg_JSONRPC : string;
  msg_ID : option protocol.RequestID;
  msg_Method : string;
  msg_Params : protocol.RawMessage
}.

(** An inbound unit (a line, a request body, a text frame), given by
    what json.Unmarshal makes of it: an error, or the decoded struct. *)
Inductive Inbound : Type :=
| Undecodable
| Decoded (msg : message).

(** What a transport writes back. *)
Inductive Frame : Type :=
| ResponseFrame (resp : protocol.JSONRPCResponse)
| ErrorFrame (e : protocol.JSONRPCError).

(** writeError: the ID of the error response is set only when [id] is
    not nil. *)
Definition writeError (id : option protocol.RequestID) (code : Z) (message : string)
    (err : error) : Frame :=
  ErrorFrame
    {| protocol.JErr_JSONRPC := "2.0";
       protocol.JErr_ID := match id with Some i => i | None => VNil end;
       protocol.JErr_Error := {| protocol.ED_Code := code;
                                 protocol.ED_Message := message;
                                 protocol.ED_Data := err |} |}.

Definition writeErrorWithID (id : protocol.RequestID) (code : Z) (message : string)
    (err : error) : Frame :=
  ErrorFrame
    {| protocol.JErr_JSONRPC := "2.0";
       protocol.JErr_ID := id;
       protocol.JErr_Error := {| protocol.ED_Code := code;
                                 protocol.ED_Message := message;
                                 protocol.ED_Data := err |} |}.

Definition toRequest (msg : message) (id : protocol.RequestID) : protocol.JSONRPCRequest :=
  {| protocol.Req_JSONRPC := msg_JSONRPC msg;
     protocol.Req_ID := id;
     protocol.Req_Method := msg_Method msg;
     protocol.Req_Params := protocol.Raw (msg_Params msg) |}.

Definition toNotification (msg : message) : protocol.JSONRPCNotification :=
  {| protocol.Notif_JSONRPC := msg_JSONRPC msg;
     protocol.Notif_Method := msg_Method msg;
     protocol.Notif_Params := protocol.Raw (msg_Params msg) |}.

Section Serving.

Variable rangeOrder : forall A : Type, gmap string A -> list (string * A).

(** Whether encoding/json encodes a response.  It fails on a result that
    holds a value JSON cannot represent (a NaN, a channel, a function);
    the results of handlers are application values. *)
Variable encodes : protocol.JSONRPCResponse -> bool.

(** handleRequest, the same in the three transports: the response, or an
    error response with code -32603.  writeResponse writes the response
    when it encodes; when it does not, the failure is logged and no
    response is written (a WebSocket connection may then carry an empty
    message).  The error responses hold the ID of the request and
    strings, which encode. *)
Definition handleRequest (srv : Server) (s : Session) (req : protocol.JSONRPCRequest)
    : Session * outcome (list Frame) :=
  match HandleRequest rangeOrder srv s req with
  | (s', Ok resp) => (s', Ok (if encodes resp then [ResponseFrame resp] else []))
  | (s', Err err) =>
      (s', Ok [writeErrorWithID (protocol.Req_ID req) (-32603) "Internal error" err])
  | (s', Panic p) => (s', Panic p)
  end.

(** handleNotification: an error is logged, nothing is written. *)
Definition handleNotification (s : Session) (notif : protocol.JSONRPCNotification)
    : outcome (list Frame) :=
  match HandleNotification s notif with
  | Panic p => Panic p
  | _ => Ok []
  end.

Definition dispatch (srv : Server) (s : Session) (msg : message)
    : Session * outcome (list Frame) :=
  match msg_ID msg with
  | Some id => handleRequest srv s (toRequest msg id)
  | None => (s, handleNotification s (toNotification msg))
  end.

(** One turn of the loop of StdioTransport.Start, for the line read. *)
Definition StdioTransport_line (srv : Server) (s : Session) (line : Inbound)
    : Session * outcome (list Frame) :=
  match line with
  | Undecodable => (s, Ok [writeError None 0 "Parse error" (libError JSONError)])
  | Decoded msg => dispatch srv s msg
  end.

(** SSETransport.handleRequest for the body of a POST request. *)
Definition SSETransport_handleRequest (srv : Server) (s : Session) (body : Inbound)
    : Session * outcome (list Frame) :=
  match body with
  | Undecodable => (s, Ok [writeError None (-32700) "Parse error" (libError JSONError)])
  | Decoded msg => dispatch srv s msg
  end.

(** One turn of the loop of WebSocketTransport.handleWebSocket, for the
    text message read. *)
Definition WebSocketTransport_message (srv : Server) (s : Session) (message : Inbound)
    : Session * outcome (list Frame) :=
  match message with
  | Undecodable => (s, Ok [writeError None (-32700) "Parse error" (libError JSONError)])
  | Decoded msg => dispatch srv s msg
  end.

(** How the input of a stream transport ends: at end of file, or with
    another read error. *)
Inductive StreamEnd : Type :=
| EOF
| ReadFailure (err : error).

(** StdioTransport.Start on the lines read up to the end of the input:
    the session, the frames written, and what Start returns (a panic
    ends it with what was written before). *)
Fixpoint StdioTransport_Start (srv : Server) (s : Session) (lines : list Inbound)
    (stop : StreamEnd) : Session * list Frame * outcome unit :=
  match lines with
  | [] =>
      (s, [],
       match stop with
       | EOF => Ok ()
       | ReadFailure err => Err (wrapError "failed to read from stdin: " err)
       end)
  | line :: lines' =>
      match StdioTransport_line srv s line with
      | (s', Ok frames) =>
          let '(s'', written, result) := StdioTransport_Start srv s' lines' stop in
          (s'', frames ++ written, result)
      | (s', Err e) => (s', [], Err e)
      | (s', Panic p) => (s', [], Panic p)
      end
  end.

(** A message read from a WebSocket connection: a text message, or one
    of another type. *)
Inductive wsMessage : Type :=
| TextMessage (unit : Inbound)
| OtherMessage.

(** The loop of WebSocketTransport.handleWebSocket on the messages read
    before the connection fails or closes: messages that are not text
    are skipped. *)
Fixpoint WebSocketTransport_handleWebSocket (srv : Server) (s : Session)
    (messages : list wsMessage) : Session * list Frame * outcome unit :=
  match messages with
  | [] => (s, [], Ok ())
  | OtherMessage :: messages' => WebSocketTransport_handleWebSocket srv s messages'
  | TextMessage unit :: messages' =>
      match WebSocketTransport_message srv s unit with
      | (s', Ok frames) =>
          let '(s'', written, result) :=
            WebSocketTransport_handleWebSocket srv s' messages' in
          (s'', frames ++ written, result)
      | (s', Err e) => (s', [], Err e)
      | (s', Panic p) => (s', [], Panic p)
      end
  end.

End Serving.

(** A unit is answered when it does not decode or when it decodes to a
    request, a message with an ID. *)
Definition answered (unit : Inbound) : bool :=
  match unit with
  | Undecodable => true
  | Decoded msg => match msg_ID msg with Some _ => true | None => false end
  end.

(** The text messages among the messages of a connection. *)
Definition textMessages (messages : list wsMessage) : list Inbound :=
  flat_map (fun m => match m with TextMessage unit => [unit] | OtherMessage => [] end)
    messages.

(** *** Notifications to the clients of the SSE transport *)

(** A client channel as SendNotification finds it: its capacity
    (Options.BufferSize when it was made) and the messages buffered in
    it.  A receiver blocked on the channel has emptied it, so for a
    capacity above zero a send without blocking succeeds exactly when
    the buffer has room; the model gives an unbuffered channel no room. *)
Record channel : Type := {
  chan_cap : nat;
  chan_buf : list string
}.

(** select { case ch <- data: default: } *)
Definition trySend (data : string) (ch : channel) : channel :=
  if (length (chan_buf ch) <? chan_cap ch)%nat
  then {| chan_cap := chan_cap ch; chan_buf := chan_buf ch ++ [data] |}
  else ch.

(** SSETransport.SendNotification on the clients connected, [data]
    being what json.Marshal makes of the notification (none when it
    fails): the clients afterwards and the error returned. *)
Definition SSETransport_SendNotification (clients : gmap string channel)
    (data : option string) : gmap string channel * option error :=
  match data with
  | None => (clients, Some (wrapError "failed to marshal notification: " (libError JSONError)))
  | Some d => (trySend d <$> clients, None)
  end.

End transport.

(** ** Package mcp: the registry that validates handlers *)

Module mcp.

Record Tool : Type := {
  Tool_Handler : HandlerValue;
  Tool_Description : string;
  Tool_IsAsync : bool
}.

Record Resource : Type := {
  Resource_Handler : HandlerValue;
  Resource_Description : string;
  Resource_Pattern : string
}.

Record Prompt : Type := {
  Prompt_Handler : HandlerValue;
  Prompt_Description : string
}.

(** dependencies is a slice, nil until WithDependencies sets it. *)
Record Server : Type := {
  Server_name : string;
  Server_tools : gmap string Tool;
  Server_resources : gmap string Resource;
  Server_prompts : gmap string Prompt;
  Server_dependencies : option (list string)
}.

Definition ServerOption := Server -> Server.

Definition WithDependencies (deps : option (list string)) : ServerOption :=
  fun s =>
  {| Server_name := Server_name s; Server_tools := Server_tools s;
     Server_resources := Server_resources s; Server_prompts := Server_prompts s;
     Server_dependencies := deps |}.

Definition NewServer (name : string) (opts : list ServerOption) : Server :=
  foldl (fun s opt => opt s)
    {| Server_name := name; Server_tools := ∅; Server_resources := ∅;
       Server_prompts := ∅; Server_dependencies := None |}
    opts.

(** validateHandler: nil for a valid handler. *)
Definition validateHandler (handler : HandlerValue) : option error :=
  match handler with
  | NilHandler => Some (errorText "handler cannot be nil")
  | NonFunc _ => Some (errorText "handler must be a function")
  | Func f =>
      if (length (outTypes f) <? 1)%nat
      then Some (errorText "handler must return at least one value")
      else
        match outTypes f with
        | [_; out1] =>
            if negb (implementsError out1)
            then Some (errorText "second return value must be error")
            else None
        | _ => None
        end
  end.

Definition AddTool (name : string) (handler : HandlerValue) (description : string)
    (s : Server) : Server * option error :=
  match validateHandler handler with
  | Some err => (s, Some (wrapError "invalid tool handler: " err))
  | None =>
      ({| Server_name := Server_name s;
          Server_tools := <[name := {| Tool_Handler := handler;
                                       Tool_Description := description;
                                       Tool_IsAsync := false |}]> (Server_tools s);
          Server_resources := Server_resources s; Server_prompts := Server_prompts s;
          Server_dependencies := Server_dependencies s |},
       None)
  end.

Definition AddAsyncTool (name : string) (handler : HandlerValue) (description : string)
    (s : Server) : Server * option error :=
  match validateHandler handler with
  | Some err => (s, Some (wrapError "invalid async tool handler: " err))
  | None =>
      ({| Server_name := Server_name s;
          Server_tools := <[name := {| Tool_Handler := handler;
                                       Tool_Description := description;
                                       Tool_IsAsync := true |}]> (Server_tools s);
          Server_resources := Server_resources s; Server_prompts := Server_prompts s;
          Server_dependencies := Server_dependencies s |},
       None)
  end.

Definition AddResource (pattern : string) (handler : HandlerValue) (description : string)
    (s : Server) : Server * option error :=
  match validateHandler handler with
  | Some err => (s, Some (wrapError "invalid resource handler: " err))
  | None =>
      ({| Server_name := Server_name s; Server_tools := Server_tools s;
          Server_resources := <[pattern := {| Resource_Handler := handler;
                                              Resource_Description := description;
                                              Resource_Pattern := pattern |}]>
                                (Server_resources s);
          Server_prompts := Server_prompts s;
          Server_dependencies := Server_dependencies s |},
       None)
  end.

Definition AddPrompt (name : string) (handler : HandlerValue) (description : string)
    (s : Server) : Server * option error :=
  match validateHandler handler with
  | Some err => (s, Some (wrapError "invalid prompt handler: " err))
  | None =>
      ({| Server_name := Server_name s; Server_tools := Server_tools s;
          Server_resources := Server_resources s;
          Server_prompts := <[name := {| Prompt_Handler := handler;
                                         Prompt_Description := description |}]>
                              (Server_prompts s);
          Server_dependencies := Server_dependencies s |},
       None)
  end.

End mcp.

(** ** Package fastmcp *)

Module fastmcp.

(** The server is nil until the first registration. *)
Record FastMCP : Type := {
  FastMCP_name : string;
  FastMCP_server : option Server;
  FastMCP_options : list ServerOption
}.

Definition defaultOptions : list ServerOption :=
  [WithCapabilities
     {| protocol.SC_Experimental := None;
        protocol.SC_Tools := Some (boolPtr true);
        protocol.SC_Resources := Some (boolPtr true, boolPtr true);
        protocol.SC_Prompts := Some (boolPtr true);
        protocol.SC_Logging := Some () |}].

Definition New (name : string) (options : list ServerOption) : FastMCP :=
  {| FastMCP_name := name; FastMCP_server := None;
     FastMCP_options := defaultOptions ++ options |}.

(** if f.server == nil { f.server = server.NewServer(f.name, f.options...) } *)
Definition ensureServer (f : FastMCP) : Server :=
  match FastMCP_server f with
  | Some srv => srv
  | None => NewServer (FastMCP_name f) (FastMCP_options f)
  end.

(** The four registrations: an error of the server is logged as a
    warning and the builder is returned all the same. *)
Definition registerWith
    (addTo : string -> HandlerValue -> string -> Server -> Server * option error)
    (f : FastMCP) (key : string) (handler : HandlerValue) (description : string)
    : FastMCP :=
  {| FastMCP_name := FastMCP_name f;
     FastMCP_server := Some (fst (addTo key handler description (ensureServer f)));
     FastMCP_options := FastMCP_options f |}.

Definition Tool := registerWith AddTool.
Definition AsyncTool := registerWith AddAsyncTool.
Definition Resource := registerWith AddResource.
Definition Prompt := registerWith AddPrompt.

(** RunStdio on the lines of the standard input. *)
Definition RunStdio (rangeOrder : forall A : Type, gmap string A -> list (string * A))
    (encodes : protocol.JSONRPCResponse -> bool)
    (f : FastMCP) (lines : list transport.Inbound) (stop : transport.StreamEnd)
    : list transport.Frame * outcome unit :=
  match FastMCP_server f with
  | None => ([], Err (errorText "no server configured"))
  | Some srv =>
      let '(_, written, result) :=
        transport.StdioTransport_Start rangeOrder encodes srv NewSession lines stop in
      (written, result)
  end.

End fastmcp.

(** ** Concrete servers and requests *)

Module Fixtures.

(** One admissible iteration order: that of map_to_list. *)
(** Results that all encode. *)
Definition encodesAll : protocol.JSONRPCResponse -> bool := fun _ => true.

Definition tableOrder : forall A : Type, gmap string A -> list (string * A) :=
  fun A m => map_to_list m.

Definition zeroImplementation : protocol.Implementation :=
  {| protocol.Impl_Name := ""; protocol.Impl_Version := "" |}.

Definition zeroClientCapabilities : protocol.ClientCapabilities :=
  {| protocol.CC_Experimental := None; protocol.CC_Sampling := None;
     protocol.CC_Roots := None |}.

(** The text [{}]: every struct decodes, every field keeps its zero. *)
Definition emptyObject : protocol.RawMessage :=
  {| protocol.asInitializeRequestParams :=
       Some {| protocol.Init_Meta := None; protocol.Init_ProtocolVersion := "";
               protocol.Init_Capabilities := zeroClientCapabilities;
               protocol.Init_ClientInfo := zeroImplementation |};
     protocol.asCallToolRequestParams :=
       Some {| protocol.Call_Meta := None; protocol.Call_Name := "";
               protocol.Call_Arguments := None |};
     protocol.asReadResourceRequestParams :=
       Some {| protocol.Read_Meta := None; protocol.Read_URI := None |};
     protocol.asGetPromptRequestParams :=
       Some {| protocol.Get_Meta := None; protocol.Get_Name := "";
               protocol.Get_Arguments := None |};
     protocol.asCancelledNotificationParams :=
       Some {| protocol.Cancel_Meta := None; protocol.Cancel_RequestID := VNil;
               protocol.Cancel_Reason := "" |} |}.

(** A params member that is not a JSON object, such as [[1,2]], or that
    is missing (an empty RawMessage): no struct decodes from it. *)
Definition notAnObject : protocol.RawMessage :=
  {| protocol.asInitializeRequestParams := None;
     protocol.asCallToolRequestParams := None;
     protocol.asReadResourceRequestParams := None;
     protocol.asGetPromptRequestParams := None;
     protocol.asCancelledNotificationParams := None |}.

(** {"protocolVersion": version, "capabilities": {},
     "clientInfo": {"name": name, "version": "1.0.0"}} *)
Definition initializeParams (version name : string) : protocol.RawMessage :=
  {| protocol.asInitializeRequestParams :=
       Some {| protocol.Init_Meta := None;
               protocol.Init_ProtocolVersion := version;
               protocol.Init_Capabilities := zeroClientCapabilities;
               protocol.Init_ClientInfo :=
                 {| protocol.Impl_Name := name; protocol.Impl_Version := "1.0.0" |} |};
     protocol.asCallToolRequestParams := protocol.asCallToolRequestParams emptyObject;
     protocol.asReadResourceRequestParams :=
       protocol.asReadResourceRequestParams emptyObject;
     protocol.asGetPromptRequestParams := protocol.asGetPromptRequestParams emptyObject;
     protocol.asCancelledNotificationParams :=
       protocol.asCancelledNotificationParams emptyObject |}.

(** {"name": name, "arguments": {k: "v", ...}} with string members only:
    the members decode to Go strings in a map[string]interface{}. *)
Definition namedWithStrings (name : string) (arguments : option (gmap string string))
    : protocol.RawMessage :=
  {| protocol.asInitializeRequestParams := protocol.asInitializeRequestParams emptyObject;
     protocol.asCallToolRequestParams :=
       Some {| protocol.Call_Meta := None; protocol.Call_Name := name;
               protocol.Call_Arguments := fmap (M := option) (fmap VString) arguments |};
     protocol.asReadResourceRequestParams :=
       protocol.asReadResourceRequestParams emptyObject;
     protocol.asGetPromptRequestParams :=
       Some {| protocol.Get_Meta := None; protocol.Get_Name := name;
               protocol.Get_Arguments := arguments |};
     protocol.asCancelledNotificationParams :=
       protocol.asCancelledNotificationParams emptyObject |}.

(** Params whose "uri" member decodes to a URL printing as [uri]. *)
Definition readParams (uri : string) : protocol.RawMessage :=
  {| protocol.asInitializeRequestParams := protocol.asInitializeRequestParams emptyObject;
     protocol.asCallToolRequestParams := protocol.asCallToolRequestParams emptyObject;
     protocol.asReadResourceRequestParams :=
       Some {| protocol.Read_Meta := None; protocol.Read_URI := Some uri |};
     protocol.asGetPromptRequestParams := protocol.asGetPromptRequestParams emptyObject;
     protocol.asCancelledNotificationParams :=
       protocol.asCancelledNotificationParams emptyObject |}.

(** {"name": "add", "arguments": {"arg0": 3, "arg1": 4}}: the numbers
    decode to float64; no map[string]string decodes from them. *)
Definition addNumbers : protocol.RawMessage :=
  {| protocol.asInitializeRequestParams := protocol.asInitializeRequestParams emptyObject;
     protocol.asCallToolRequestParams :=
       Some {| protocol.Call_Meta := None; protocol.Call_Name := "add";
               protocol.Call_Arguments :=
                 Some {[ "arg0" := VFloat TFloat64 "3"; "arg1" := VFloat TFloat64 "4" ]} |};
     protocol.asReadResourceRequestParams :=
       protocol.asReadResourceRequestParams emptyObject;
     protocol.asGetPromptRequestParams := None;
     protocol.asCancelledNotificationParams :=
       protocol.asCancelledNotificationParams emptyObject |}.

(** {"name": "length", "arguments": {"arg0": null}} *)
Definition lengthOfNull : protocol.RawMessage :=
  {| protocol.asInitializeRequestParams := protocol.asInitializeRequestParams emptyObject;
     protocol.asCallToolRequestParams :=
       Some {| protocol.Call_Meta := None; protocol.Call_Name := "length";
               protocol.Call_Arguments := Some {[ "arg0" := VNil ]} |};
     protocol.asReadResourceRequestParams :=
       protocol.asReadResourceRequestParams emptyObject;
     protocol.asGetPromptRequestParams :=
       Some {| protocol.Get_Meta := None; protocol.Get_Name := "length";
               protocol.Get_Arguments := Some {[ "arg0" := "" ]} |};
     protocol.asCancelledNotificationParams :=
       protocol.asCancelledNotificationParams emptyObject |}.

(** A request whose id is the JSON number [id]. *)
Definition request (id : nat) (method : string) (params : protocol.ParamsField)
    : protocol.JSONRPCRequest :=
  {| protocol.Req_JSONRPC := "2.0"; protocol.Req_ID := VFloat TFloat64 (itoa id);
     protocol.Req_Method := method; protocol.Req_Params := params |}.

Definition initializedSession : Session :=
  {| Session_initialized := true;
     Session_capabilities := zeroClientCapabilities;
     Session_clientInfo := {| protocol.Impl_Name := "test"; protocol.Impl_Version := "1.0.0" |} |}.

(** func(a, b int) int { return a + b } *)
Definition addFunc : FuncValue :=
  {| inTypes := [TInt; TInt]; outTypes := [TInt]; variadic := false;
     body := fun args =>
       match args with
       | [VInt _ a; VInt _ b] => [VInt TInt (wrapSigned 64 (a + b))]
       | _ => [VInt TInt 0]
       end |}.

Definition add : HandlerValue := Func addFunc.

(** func(s string) int { return len(s) } *)
Definition lengthFunc : FuncValue :=
  {| inTypes := [TString]; outTypes := [TInt]; variadic := false;
     body := fun args =>
       match args with
       | [VString s] => [VInt TInt (Z.of_nat (String.length s))]
       | _ => [VInt TInt 0]
       end |}.

Definition length_ : HandlerValue := Func lengthFunc.

(** func(text string) (string, error) { return text, nil } *)
Definition echoFunc : FuncValue :=
  {| inTypes := [TString]; outTypes := [TString; TError]; variadic := false;
     body := fun args =>
       match args with
       | [VString s] => [VString s; VNil]
       | _ => [VString ""; VNil]
       end |}.

Definition echo : HandlerValue := Func echoFunc.

(** func(name string) string { return "Hello, " + name } *)
Definition greetFunc : FuncValue :=
  {| inTypes := [TString]; outTypes := [TString]; variadic := false;
     body := fun args =>
       match args with
       | [VString s] => [VString ("Hello, " +:+ s)]
       | _ => [VString "Hello, "]
       end |}.

Definition greet : HandlerValue := Func greetFunc.

(** func(text string) (string, error) {
      if text == "" { return "", errors.New("empty text") }
      return text, nil } *)
Definition checkFunc : FuncValue :=
  {| inTypes := [TString]; outTypes := [TString; TError]; variadic := false;
     body := fun args =>
       match args with
       | [VString ""] => [VString ""; VError "empty text"]
       | [VString s] => [VString s; VNil]
       | _ => [VString ""; VError "empty text"]
       end |}.

Definition check : HandlerValue := Func checkFunc.

(** func(names ...string) string { return strings.Join(names, ", ") } *)
Definition joinFunc : FuncValue :=
  {| inTypes := [TSlice TString]; outTypes := [TString]; variadic := true;
     body := fun args =>
       match args with
       | [VSlice _ names] =>
           [VString (String.concat ", "
                       (omap (fun v => match v with VString s => Some s | _ => None end)
                          names))]
       | _ => [VString ""]
       end |}.

(** The server after a registration. *)
Definition register
    (addTo : string -> HandlerValue -> string -> Server -> Server * option error)
    (key : string) (h : HandlerValue) (description : string) (s : Server) : Server :=
  fst (addTo key h description s).

Definition calculator : Server :=
  register AddTool "length" length_ "Length of a text"
    (register AddTool "add" add "Add two numbers" (NewServer "test" [])).

(** The resources of the file server example, with stand-in bodies. *)
Definition fileServer : Server :=
  register AddResource "dir://{path}" echo "List directory contents"
    (register AddResource "file://{path}" echo "Read file contents"
       (NewServer "File Server" [])).

(** srv.AddResource("files/{path}", ...) of the README. *)
Definition filesServer : Server :=
  register AddResource "files/{path}" echo "Access files" (NewServer "My Server" []).

(** AddTool("broken", nil, ...) is accepted as it is. *)
Definition withNilHandler : Server :=
  register AddTool "broken" NilHandler "No handler" (NewServer "test" []).

Definition checker : Server :=
  register AddResource "status" check "Status"
    (register AddTool "check" check "Check a text" (NewServer "test" [])).

Definition greeter : Server :=
  register AddPrompt "greet" greet "Greeting prompt" (NewServer "test" []).

End Fixtures.

(** * Properties *)

Import Fixtures.

(** ** The registry *)

(** C7. Registering a tool (plain or asynchronous), a resource or a
    prompt under a key that the registry of its kind already holds fails
    with the "already exists" error of that kind (DuplicateName) and
    returns the server as it was: the entry registered first is still
    there, unchanged. *)
Theorem duplicate_registration_fails :
  forall (s : Server) (key : string) (handler : HandlerValue) (description : string),
    (forall t, Server_tools s !! key = Some t ->
       AddTool key handler description s
         = (s, Some (errorText ("tool " +:+ key +:+ " already exists")))
       /\ AddAsyncTool key handler description s
         = (s, Some (errorText ("tool " +:+ key +:+ " already exists")))
       /\ Server_tools (fst (AddTool key handler description s)) !! key = Some t
       /\ forall req, handleCallTool (fst (AddTool key handler description s)) req
                      = handleCallTool s req)
    /\ (forall r, Server_resources s !! key = Some r ->
       AddResource key handler description s
         = (s, Some (errorText ("resource " +:+ key +:+ " already exists")))
       /\ Server_resources (fst (AddResource key handler description s)) !! key = Some r)
    /\ (forall p, Server_prompts s !! key = Some p ->
       AddPrompt key handler description s
         = (s, Some (errorText ("prompt " +:+ key +:+ " already exists")))
       /\ Server_prompts (fst (AddPrompt key handler description s)) !! key = Some p).
Proof.
  intros s key handler description. repeat split.
  - unfold AddTool. now rewrite H.
  - unfold AddAsyncTool. now rewrite H.
  - unfold AddTool. now rewrite H.
  - unfold AddTool. now rewrite H.
  - unfold AddResource. now rewrite H.
  - unfold AddResource. now rewrite H.
  - unfold AddPrompt. now rewrite H.
  - unfold AddPrompt. now rewrite H.
Qed.

Lemma duplicate_registration_fails_witness :
  AddTool "add" length_ "Add again" calculator
    = (calculator, Some (errorText "tool add already exists"))
  /\ AddResource "file://{path}" greet "Read again" fileServer
    = (fileServer, Some (errorText "resource file://{path} already exists"))
  /\ AddPrompt "greet" echo "Greet again" greeter
    = (greeter, Some (errorText "prompt greet already exists")).
Proof.
  split; [|split].
  - apply (proj1 (duplicate_registration_fails calculator "add" length_ "Add again")
             {| Tool_Handler := add; Tool_Description := "Add two numbers";
                Tool_IsAsync := false |}).
    reflexivity.
  - apply (proj1 (proj2 (duplicate_registration_fails fileServer "file://{path}" greet
                           "Read again"))
             {| Resource_Handler := echo; Resource_Description := "Read file contents";
                Resource_Pattern := "file://{path}" |}).
    reflexivity.
  - apply (proj2 (proj2 (duplicate_registration_fails greeter "greet" echo "Greet again"))
             {| Prompt_Handler := greet; Prompt_Description := "Greeting prompt" |}).
    reflexivity.
Defined.

(** A first registration under a fresh name succeeds and stores the
    entry; together with the theorem above, a second one leaves it. *)
Lemma AddTool_fresh (s : Server) (name : string) (h : HandlerValue) (d : string) :
  Server_tools s !! name = None ->
  snd (AddTool name h d s) = None
  /\ Server_tools (fst (AddTool name h d s)) !! name
     = Some {| Tool_Handler := h; Tool_Description := d; Tool_IsAsync := false |}.
Proof.
  intros H. unfold AddTool. rewrite H. simpl. split; [reflexivity|].
  apply lookup_insert_eq.
Qed.

(** ** The session state machine *)

(** C5. A session that is Initialized answers every request whose method
    is "initialize" with the error "server already initialized"
    (AlreadyInitialized), whatever its params, and stays as it was:
    initialized flag, client capabilities and client info unchanged. *)
Theorem second_initialize_fails :
  forall (rangeOrder : forall A : Type, gmap string A -> list (string * A))
         (srv : Server) (s : Session) (req : protocol.JSONRPCRequest),
    Session_initialized s = true ->
    protocol.Req_Method req = "initialize" ->
    HandleRequest rangeOrder srv s req
      = (s, Err (errorText "server already initialized")).
Proof.
  intros rangeOrder srv s req Hinit Hm.
  unfold HandleRequest. rewrite Hm, Hinit. reflexivity.
Qed.

Lemma second_initialize_fails_witness :
  HandleRequest tableOrder calculator initializedSession
      (request 2 "initialize" (protocol.Raw (initializeParams "2024-11-05" "other")))
    = (initializedSession, Err (errorText "server already initialized")).
Proof.
  apply second_initialize_fails; reflexivity.
Defined.

(** C4, as stated, fails: an initialize request without params, or with
    params that are not an object, is refused ("invalid initialize
    params") and the session stays Uninitialized. *)
Lemma initialize_with_undecodable_params_fails :
  HandleRequest tableOrder calculator NewSession
      (request 1 "initialize" (protocol.Raw notAnObject))
    = (NewSession, Err (wrapError "invalid initialize params: " (libError JSONError))).
Proof. reflexivity. Qed.

(** C4, amended. In the Uninitialized state an initialize request whose
    params decode succeeds: the session becomes Initialized, records the
    capabilities and info of the client, and the response carries
    protocol.LatestProtocolVersion together with the capabilities and
    info of the server.  An initialize request whose params do not decode
    fails with "invalid initialize params" and leaves the session
    Uninitialized.  A request with any other method fails with "server
    not initialized" (NotInitialized) and leaves the session as it was. *)
Theorem uninitialized_session_gate :
  forall (rangeOrder : forall A : Type, gmap string A -> list (string * A))
         (srv : Server) (s : Session) (req : protocol.JSONRPCRequest),
    Session_initialized s = false ->
    (protocol.Req_Method req = "initialize" ->
     forall raw, protocol.Req_Params req = protocol.Raw raw ->
       match protocol.asInitializeRequestParams raw with
       | Some params =>
           HandleRequest rangeOrder srv s req
           = ({| Session_initialized := true;
                 Session_capabilities := protocol.Init_Capabilities params;
                 Session_clientInfo := protocol.Init_ClientInfo params |},
              Ok {| protocol.Resp_JSONRPC := "2.0";
                    protocol.Resp_ID := protocol.Req_ID req;
                    protocol.Resp_Result :=
                      protocol.ResInitialize
                        {| protocol.IR_ProtocolVersion := protocol.LatestProtocolVersion;
                           protocol.IR_Capabilities := Server_capabilities srv;
                           protocol.IR_ServerInfo := Server_info srv;
                           protocol.IR_Instructions := None |} |})
       | None =>
           HandleRequest rangeOrder srv s req
           = (s, Err (wrapError "invalid initialize params: " (libError JSONError)))
       end)
    /\ (protocol.Req_Method req <> "initialize" ->
        HandleRequest rangeOrder srv s req
        = (s, Err (errorText "server not initialized"))).
Proof.
  intros rangeOrder srv s req Hinit. split.
  - intros Hm raw Hp. unfold HandleRequest, handleInitialize.
    rewrite Hm, Hinit, Hp. simpl.
    unfold Unmarshal. destruct (protocol.asInitializeRequestParams raw); reflexivity.
  - intros Hm. unfold HandleRequest.
    apply String.eqb_neq in Hm. rewrite Hm, Hinit. reflexivity.
Qed.

Lemma uninitialized_session_gate_witness :
  HandleRequest tableOrder calculator NewSession
      (request 1 "initialize" (protocol.Raw (initializeParams "2024-11-05" "test")))
    = ({| Session_initialized := true;
          Session_capabilities := zeroClientCapabilities;
          Session_clientInfo :=
            {| protocol.Impl_Name := "test"; protocol.Impl_Version := "1.0.0" |} |},
       Ok {| protocol.Resp_JSONRPC := "2.0";
             protocol.Resp_ID := VFloat TFloat64 "1";
             protocol.Resp_Result :=
               protocol.ResInitialize
                 {| protocol.IR_ProtocolVersion := "2024-11-05";
                    protocol.IR_Capabilities := Server_capabilities calculator;
                    protocol.IR_ServerInfo := Server_info calculator;
                    protocol.IR_Instructions := None |} |})
  /\ HandleRequest tableOrder calculator NewSession (request 2 "tools/list" (protocol.Raw emptyObject))
    = (NewSession, Err (errorText "server not initialized")).
Proof.
  pose proof (uninitialized_session_gate tableOrder calculator NewSession) as H.
  split.
  - exact (proj1 (H (request 1 "initialize"
                       (protocol.Raw (initializeParams "2024-11-05" "test"))) eq_refl)
             eq_refl _ eq_refl).
  - apply (proj2 (H (request 2 "tools/list" (protocol.Raw emptyObject)) eq_refl)).
    discriminate.
Defined.

(** ** The invocation engine for tools *)

(** C1, on the code. The tool add = func(a, b int) int called with
    arguments {"arg0":"3","arg1":"4"}: the two strings are bound as they
    are and reflect's Call panics on the first of them ("Call using
    string as type int"); no result 7 is produced and no InvalidArgument
    error is returned. *)
Theorem call_add_with_strings_panics :
  forall rangeOrder : forall A : Type, gmap string A -> list (string * A),
    HandleRequest rangeOrder calculator initializedSession
      (request 2 "tools/call"
         (protocol.Raw (namedWithStrings "add" (Some {[ "arg0" := "3"; "arg1" := "4" ]}))))
    = (initializedSession, Panic (CallTypeMismatch TString TInt)).
Proof. intros rangeOrder. vm_compute. reflexivity. Qed.

(** The binding loop of handleCallTool hands the wire values to the
    handler untouched: when it succeeds, argument [k] is the ValueOf of
    the map entry "arg<i+k>". *)
Lemma bindToolArgs_binds_wire_values (m : gmap string value) (ins : list GoType) :
  forall (i : nat) (args : list Value),
    bindToolArgs (Some m) i ins = Ok args ->
    length args = length ins
    /\ forall k v, args !! k = Some v ->
         exists x, m !! ("arg" +:+ itoa (i + k)) = Some x /\ v = ValueOf x.
Proof.
  induction ins as [|t ins IH]; intros i args H; simpl in H.
  - injection H as <-. split; [reflexivity|]. intros k v Hk. discriminate.
  - destruct (m !! ("arg" +:+ itoa i)) as [x|] eqn:Hx; [|discriminate].
    destruct (bindToolArgs (Some m) (S i) ins) as [args'| |] eqn:Hrest;
      simpl in H; try discriminate.
    injection H as <-. destruct (IH _ _ Hrest) as [Hlen Hall]. split.
    + simpl. now rewrite Hlen.
    + intros [|k] v Hk; simpl in Hk.
      * injection Hk as <-. exists x. now rewrite Nat.add_0_r.
      * destruct (Hall k v Hk) as [y [Hy ->]]. exists y.
        now rewrite Nat.add_succ_r.
Qed.

(** C6, on the code. The tool length = func(s string) int called with
    {"arg0":"abc"} returns 3; the payload does not carry it: its content
    is the text "<int Value>" that reflect's Value.String() gives for a
    Value that is not a string. *)
Theorem call_length_loses_the_result :
  forall rangeOrder : forall A : Type, gmap string A -> list (string * A),
    HandleRequest rangeOrder calculator initializedSession
      (request 2 "tools/call"
         (protocol.Raw (namedWithStrings "length" (Some {[ "arg0" := "abc" ]}))))
    = (initializedSession,
       Ok {| protocol.Resp_JSONRPC := "2.0";
             protocol.Resp_ID := VFloat TFloat64 "2";
             protocol.Resp_Result :=
               protocol.ResCallTool
                 {| protocol.CTR_Content := [VString "<int Value>"];
                    protocol.CTR_IsError := false |} |}).
Proof. intros rangeOrder. vm_compute. reflexivity. Qed.

(** What handleCallTool makes of the results of a handler: a non-nil
    error becomes a payload flagged isError that carries its text; a
    string result is the content; a result of any other kind is replaced
    by the name of its type, whatever its value. *)
Lemma toolResult_failure (r0 : Value) (msg : string) :
  toolResult [r0; Val TError (VError msg)]
  = Ok {| protocol.CTR_Content := [protocol.NewTextContent msg];
          protocol.CTR_IsError := true |}.
Proof. reflexivity. Qed.

Lemma toolResult_string (s : string) :
  toolResult [Val TString (VString s)]
  = Ok {| protocol.CTR_Content := [VString s]; protocol.CTR_IsError := false |}
  /\ toolResult [Val TString (VString s); Val TError VNil]
  = Ok {| protocol.CTR_Content := [VString s]; protocol.CTR_IsError := false |}.
Proof. split; reflexivity. Qed.

Lemma toolResult_forgets_other_values (t : GoType) (x y : value) :
  kindOf t <> KString ->
  toolResult [Val t x] = toolResult [Val t y]
  /\ toolResult [Val t x; Val TError VNil] = toolResult [Val t y; Val TError VNil].
Proof.
  intros Hk. unfold toolResult, String_. simpl.
  destruct (kindOf t); try contradiction; split; reflexivity.
Qed.

(** A handler failure in tools/call: a response, flagged isError, that
    carries the text of the error. *)
Lemma tool_failure_is_a_flagged_response :
  forall rangeOrder : forall A : Type, gmap string A -> list (string * A),
    HandleRequest rangeOrder checker initializedSession
      (request 8 "tools/call"
         (protocol.Raw (namedWithStrings "check" (Some {[ "arg0" := "" ]}))))
    = (initializedSession,
       Ok {| protocol.Resp_JSONRPC := "2.0";
             protocol.Resp_ID := VFloat TFloat64 "8";
             protocol.Resp_Result :=
               protocol.ResCallTool
                 {| protocol.CTR_Content := [protocol.NewTextContent "empty text"];
                    protocol.CTR_IsError := true |} |}).
Proof. intros rangeOrder. vm_compute. reflexivity. Qed.

(** C8, on the code. Panics are reachable: arguments of a type other
    than the declared one (strings or numbers for int parameters), a
    null argument, a registered nil handler, a resources/read without
    uri, and params that are not a json.RawMessage all make
    HandleRequest panic instead of returning an error. *)
Theorem panics_are_reachable :
  forall rangeOrder : forall A : Type, gmap string A -> list (string * A),
    snd (HandleRequest rangeOrder calculator initializedSession
           (request 2 "tools/call"
              (protocol.Raw (namedWithStrings "add"
                               (Some {[ "arg0" := "3"; "arg1" := "4" ]})))))
      = Panic (CallTypeMismatch TString TInt)
    /\ snd (HandleRequest rangeOrder calculator initializedSession
              (request 3 "tools/call" (protocol.Raw addNumbers)))
      = Panic (CallTypeMismatch TFloat64 TInt)
    /\ snd (HandleRequest rangeOrder calculator initializedSession
              (request 4 "tools/call" (protocol.Raw lengthOfNull)))
      = Panic CallZeroValueArgument
    /\ snd (HandleRequest rangeOrder withNilHandler initializedSession
              (request 5 "tools/call" (protocol.Raw (namedWithStrings "broken" None))))
      = Panic NilDereference
    /\ snd (HandleRequest rangeOrder fileServer initializedSession
              (request 6 "resources/read" (protocol.Raw emptyObject)))
      = Panic NilDereference
    /\ snd (HandleRequest rangeOrder calculator NewSession
              (request 1 "initialize" (protocol.NotRaw VNil)))
      = Panic InterfaceConversion.
Proof. intros rangeOrder. repeat split; vm_compute; reflexivity. Qed.

(** ** Transports *)

(** C9, on the code. For a unit that does not decode, the SSE and the
    WebSocket transports write an error response with code -32700 and a
    nil id; the stdio transport writes one with code 0. *)
Theorem stdio_parse_error_code_is_zero :
  forall (rangeOrder : forall A : Type, gmap string A -> list (string * A))
         (encodes : protocol.JSONRPCResponse -> bool)
         (srv : Server) (s : Session),
    transport.StdioTransport_line rangeOrder encodes srv s transport.Undecodable
    = (s, Ok [transport.ErrorFrame
                {| protocol.JErr_JSONRPC := "2.0";
                   protocol.JErr_ID := VNil;
                   protocol.JErr_Error :=
                     {| protocol.ED_Code := 0;
                        protocol.ED_Message := "Parse error";
                        protocol.ED_Data := libError JSONError |} |}])
    /\ transport.SSETransport_handleRequest rangeOrder encodes srv s transport.Undecodable
    = (s, Ok [transport.ErrorFrame
                {| protocol.JErr_JSONRPC := "2.0";
                   protocol.JErr_ID := VNil;
                   protocol.JErr_Error :=
                     {| protocol.ED_Code := -32700;
                        protocol.ED_Message := "Parse error";
                        protocol.ED_Data := libError JSONError |} |}])
    /\ transport.WebSocketTransport_message rangeOrder encodes srv s transport.Undecodable
    = (s, Ok [transport.ErrorFrame
                {| protocol.JErr_JSONRPC := "2.0";
                   protocol.JErr_ID := VNil;
                   protocol.JErr_Error :=
                     {| protocol.ED_Code := -32700;
                        protocol.ED_Message := "Parse error";
                        protocol.ED_Data := libError JSONError |} |}]).
Proof. intros. repeat split; reflexivity. Qed.

(** ** Prompts: absent arguments *)

Section PromptBinding.

Variable args : option (gmap string string).

Lemma bindPromptArgs_ok (ins : list GoType) :
  forall (k : nat) (handlerArgs : list Value),
    bindPromptArgs args k ins = Ok handlerArgs ->
    Forall2 (fun a t => exists x, a = Val t x) handlerArgs ins
    /\ forall i t, ins !! i = Some t -> lookupArg args ("arg" +:+ itoa (k + i)) = None ->
         handlerArgs !! i = Some (Zero t).
Proof.
  induction ins as [|t0 ins IH]; intros k handlerArgs H; simpl in H.
  - injection H as <-. split; [constructor|]. intros i t Hi. discriminate.
  -     assert (Hrest : exists a l, bindPromptArgs args (S k) ins = Ok l
                                /\ handlerArgs = a :: l
                                /\ (exists x, a = Val t0 x)
                                /\ (lookupArg args ("arg" +:+ itoa k) = None -> a = Zero t0)).
    { destruct (lookupArg args ("arg" +:+ itoa k)) as [s|].
      - destruct (convertValue s t0) as [v| |]; try discriminate.
        destruct (bindPromptArgs args (S k) ins) as [l| |]; simpl in H; try discriminate.
        injection H as <-. exists (Val t0 v), l. repeat split; eauto. discriminate.
      - destruct (bindPromptArgs args (S k) ins) as [l| |]; simpl in H; try discriminate.
        injection H as <-. exists (Zero t0), l. repeat split; eauto. }
    destruct Hrest as (a & l & Hl & -> & Ha & Hz).
    destruct (IH _ _ Hl) as [Hty Hzero]. split.
    + constructor; assumption.
    + intros [|i] t Hi Hs; simpl in *.
      * injection Hi as <-. rewrite Nat.add_0_r in Hs. now rewrite (Hz Hs).
      * apply Hzero; [assumption|]. now rewrite Nat.add_succ_r in Hs.
Qed.

Lemma bindPromptArgs_err (ins : list GoType) :
  forall (k : nat) (e : error),
    bindPromptArgs args k ins = Err e ->
    exists j s t e', ins !! j = Some t /\ lookupArg args ("arg" +:+ itoa (k + j)) = Some s
      /\ convertValue s t = Err e'
      /\ e = wrapError ("invalid argument " +:+ ("arg" +:+ itoa (k + j)) +:+ ": ") e'.
Proof.
  induction ins as [|t0 ins IH]; intros k e H; simpl in H; [discriminate|].
  destruct (lookupArg args ("arg" +:+ itoa k)) as [s|] eqn:Hs.
  - destruct (convertValue s t0) as [v|e'|] eqn:Hc; try discriminate.
    + destruct (bindPromptArgs args (S k) ins) as [l|e1|] eqn:Hl; simpl in H;
        try discriminate.
      injection H as <-. destruct (IH _ _ Hl) as (j & s' & t & e' & Hj & Hs' & Hc' & ->).
      exists (S j), s', t, e'. rewrite Nat.add_succ_r. auto.
    + injection H as <-. exists 0, s, t0, e'. rewrite Nat.add_0_r. auto.
  - destruct (bindPromptArgs args (S k) ins) as [l|e1|] eqn:Hl; simpl in H;
      try discriminate.
    injection H as <-. destruct (IH _ _ Hl) as (j & s' & t & e' & Hj & Hs' & Hc' & ->).
    exists (S j), s', t, e'. rewrite Nat.add_succ_r. auto.
Qed.

Lemma convertValue_no_panic (s : string) (t : GoType) (p : PanicCause) :
  convertValue s t <> Panic p.
Proof.
  unfold convertValue.
  destruct (kindOf t); try discriminate;
    match goal with |- context [match ?x with _ => _ end] => destruct x end;
    discriminate.
Qed.

Lemma bindPromptArgs_no_panic (ins : list GoType) :
  forall (k : nat) (p : PanicCause), bindPromptArgs args k ins <> Panic p.
Proof.
  induction ins as [|t0 ins IH]; intros k p H; simpl in H; [discriminate|].
  destruct (lookupArg args ("arg" +:+ itoa k)) as [s|].
  - destruct (convertValue s t0) as [v|e'|p'] eqn:Hc; try discriminate.
    + destruct (bindPromptArgs args (S k) ins) as [l|e1|p1] eqn:Hl; simpl in H;
        try discriminate.
      injection H as ->. exact (IH _ _ Hl).
    + exact (convertValue_no_panic _ _ _ Hc).
  - destruct (bindPromptArgs args (S k) ins) as [l|e1|p1] eqn:Hl; simpl in H;
      try discriminate.
    injection H as ->. exact (IH _ _ Hl).
Qed.


End PromptBinding.

Lemma AssignableTo_refl (t : GoType) : AssignableTo t t = true.
Proof. unfold AssignableTo. destruct (decide (t = t)); [reflexivity|contradiction]. Qed.

Lemma typed_arguments_are_valid (args : list Value) (ins : list GoType) :
  Forall2 (fun a t => exists x, a = Val t x) args ins ->
  existsb (fun a => match a with Invalid => true | _ => false end) args = false
  /\ checkArgs args ins = Ok ().
Proof.
  induction 1 as [|a t l l' [x ->] _ [IH1 IH2]]; [split; reflexivity|].
  simpl. now rewrite AssignableTo_refl.
Qed.

(** Call of a function that is not variadic, on arguments that have the
    declared types, runs the body. *)
Lemma Call_typed (f : FuncValue) (args : list Value) :
  variadic f = false ->
  Forall2 (fun a t => exists x, a = Val t x) args (inTypes f) ->
  Call (Func f) args = Ok (zip_with Val (outTypes f) (body f (map Interface args))).
Proof.
  intros Hnv H. unfold Call. rewrite Hnv.
  assert (Hlen : length args = length (inTypes f)) by (eapply Forall2_length; eauto).
  rewrite Hlen, Nat.eqb_refl. simpl.
  assert (Hvalid : existsb (fun a => match a with Invalid => true | _ => false end) args
                   = false).
  { clear Hlen. induction H as [|a t l l' [x ->] _ IH]; [reflexivity|]. simpl. exact IH. }
  rewrite Hvalid.
  assert (Hcheck : checkArgs args (inTypes f) = Ok ()).
  { clear Hlen Hvalid. induction H as [|a t l l' [x ->] _ IH]; [reflexivity|].
    simpl. now rewrite AssignableTo_refl. }
  rewrite Hcheck. reflexivity.
Qed.

(** Call of a variadic function with one argument per parameter, each of
    the declared type: the last argument, a slice, is taken for one
    element of the variadic parameter, and the call panics unless a
    slice is assignable to the element type. *)
Lemma Call_variadic_typed (f : FuncValue) (args : list Value) (elem : GoType) :
  variadic f = true ->
  Forall2 (fun a t => exists x, a = Val t x) args (inTypes f) ->
  inTypes f !! pred (length (inTypes f)) = Some (TSlice elem) ->
  AssignableTo (TSlice elem) elem = false ->
  Call (Func f) args = Panic (CallCannotUse (TSlice elem) elem).
Proof.
  intros Hv H Hlast Hassign. unfold Call, callVariadic. rewrite Hv.
  assert (Hlen : length args = length (inTypes f)) by (eapply Forall2_length; eauto).
  set (n := pred (length (inTypes f))) in *.
  assert (Hn : n < length (inTypes f)) by (eapply lookup_lt_Some; eauto).
  replace (length args <? n)%nat with false by (symmetry; apply Nat.ltb_ge; lia).
  rewrite (proj1 (typed_arguments_are_valid _ _ H)).
  rewrite (proj2 (typed_arguments_are_valid _ _ (Forall2_take _ _ _ n H))).
  cbn [mbind outcome_bind]. rewrite Hlast.
  assert (Hdrop : exists x, drop n args = [Val (TSlice elem) x]).
  { pose proof (Forall2_drop _ _ _ n H) as Hd.
    rewrite (drop_S _ _ _ Hlast) in Hd.
    replace (S n) with (length (inTypes f)) in Hd by (unfold n; lia).
    rewrite drop_all in Hd.
    inversion Hd as [|a t l l' [x ->] Hrest Ha Hb]; subst.
    inversion Hrest; subst. symmetry in Ha. eauto. }
  destruct Hdrop as [x ->]. simpl. now rewrite Hassign.
Qed.





(** ** The resource matcher *)





Lemma admissible_tableOrder : admissible tableOrder.
Proof. intros A m. reflexivity. Qed.







(** ** Reading a resource *)

Lemma admissible_singleton {A}
    (rangeOrder : forall A : Type, gmap string A -> list (string * A)) (k : string) (v : A) :
  admissible rangeOrder -> rangeOrder A (<[k := v]> ∅) = [(k, v)].
Proof.
  intros Hadm. specialize (Hadm A (<[k := v]> ∅)).
  rewrite insert_empty, map_to_list_singleton in Hadm.
  now apply Permutation_singleton_r in Hadm.
Qed.

(** readResource looks its arguments up under "param<i>": parameters
    stored under other names are not found and every argument is the
    zero value of its type. *)
Lemma bindResourceArgs_zero (params : gmap string value) (ins : list GoType) :
  (forall k, params !! ("param" +:+ itoa k) = None) ->
  forall i, bindResourceArgs params i ins = map Zero ins.
Proof.
  intros Hnone. induction ins as [|t ins IH]; intros i; simpl; [reflexivity|].
  now rewrite Hnone, IH.
Qed.

(** The failure of a resource handler is the error readResource returns;
    handleReadResource returns it wrapped, and every transport answers
    an error returned by HandleRequest with an error response. *)
Lemma readResource_failure (resource : Resource) (params : gmap string value)
    (ins : list GoType) (r0 : Value) (msg : string) :
  handlerIn (Resource_Handler resource) = Ok ins ->
  Call (Resource_Handler resource) (bindResourceArgs params 0 ins)
    = Ok [r0; Val TError (VError msg)] ->
  readResource resource params = Err (errorText msg).
Proof.
  intros Hin Hcall. unfold readResource. rewrite Hin. cbn [mbind outcome_bind].
  rewrite Hcall. reflexivity.
Qed.

Lemma transport_error_response
    (rangeOrder : forall A : Type, gmap string A -> list (string * A))
    (encodes : protocol.JSONRPCResponse -> bool)
    (srv : Server) (s s' : Session) (req : protocol.JSONRPCRequest) (err : error) :
  HandleRequest rangeOrder srv s req = (s', Err err) ->
  transport.handleRequest rangeOrder encodes srv s req
  = (s', Ok [transport.ErrorFrame
               {| protocol.JErr_JSONRPC := "2.0";
                  protocol.JErr_ID := protocol.Req_ID req;
                  protocol.JErr_Error :=
                    {| protocol.ED_Code := -32603;
                       protocol.ED_Message := "Internal error";
                       protocol.ED_Data := err |} |}]).
Proof. intros H. unfold transport.handleRequest. now rewrite H. Qed.

(** A handler failure in resources/read: an error, which the transport
    answers with an error response. *)
Lemma resource_failure_is_an_error_response :
  forall (rangeOrder : forall A : Type, gmap string A -> list (string * A))
         (encodes : protocol.JSONRPCResponse -> bool),
    admissible rangeOrder ->
    transport.handleRequest rangeOrder encodes checker initializedSession
      (request 9 "resources/read" (protocol.Raw (readParams "status")))
    = (initializedSession,
       Ok [transport.ErrorFrame
             {| protocol.JErr_JSONRPC := "2.0";
                protocol.JErr_ID := VFloat TFloat64 "9";
                protocol.JErr_Error :=
                  {| protocol.ED_Code := -32603;
                     protocol.ED_Message := "Internal error";
                     protocol.ED_Data :=
                       wrapError "failed to read resource: " (errorText "empty text") |} |}]).
Proof.
  intros rangeOrder encodes Hadm. apply transport_error_response.
  unfold HandleRequest. simpl. unfold handleReadResource. simpl.
  unfold matchResource.
  change (Server_resources checker)
    with (<["status" := {| Resource_Handler := check; Resource_Description := "Status";
                           Resource_Pattern := "status" |}]> (∅ : gmap string Resource)).
  rewrite (admissible_singleton rangeOrder _ _ Hadm). reflexivity.
Qed.

(** C2, on the code. With the resource "files/{path}" registered for
    func(path string) (string, error), reading the URI files/abc: the
    matcher extracts path = "abc", readResource looks for "param0",
    finds nothing and calls the handler with the empty string. *)
Theorem matched_parameters_do_not_reach_the_handler :
  forall rangeOrder : forall A : Type, gmap string A -> list (string * A),
    admissible rangeOrder ->
    exists resource,
      matchResource rangeOrder filesServer "files/abc"
        = Ok (resource, {[ "path" := VString "abc" ]})
      /\ Resource_Handler resource = echo
      /\ bindResourceArgs {[ "path" := VString "abc" ]} 0 (inTypes echoFunc)
         = [Val TString (VString "")]
      /\ readResource resource {[ "path" := VString "abc" ]} = Ok [VString ""]
      /\ HandleRequest rangeOrder filesServer initializedSession
           (request 3 "resources/read" (protocol.Raw (readParams "files/abc")))
         = (initializedSession,
            Ok {| protocol.Resp_JSONRPC := "2.0";
                  protocol.Resp_ID := VFloat TFloat64 "3";
                  protocol.Resp_Result := protocol.ResReadResource [VString ""] |}).
Proof.
  intros rangeOrder Hadm.
  assert (Hm : matchResource rangeOrder filesServer "files/abc"
               = Ok ({| Resource_Handler := echo; Resource_Description := "Access files";
                        Resource_Pattern := "files/{path}" |},
                     {[ "path" := VString "abc" ]})).
  { unfold matchResource.
    change (Server_resources filesServer)
      with (<["files/{path}" :=
               {| Resource_Handler := echo; Resource_Description := "Access files";
                  Resource_Pattern := "files/{path}" |}]> (∅ : gmap string Resource)).
    rewrite (admissible_singleton rangeOrder _ _ Hadm). reflexivity. }
  eexists. split; [exact Hm|]. repeat split.
  unfold HandleRequest. simpl. unfold handleReadResource. simpl.
  rewrite Hm. reflexivity.
Qed.

Lemma matched_parameters_do_not_reach_the_handler_witness :
  HandleRequest tableOrder filesServer initializedSession
    (request 3 "resources/read" (protocol.Raw (readParams "files/abc")))
  = (initializedSession,
     Ok {| protocol.Resp_JSONRPC := "2.0";
           protocol.Resp_ID := VFloat TFloat64 "3";
           protocol.Resp_Result := protocol.ResReadResource [VString ""] |}).
Proof.
  destruct (matched_parameters_do_not_reach_the_handler tableOrder)
    as (resource & _ & _ & _ & _ & H).
  - intros A m. reflexivity.
  - exact H.
Defined.

(** ** No coercion in tools/call *)

Lemma bindToolArgs_present (m : gmap string value) (ins : list GoType) :
  forall i : nat,
    (forall j, j < length ins -> is_Some (m !! ("arg" +:+ itoa (i + j)))) ->
    exists args, bindToolArgs (Some m) i ins = Ok args.
Proof.
  induction ins as [|t ins IH]; intros i Hall; simpl.
  - eexists. reflexivity.
  - destruct (Hall 0) as [x Hx]; [simpl; lia|]. rewrite Nat.add_0_r in Hx. rewrite Hx.
    destruct (IH (S i)) as [args Hargs].
    { intros j Hj. rewrite Nat.add_succ_l, <- Nat.add_succ_r. apply Hall. simpl. lia. }
    rewrite Hargs. eexists. reflexivity.
Qed.

Lemma checkArgs_mismatch (args : list Value) :
  forall (ins : list GoType) (k : nat) (xt t : GoType) (x : value),
    args !! k = Some (Val xt x) ->
    ins !! k = Some t ->
    AssignableTo xt t = false ->
    exists p, checkArgs args ins = Panic p.
Proof.
  induction args as [|a args IH]; intros ins k xt t x Ha Hi Hassign; [discriminate|].
  destruct ins as [|t0 ins]; [discriminate|].
  destruct k as [|k]; simpl in Ha, Hi.
  - injection Ha as ->. injection Hi as ->. simpl. rewrite Hassign. eauto.
  - simpl. destruct a as [|xt0 x0]; [eauto|].
    destruct (AssignableTo xt0 t0); [|eauto]. eapply IH; eauto.
Qed.

(** Whatever the tool, an argument whose dynamic type is not assignable
    to the declared type of its parameter is not converted: once every
    declared parameter finds its key, the call panics. *)
Lemma mistyped_argument_panics
    (srv : Server) (req : protocol.JSONRPCRequest) (raw : protocol.RawMessage)
    (params : protocol.CallToolRequestParams) (tool : Tool) (f : FuncValue)
    (m : gmap string value) (k : nat) (x : value) (xt t : GoType) :
  protocol.Req_Params req = protocol.Raw raw ->
  protocol.asCallToolRequestParams raw = Some params ->
  Server_tools srv !! protocol.Call_Name params = Some tool ->
  Tool_Handler tool = Func f ->
  variadic f = false ->
  protocol.Call_Arguments params = Some m ->
  (forall j, j < length (inTypes f) -> is_Some (m !! ("arg" +:+ itoa j))) ->
  inTypes f !! k = Some t ->
  m !! ("arg" +:+ itoa k) = Some x ->
  dynType x = Some xt ->
  AssignableTo xt t = false ->
  exists p, handleCallTool srv req = Panic p.
Proof.
  intros Hp Hraw Htool Hf Hnv Hargs Hall Hk Hx Hdyn Hassign.
  unfold handleCallTool. rewrite Hp. cbn [assertRawMessage mbind outcome_bind].
  unfold Unmarshal. rewrite Hraw. cbn [wrapping mbind outcome_bind].
  rewrite Htool, Hf, Hargs. cbn [handlerIn mbind outcome_bind].
  destruct (bindToolArgs_present m (inTypes f) 0 Hall) as [args Hb].
  rewrite Hb. cbn [mbind outcome_bind].
  destruct (bindToolArgs_binds_wire_values m (inTypes f) 0 args Hb) as [Hlen Hval].
  assert (Hak : args !! k = Some (Val xt x)).
  { destruct (lookup_lt_is_Some_2 args k) as [v Hv].
    { rewrite Hlen. eapply lookup_lt_Some; eauto. }
    destruct (Hval k v Hv) as (y & Hy & ->). simpl in Hy. rewrite Hx in Hy.
    injection Hy as <-. rewrite Hv. unfold ValueOf. now rewrite Hdyn. }
  unfold Call. rewrite Hnv, Hlen, Nat.eqb_refl. cbn [negb].
  destruct (existsb _ args); [eauto|].
  destruct (checkArgs_mismatch args (inTypes f) k xt t x Hak Hk Hassign) as [p Hc].
  rewrite Hc. eauto.
Qed.

(** After the handshake the version in the response is the constant of
    the server, whatever version the client sent. *)
Lemma initialize_answers_with_the_latest_version :
  snd (HandleRequest tableOrder calculator NewSession
         (request 1 "initialize" (protocol.Raw (initializeParams "2025-03-26" "test"))))
  = Ok {| protocol.Resp_JSONRPC := "2.0";
          protocol.Resp_ID := VFloat TFloat64 "1";
          protocol.Resp_Result :=
            protocol.ResInitialize
              {| protocol.IR_ProtocolVersion := "2024-11-05";
                 protocol.IR_Capabilities := Server_capabilities calculator;
                 protocol.IR_ServerInfo := Server_info calculator;
                 protocol.IR_Instructions := None |} |}.
Proof. reflexivity. Qed.

(** * Further properties of the code *)

(** ** The registry and the list operations *)

Lemma AddTool_lookup (s : Server) (key : string) (h : HandlerValue) (d : string) (k : string) :
  Server_tools (fst (AddTool key h d s)) !! k
  = match Server_tools s !! k with
    | Some t => Some t
    | None => if decide (key = k)
              then Some {| Tool_Handler := h; Tool_Description := d; Tool_IsAsync := false |}
              else None
    end.
Proof.
  unfold AddTool. destruct (Server_tools s !! key) as [t|] eqn:Hkey; simpl.
  - destruct (Server_tools s !! k) eqn:Hk; [reflexivity|].
    destruct (decide (key = k)) as [->|]; [congruence|reflexivity].
  - rewrite lookup_insert. destruct (decide (key = k)) as [->|].
    + now rewrite Hkey.
    + now destruct (Server_tools s !! k).
Qed.

(** X1. Tools registered one after the other under pairwise distinct
    names that the server does not hold yet are all stored, each with its
    own handler and description and not marked asynchronous; the tools
    the server held before are kept as they were, and the registries of
    resources and prompts are not touched. *)
Theorem tools_registered_in_turn_are_all_stored :
  forall (entries : list (string * HandlerValue * string)) (s : Server),
    NoDup (map (fun e => fst (fst e)) entries) ->
    (forall e, e ∈ entries -> Server_tools s !! fst (fst e) = None) ->
    let s' := foldl (fun acc e => fst (AddTool (fst (fst e)) (snd (fst e)) (snd e) acc))
                    s entries in
    (forall name h d, (name, h, d) ∈ entries ->
       Server_tools s' !! name
       = Some {| Tool_Handler := h; Tool_Description := d; Tool_IsAsync := false |})
    /\ (forall name t, Server_tools s !! name = Some t -> Server_tools s' !! name = Some t)
    /\ size (Server_tools s') = size (Server_tools s) + length entries
    /\ Server_resources s' = Server_resources s
    /\ Server_prompts s' = Server_prompts s.
Proof.
  induction entries as [|[[n0 h0] d0] entries IH]; intros s Hnd Hfresh; simpl.
  - repeat split; try reflexivity; try lia.
    + intros name h d Hin. inversion Hin.
    + auto.
  - simpl in Hnd. apply NoDup_cons in Hnd as [Hn0 Hnd].
    assert (H0 : Server_tools s !! n0 = None) by (apply (Hfresh (n0, h0, d0)); left).
    specialize (IH (fst (AddTool n0 h0 d0 s)) Hnd).
    destruct IH as (Hall & Hold & Hsize & Hres & Hpr).
    { intros [[n h] d] Hin. simpl. rewrite AddTool_lookup.
      pose proof (Hfresh (n, h, d) ltac:(now right)) as Hf. simpl in Hf. rewrite Hf.
      destruct (decide (n0 = n)) as [->|]; [|reflexivity].
      exfalso. apply Hn0. apply list_elem_of_fmap. exists (n, h, d). auto. }
    simpl in *. repeat split.
    + intros name h d Hin. apply elem_of_cons in Hin as [[= -> -> ->]|Hin].
      * apply Hold. rewrite AddTool_lookup, H0. now rewrite decide_True.
      * now apply Hall.
    + intros name t Ht. apply Hold. rewrite AddTool_lookup. now rewrite Ht.
    + rewrite Hsize. unfold AddTool. rewrite H0. simpl.
      rewrite map_size_insert_None by assumption. lia.
    + rewrite Hres. unfold AddTool. now rewrite H0.
    + rewrite Hpr. unfold AddTool. now rewrite H0.
Qed.

Lemma tools_registered_in_turn_are_all_stored_witness :
  Server_tools calculator !! "length"
  = Some {| Tool_Handler := length_; Tool_Description := "Length of a text";
            Tool_IsAsync := false |}.
Proof.
  assert (Hnd : NoDup (map (fun e : string * HandlerValue * string => fst (fst e))
                         [("add", add, "Add two numbers");
                          ("length", length_, "Length of a text")])).
  { simpl. apply NoDup_ListNoDup. repeat constructor; simpl; intuition discriminate. }
  destruct (tools_registered_in_turn_are_all_stored
              [("add", add, "Add two numbers"); ("length", length_, "Length of a text")]
              (NewServer "test" []) Hnd) as (Hall & _).
  - intros e _. reflexivity.
  - apply (Hall "length" length_ "Length of a text"). right. left.
Defined.

(** X2. With an iteration order that visits every entry once, tools/list
    answers with one entry per registered tool, carrying its name and
    description: as many entries as tools, no name twice, and an entry
    is listed exactly when the tool is registered.  resources/list does
    the same with the pattern as URI and as name, prompts/list with the
    name and description of each prompt. *)
Theorem list_operations_list_the_registry :
  forall (rangeOrder : forall A : Type, gmap string A -> list (string * A))
         (srv : Server) (req : protocol.JSONRPCRequest),
    admissible rangeOrder ->
    (exists tools,
       handleListTools rangeOrder srv req = Ok (response req (protocol.ResListTools tools))
       /\ length tools = size (Server_tools srv)
       /\ NoDup (map protocol.Tool_Name tools)
       /\ forall name d,
            {| protocol.Tool_Name := name; protocol.Tool_Description := d |} ∈ tools
            <-> exists t, Server_tools srv !! name = Some t /\ Tool_Description t = d)
    /\ (exists resources,
          handleListResources rangeOrder srv req
            = Ok (response req (protocol.ResListResources resources))
          /\ length resources = size (Server_resources srv)
          /\ forall uri name d,
               {| protocol.Resource_URI := uri; protocol.Resource_Name := name;
                  protocol.Resource_Description := d |} ∈ resources
               <-> exists key r, Server_resources srv !! key = Some r
                     /\ Resource_Pattern r = uri /\ Resource_Pattern r = name
                     /\ Resource_Description r = d)
    /\ (exists prompts,
          handleListPrompts rangeOrder srv req
            = Ok (response req (protocol.ResListPrompts prompts))
          /\ length prompts = size (Server_prompts srv)
          /\ NoDup (map protocol.Prompt_Name prompts)
          /\ forall name d,
               {| protocol.Prompt_Name := name; protocol.Prompt_Description := d |} ∈ prompts
               <-> exists p, Server_prompts srv !! name = Some p /\ Prompt_Description p = d).
Proof.
  intros rangeOrder srv req Hadm. split; [|split].
  - eexists. split; [reflexivity|]. repeat split.
    + rewrite length_map, (Hadm _ (Server_tools srv)). apply length_map_to_list.
    + rewrite map_map.
      rewrite (map_ext _ fst) by (now intros [? ?]).
      change (map fst ?l) with (l.*1).
      rewrite (Hadm _ (Server_tools srv)). apply NoDup_fst_map_to_list.
    + intros Hin. apply list_elem_of_fmap in Hin as [[n t] [Heq Hin]].
      injection Heq as -> ->. rewrite (Hadm _ (Server_tools srv)) in Hin.
      apply elem_of_map_to_list in Hin. eauto.
    + intros [t [Ht <-]]. apply list_elem_of_fmap. exists (name, t). split; [reflexivity|].
      rewrite (Hadm _ (Server_tools srv)). now apply elem_of_map_to_list.
  - eexists. split; [reflexivity|]. repeat split.
    + rewrite length_map, (Hadm _ (Server_resources srv)). apply length_map_to_list.
    + intros Hin. apply list_elem_of_fmap in Hin as [[k r] [Heq Hin]].
      injection Heq as -> -> ->. rewrite (Hadm _ (Server_resources srv)) in Hin.
      apply elem_of_map_to_list in Hin. exists k, r. auto.
    + intros (k & r & Hr & <- & <- & <-). apply list_elem_of_fmap. exists (k, r).
      split; [reflexivity|].
      rewrite (Hadm _ (Server_resources srv)). now apply elem_of_map_to_list.
  - eexists. split; [reflexivity|]. repeat split.
    + rewrite length_map, (Hadm _ (Server_prompts srv)). apply length_map_to_list.
    + rewrite map_map.
      rewrite (map_ext _ fst) by (now intros [? ?]).
      change (map fst ?l) with (l.*1).
      rewrite (Hadm _ (Server_prompts srv)). apply NoDup_fst_map_to_list.
    + intros Hin. apply list_elem_of_fmap in Hin as [[n t] [Heq Hin]].
      injection Heq as -> ->. rewrite (Hadm _ (Server_prompts srv)) in Hin.
      apply elem_of_map_to_list in Hin. eauto.
    + intros [t [Ht <-]]. apply list_elem_of_fmap. exists (name, t). split; [reflexivity|].
      rewrite (Hadm _ (Server_prompts srv)). now apply elem_of_map_to_list.
Qed.

Lemma list_operations_list_the_registry_witness :
  exists tools,
    handleListTools tableOrder calculator (request 4 "tools/list" (protocol.Raw emptyObject))
      = Ok (response (request 4 "tools/list" (protocol.Raw emptyObject))
              (protocol.ResListTools tools))
    /\ length tools = 2.
Proof.
  destruct (list_operations_list_the_registry tableOrder calculator
              (request 4 "tools/list" (protocol.Raw emptyObject)))
    as ((tools & Hr & Hlen & _) & _).
  - intros A m. reflexivity.
  - exists tools. split; [exact Hr|]. rewrite Hlen. reflexivity.
Defined.

(** X3. server.AddTool and server.AddPrompt store whatever handler value
    they are given, nil and non-functions included; tools/call on a tool
    and prompts/get on a prompt stored with such a handler panic,
    whatever the arguments. *)
Theorem unvalidated_handlers_panic_when_called :
  forall (s : Server) (key description : string) (handler : HandlerValue)
         (req : protocol.JSONRPCRequest) (raw : protocol.RawMessage),
    protocol.Req_Params req = protocol.Raw raw ->
    (forall params,
       Server_tools s !! key = None ->
       protocol.asCallToolRequestParams raw = Some params ->
       protocol.Call_Name params = key ->
       snd (AddTool key handler description s) = None
       /\ match handler with
          | NilHandler =>
              handleCallTool (fst (AddTool key handler description s)) req
              = Panic NilDereference
          | NonFunc t =>
              handleCallTool (fst (AddTool key handler description s)) req
              = Panic (NumInOfNonFunc t)
          | Func _ => True
          end)
    /\ (forall params,
          Server_prompts s !! key = None ->
          protocol.asGetPromptRequestParams raw = Some params ->
          protocol.Get_Name params = key ->
          snd (AddPrompt key handler description s) = None
          /\ match handler with
             | NilHandler =>
                 handleGetPrompt (fst (AddPrompt key handler description s)) req
                 = Panic NilDereference
             | NonFunc t =>
                 handleGetPrompt (fst (AddPrompt key handler description s)) req
                 = Panic (NumInOfNonFunc t)
             | Func _ => True
             end).
Proof.
  intros s key description handler req raw Hp. split.
  - intros params Hfresh Hraw Hname. unfold AddTool. rewrite Hfresh. simpl.
    split; [reflexivity|].
    unfold handleCallTool. rewrite Hp. cbn [assertRawMessage mbind outcome_bind].
    unfold Unmarshal. rewrite Hraw. cbn [wrapping mbind outcome_bind].
    rewrite Hname. simpl. rewrite lookup_insert_eq. simpl.
    destruct handler; reflexivity || exact I.
  - intros params Hfresh Hraw Hname. unfold AddPrompt. rewrite Hfresh. simpl.
    split; [reflexivity|].
    unfold handleGetPrompt. rewrite Hp. cbn [assertRawMessage mbind outcome_bind].
    unfold Unmarshal. rewrite Hraw. cbn [wrapping mbind outcome_bind].
    rewrite Hname. simpl. rewrite lookup_insert_eq. unfold renderPrompt. simpl.
    destruct handler; reflexivity || exact I.
Qed.

Lemma unvalidated_handlers_panic_when_called_witness :
  handleCallTool withNilHandler
    (request 5 "tools/call" (protocol.Raw (namedWithStrings "broken" None)))
  = Panic NilDereference.
Proof.
  exact (proj2 (proj1 (unvalidated_handlers_panic_when_called
                         (NewServer "test" []) "broken" "No handler" NilHandler
                         (request 5 "tools/call"
                            (protocol.Raw (namedWithStrings "broken" None)))
                         (namedWithStrings "broken" None) eq_refl)
                  _ eq_refl eq_refl eq_refl)).
Defined.

(** ** Package mcp *)

(** X4. validateHandler accepts a handler exactly when it is a function
    with at least one result whose second result, when it has exactly
    two, implements error; it names the reason otherwise.  A function
    with three results or more is accepted whatever their types. *)
Theorem validateHandler_accepts_exactly :
  forall handler : HandlerValue,
    (mcp.validateHandler handler = None
     <-> exists f, handler = Func f
           /\ outTypes f <> []
           /\ forall t0 t1, outTypes f = [t0; t1] -> implementsError t1 = true)
    /\ (handler = NilHandler ->
        mcp.validateHandler handler = Some (errorText "handler cannot be nil"))
    /\ (forall t, handler = NonFunc t ->
        mcp.validateHandler handler = Some (errorText "handler must be a function"))
    /\ (forall f, handler = Func f -> outTypes f = [] ->
        mcp.validateHandler handler
        = Some (errorText "handler must return at least one value"))
    /\ (forall f t0 t1, handler = Func f -> outTypes f = [t0; t1] ->
        implementsError t1 = false ->
        mcp.validateHandler handler
        = Some (errorText "second return value must be error"))
    /\ (forall f, handler = Func f -> (3 <= length (outTypes f))%nat ->
        mcp.validateHandler handler = None).
Proof.
  intros handler. repeat split.
  - destruct handler as [|t|f]; simpl; try discriminate.
    intros H. exists f. split; [reflexivity|].
    destruct (outTypes f) as [|t0 [|t1 [|t2 outs]]]; simpl in H; try discriminate.
    + split; [discriminate|]. intros ? ? [=].
    + split; [discriminate|]. intros ? ? [= <- <-].
      destruct (implementsError t1); [reflexivity|discriminate].
    + split; [discriminate|]. intros ? ? [=].
  - intros (f & -> & Hne & H2). simpl.
    destruct (outTypes f) as [|t0 [|t1 [|t2 outs]]]; simpl; try reflexivity.
    + contradiction.
    + now rewrite (H2 t0 t1 eq_refl).
  - intros ->. reflexivity.
  - intros t ->. reflexivity.
  - intros f -> H. simpl. now rewrite H.
  - intros f t0 t1 -> H Hi. simpl. rewrite H. simpl. now rewrite Hi.
  - intros f -> H. simpl.
    destruct (outTypes f) as [|t0 [|t1 [|t2 outs]]]; simpl in *; try lia; reflexivity.
Qed.

(** X5. mcp.AddTool with a handler that validateHandler refuses returns
    the error wrapped as "invalid tool handler" and leaves the server as
    it was.  With a handler it accepts, the tool is stored under its name
    whether or not the name was taken: the entry that was there is
    replaced, the other tools are kept. *)
Theorem mcp_AddTool_validates_and_overwrites :
  forall (s : mcp.Server) (name description : string) (handler : HandlerValue),
    match mcp.validateHandler handler with
    | Some err =>
        mcp.AddTool name handler description s
        = (s, Some (wrapError "invalid tool handler: " err))
    | None =>
        snd (mcp.AddTool name handler description s) = None
        /\ mcp.Server_tools (fst (mcp.AddTool name handler description s)) !! name
           = Some {| mcp.Tool_Handler := handler; mcp.Tool_Description := description;
                     mcp.Tool_IsAsync := false |}
        /\ (forall k, k <> name ->
              mcp.Server_tools (fst (mcp.AddTool name handler description s)) !! k
              = mcp.Server_tools s !! k)
        /\ forall handler' description',
             mcp.validateHandler handler' = None ->
             mcp.Server_tools
               (fst (mcp.AddTool name handler' description'
                       (fst (mcp.AddTool name handler description s)))) !! name
             = Some {| mcp.Tool_Handler := handler'; mcp.Tool_Description := description';
                       mcp.Tool_IsAsync := false |}
    end.
Proof.
  intros s name description handler.
  destruct (mcp.validateHandler handler) as [err|] eqn:Hv;
    unfold mcp.AddTool; rewrite Hv; [reflexivity|]. simpl.
  repeat split.
  - apply lookup_insert_eq.
  - intros k Hk. now apply lookup_insert_ne.
  - intros handler' description' Hv'. rewrite Hv'. simpl.
    apply lookup_insert_eq.
Qed.

Lemma validateHandler_accepts_exactly_witness :
  mcp.validateHandler
    (Func {| inTypes := []; outTypes := [TInt; TString]; variadic := false;
             body := fun _ => [VInt TInt 0; VString "not an error"] |})
  = Some (errorText "second return value must be error").
Proof.
  destruct (validateHandler_accepts_exactly
              (Func {| inTypes := []; outTypes := [TInt; TString]; variadic := false;
                       body := fun _ => [VInt TInt 0; VString "not an error"] |}))
    as (_ & _ & _ & _ & H & _).
  exact (H _ TInt TString eq_refl eq_refl eq_refl).
Defined.

Lemma mcp_AddTool_validates_and_overwrites_witness :
  mcp.AddTool "invalid" NilHandler "Invalid tool" (mcp.NewServer "test" [])
  = (mcp.NewServer "test" [],
     Some (wrapError "invalid tool handler: " (errorText "handler cannot be nil"))).
Proof.
  exact (mcp_AddTool_validates_and_overwrites
           (mcp.NewServer "test" []) "invalid" "Invalid tool" NilHandler).
Defined.

(** ** Sessions and dispatch *)

Lemma bind_Ok_inv {A B} (m : outcome A) (k : A -> outcome B) (r : B) :
  (m ≫= k) = Ok r -> exists a, m = Ok a /\ k a = Ok r.
Proof. destruct m as [a|e|p]; simpl; try discriminate. eauto. Qed.

Lemma wrapping_Ok_inv {A} (msg : string) (o : outcome A) (a : A) :
  wrapping msg o = Ok a -> o = Ok a.
Proof. destruct o; simpl; congruence. Qed.

Ltac ok_inv H :=
  repeat first
    [ apply bind_Ok_inv in H; destruct H as (? & ? & H)
    | match type of H with
      | (match ?x with _ => _ end) = Ok _ => destruct x eqn:?; try discriminate
      | (if ?x then _ else _) = Ok _ => destruct x eqn:?; try discriminate
      end ].

Lemma handleCallTool_answers srv req resp :
  handleCallTool srv req = Ok resp ->
  exists result, resp = response req (protocol.ResCallTool result).
Proof. unfold handleCallTool. intros H. ok_inv H. injection H as <-. eauto. Qed.

Lemma handleReadResource_answers rangeOrder srv req resp :
  handleReadResource rangeOrder srv req = Ok resp ->
  exists contents, resp = response req (protocol.ResReadResource contents).
Proof. unfold handleReadResource. intros H. ok_inv H. injection H as <-. eauto. Qed.

Lemma handleGetPrompt_answers srv req resp :
  handleGetPrompt srv req = Ok resp ->
  exists result, resp = response req (protocol.ResGetPrompt result).
Proof. unfold handleGetPrompt. intros H. ok_inv H. injection H as <-. eauto. Qed.

Lemma HandleRequest_answers rangeOrder srv s req s' resp :
  HandleRequest rangeOrder srv s req = (s', Ok resp) ->
  exists result, resp = response req result.
Proof.
  unfold HandleRequest.
  destruct (String.eqb (protocol.Req_Method req) "initialize");
    destruct (Session_initialized s); simpl; try discriminate.
  - unfold handleInitialize.
    destruct (_ ≫= _) as [params|e|p]; intros [= <- <-]; eauto.
  - intros [= <- H]. unfold handlePing, handleListTools, handleListResources,
      handleListPrompts in H.
    repeat match type of H with
           | (if ?x then _ else _) = _ => destruct x
           end; try discriminate; try (injection H as <-; eauto; fail).
    + apply handleCallTool_answers in H as [? ->]. eauto.
    + apply handleReadResource_answers in H as [? ->]. eauto.
    + apply handleGetPrompt_answers in H as [? ->]. eauto.
Qed.

(** X6. Every response HandleRequest returns is a JSON-RPC 2.0 response
    that carries the ID of the request it answers, whatever the method
    and whatever version string the request had. *)
Theorem responses_carry_the_request_id :
  forall rangeOrder (srv : Server) (s s' : Session)
         (req : protocol.JSONRPCRequest) (resp : protocol.JSONRPCResponse),
    HandleRequest rangeOrder srv s req = (s', Ok resp) ->
    protocol.Resp_ID resp = protocol.Req_ID req
    /\ protocol.Resp_JSONRPC resp = "2.0".
Proof.
  intros rangeOrder srv s s' req resp H.
  apply HandleRequest_answers in H as [result ->]. split; reflexivity.
Qed.

Lemma responses_carry_the_request_id_witness :
  protocol.Resp_ID
    {| protocol.Resp_JSONRPC := "2.0";
       protocol.Resp_ID := VFloat TFloat64 "2";
       protocol.Resp_Result :=
         protocol.ResCallTool
           {| protocol.CTR_Content := [VString "<int Value>"];
              protocol.CTR_IsError := false |} |}
  = protocol.Req_ID
      (request 2 "tools/call"
         (protocol.Raw (namedWithStrings "length" (Some {[ "arg0" := "abc" ]}))))
  /\ "2.0" = "2.0".
Proof.
  exact (responses_carry_the_request_id tableOrder calculator initializedSession
           initializedSession
           (request 2 "tools/call"
              (protocol.Raw (namedWithStrings "length" (Some {[ "arg0" := "abc" ]}))))
           {| protocol.Resp_JSONRPC := "2.0";
              protocol.Resp_ID := VFloat TFloat64 "2";
              protocol.Resp_Result :=
                protocol.ResCallTool
                  {| protocol.CTR_Content := [VString "<int Value>"];
                     protocol.CTR_IsError := false |} |}
           eq_refl).
Defined.

(** X7. The session changes at one place only: a successful initialize
    on a session that is not initialized, which marks it initialized and
    stores the capabilities and the client information of the request.
    A request that fails or panics, and any request on an initialized
    session, leaves the session as it was. *)
Theorem session_changes_only_at_initialize :
  forall rangeOrder (srv : Server) (s : Session) (req : protocol.JSONRPCRequest),
    (Session_initialized s = true ->
     fst (HandleRequest rangeOrder srv s req) = s)
    /\ (forall e, snd (HandleRequest rangeOrder srv s req) = Err e ->
        fst (HandleRequest rangeOrder srv s req) = s)
    /\ (forall p, snd (HandleRequest rangeOrder srv s req) = Panic p ->
        fst (HandleRequest rangeOrder srv s req) = s)
    /\ (Session_initialized s = false ->
        forall resp, snd (HandleRequest rangeOrder srv s req) = Ok resp ->
        protocol.Req_Method req = "initialize"
        /\ exists raw params,
             protocol.Req_Params req = protocol.Raw raw
             /\ protocol.asInitializeRequestParams raw = Some params
             /\ fst (HandleRequest rangeOrder srv s req)
                = {| Session_initialized := true;
                     Session_capabilities := protocol.Init_Capabilities params;
                     Session_clientInfo := protocol.Init_ClientInfo params |}).
Proof.
  intros rangeOrder srv s req. unfold HandleRequest, handleInitialize.
  destruct (String.eqb (protocol.Req_Method req) "initialize") eqn:Hm;
    destruct (Session_initialized s) eqn:Hi; simpl;
    repeat split; try reflexivity; try discriminate.
  - destruct (protocol.Req_Params req) as [raw|x]; simpl; [|reflexivity].
    unfold Unmarshal. destruct (protocol.asInitializeRequestParams raw); simpl;
      [discriminate|reflexivity].
  - destruct (protocol.Req_Params req) as [raw|x]; simpl; [|reflexivity].
    unfold Unmarshal. destruct (protocol.asInitializeRequestParams raw); simpl;
      [discriminate|reflexivity].
  - now apply String.eqb_eq.
  - destruct (protocol.Req_Params req) as [raw|x]; simpl in *; [|discriminate].
    unfold Unmarshal in *.
    destruct (protocol.asInitializeRequestParams raw) as [params|] eqn:Hr; simpl in *;
      [|discriminate].
    exists raw, params. repeat split; try reflexivity; exact Hr.
Qed.

Lemma session_changes_only_at_initialize_witness :
  fst (HandleRequest tableOrder calculator initializedSession
         (request 2 "initialize" (protocol.Raw (initializeParams "2024-11-05" "other"))))
  = initializedSession.
Proof.
  exact (proj1 (session_changes_only_at_initialize tableOrder calculator
                  initializedSession
                  (request 2 "initialize"
                     (protocol.Raw (initializeParams "2024-11-05" "other"))))
           eq_refl).
Defined.

(** X8. On an initialized session ping and the three list requests
    succeed whatever the params member of the request is, a value that
    is not raw JSON included: they never look at it. *)
Theorem ping_and_lists_ignore_params :
  forall rangeOrder (srv : Server) (s : Session) (req : protocol.JSONRPCRequest)
         (params : protocol.ParamsField),
    Session_initialized s = true ->
    In (protocol.Req_Method req)
       ["ping"; "tools/list"; "resources/list"; "prompts/list"] ->
    exists result,
      HandleRequest rangeOrder srv s req = (s, Ok (response req result))
      /\ HandleRequest rangeOrder srv s
           {| protocol.Req_JSONRPC := protocol.Req_JSONRPC req;
              protocol.Req_ID := protocol.Req_ID req;
              protocol.Req_Method := protocol.Req_Method req;
              protocol.Req_Params := params |}
         = (s, Ok (response req result)).
Proof.
  intros rangeOrder srv s req params Hi Hm. unfold HandleRequest. rewrite Hi. simpl.
  destruct Hm as [<-|[<-|[<-|[<-|[]]]]]; simpl; eexists; split; reflexivity.
Qed.

Lemma ping_and_lists_ignore_params_witness :
  exists result,
    HandleRequest tableOrder calculator initializedSession
      (request 3 "ping" (protocol.NotRaw VNil))
    = (initializedSession, Ok (response (request 3 "ping" (protocol.NotRaw VNil)) result)).
Proof.
  destruct (ping_and_lists_ignore_params tableOrder calculator initializedSession
              (request 3 "ping" (protocol.NotRaw VNil)) (protocol.NotRaw VNil)
              eq_refl (or_introl eq_refl)) as (result & H & _).
  exists result. exact H.
Defined.

(** ** The transports *)

Lemma HandleRequest_initialized rangeOrder srv s req :
  Session_initialized s = true -> fst (HandleRequest rangeOrder srv s req) = s.
Proof.
  intros Hi. unfold HandleRequest. rewrite Hi.
  destruct (String.eqb (protocol.Req_Method req) "initialize"); reflexivity.
Qed.

Lemma HandleRequest_failure_keeps_session rangeOrder srv s req :
  match snd (HandleRequest rangeOrder srv s req) with
  | Ok _ => True
  | _ => fst (HandleRequest rangeOrder srv s req) = s
  end.
Proof.
  unfold HandleRequest, handleInitialize.
  destruct (String.eqb (protocol.Req_Method req) "initialize");
    destruct (Session_initialized s); cbn [negb fst snd]; try reflexivity.
  - destruct (_ ≫= _); cbn [fst snd]; auto.
  - match goal with |- match ?x with _ => _ end => destruct x end; auto.
Qed.

Lemma handleNotification_of_message (s : Session) (msg : transport.message) :
  transport.handleNotification s (transport.toNotification msg) = Ok [].
Proof.
  unfold transport.handleNotification, HandleNotification, handleInitialized,
    handleCancelled, transport.toNotification. simpl.
  repeat match goal with |- context [if ?x then _ else _] => destruct x end;
    try reflexivity.
  unfold Unmarshal.
  destruct (protocol.asCancelledNotificationParams (transport.msg_Params msg));
    reflexivity.
Qed.

(** X9. What a transport does with a decoded message.  A message with an
    ID is a request.  When HandleRequest answers it, the response
    carries that ID and is written if it encodes, and nothing is written
    if it does not; when HandleRequest fails, an error response with the
    ID, code -32603, message "Internal error" and the error as data is
    written and the session is left as it was; when the handler panics
    nothing is written.  So a request gets at most one frame.  A message
    without ID is a notification: nothing is written and the session is
    left as it was, also when the notification is refused or unknown; it
    never panics. *)
Theorem requests_get_at_most_one_reply_notifications_none :
  forall (rangeOrder : forall A : Type, gmap string A -> list (string * A))
         (encodes : protocol.JSONRPCResponse -> bool)
         (srv : Server) (s : Session) (msg : transport.message),
    match transport.msg_ID msg with
    | Some id =>
        match HandleRequest rangeOrder srv s (transport.toRequest msg id) with
        | (s', Ok resp) =>
            protocol.Resp_ID resp = id
            /\ transport.dispatch rangeOrder encodes srv s msg
               = (s', Ok (if encodes resp then [transport.ResponseFrame resp] else []))
        | (s', Err err) =>
            transport.dispatch rangeOrder encodes srv s msg
            = (s, Ok [transport.ErrorFrame
                        {| protocol.JErr_JSONRPC := "2.0";
                           protocol.JErr_ID := id;
                           protocol.JErr_Error :=
                             {| protocol.ED_Code := -32603;
                                protocol.ED_Message := "Internal error";
                                protocol.ED_Data := err |} |}])
        | (s', Panic p) =>
            transport.dispatch rangeOrder encodes srv s msg = (s, Panic p)
        end
    | None => transport.dispatch rangeOrder encodes srv s msg = (s, Ok [])
    end.
Proof.
  intros rangeOrder encodes srv s msg. unfold transport.dispatch.
  destruct (transport.msg_ID msg) as [id|].
  - unfold transport.handleRequest.
    pose proof (HandleRequest_failure_keeps_session rangeOrder srv s
                  (transport.toRequest msg id)) as Hkeep.
    destruct (HandleRequest rangeOrder srv s (transport.toRequest msg id))
      as [s' [resp|err|p]] eqn:H; simpl in Hkeep.
    + split; [|reflexivity].
      destruct (HandleRequest_answers _ _ _ _ _ _ H) as [result ->]. reflexivity.
    + now subst s'.
    + now subst s'.
  - now rewrite handleNotification_of_message.
Qed.

Lemma dispatch_shape rangeOrder encodes srv s msg :
  match snd (transport.dispatch rangeOrder encodes srv s msg) with
  | Ok frames =>
      length frames <= (if transport.answered (transport.Decoded msg) then 1 else 0)
      /\ ((forall resp, encodes resp = true) ->
          length frames = if transport.answered (transport.Decoded msg) then 1 else 0)
  | Err _ => False
  | Panic _ => transport.answered (transport.Decoded msg) = true
  end
  /\ (Session_initialized s = true ->
      fst (transport.dispatch rangeOrder encodes srv s msg) = s).
Proof.
  unfold transport.dispatch, transport.answered.
  destruct (transport.msg_ID msg) as [id|].
  - unfold transport.handleRequest.
    pose proof (HandleRequest_initialized rangeOrder srv s (transport.toRequest msg id))
      as Hinit.
    destruct (HandleRequest rangeOrder srv s (transport.toRequest msg id))
      as [s' [resp|err|p]]; simpl in *; split; try assumption;
      try (split; [lia|reflexivity]); try reflexivity.
    destruct (encodes resp) eqn:He; simpl; split; try lia.
    intros Hall. rewrite Hall in He. discriminate.
  - rewrite handleNotification_of_message. simpl. repeat split; lia.
Qed.

Lemma StdioTransport_line_shape rangeOrder encodes srv s line :
  match snd (transport.StdioTransport_line rangeOrder encodes srv s line) with
  | Ok frames =>
      length frames <= (if transport.answered line then 1 else 0)
      /\ ((forall resp, encodes resp = true) ->
          length frames = if transport.answered line then 1 else 0)
  | Err _ => False
  | Panic _ => transport.answered line = true
  end
  /\ (Session_initialized s = true ->
      fst (transport.StdioTransport_line rangeOrder encodes srv s line) = s).
Proof.
  destruct line as [|msg]; [simpl; repeat split; lia|].
  exact (dispatch_shape rangeOrder encodes srv s msg).
Qed.

Lemma WebSocketTransport_message_shape rangeOrder encodes srv s unit :
  match snd (transport.WebSocketTransport_message rangeOrder encodes srv s unit) with
  | Ok frames =>
      length frames <= (if transport.answered unit then 1 else 0)
      /\ ((forall resp, encodes resp = true) ->
          length frames = if transport.answered unit then 1 else 0)
  | Err _ => False
  | Panic _ => transport.answered unit = true
  end
  /\ (Session_initialized s = true ->
      fst (transport.WebSocketTransport_message rangeOrder encodes srv s unit) = s).
Proof.
  destruct unit as [|msg]; [simpl; repeat split; lia|].
  exact (dispatch_shape rangeOrder encodes srv s msg).
Qed.

(** X10. StdioTransport.Start over the lines of its input.  Unless a
    handler panics, Start writes at most one frame for every line that
    does not decode or that is a request, none for a notification, and
    returns nil at end of file and the wrapped read error otherwise; it
    never returns an error of its own for a line.  A frame is missing
    only where a response does not encode: when every response encodes,
    there is exactly one frame per such line.  A panic happens at a line
    that was owed a frame and ends Start before it is written.  A
    session that is initialized when Start begins is returned
    unchanged. *)
Theorem stdio_loop_answers_requests_and_undecodable_lines :
  forall (rangeOrder : forall A : Type, gmap string A -> list (string * A))
         (encodes : protocol.JSONRPCResponse -> bool)
         (srv : Server) (lines : list transport.Inbound)
         (stop : transport.StreamEnd) (s : Session),
    let run := transport.StdioTransport_Start rangeOrder encodes srv s lines stop in
    let owed := length (List.filter transport.answered lines) in
    match snd run with
    | Ok _ =>
        stop = transport.EOF
        /\ length (snd (fst run)) <= owed
        /\ ((forall resp, encodes resp = true) -> length (snd (fst run)) = owed)
    | Err e =>
        (exists err, stop = transport.ReadFailure err
                     /\ e = wrapError "failed to read from stdin: " err)
        /\ length (snd (fst run)) <= owed
        /\ ((forall resp, encodes resp = true) -> length (snd (fst run)) = owed)
    | Panic _ => length (snd (fst run)) < owed
    end
    /\ (Session_initialized s = true -> fst (fst run) = s).
Proof.
  intros rangeOrder encodes srv lines stop.
  induction lines as [|line lines IH]; intros s.
  - simpl. split; [|reflexivity]. destruct stop; simpl; eauto 6.
  - cbn zeta in *. cbn [transport.StdioTransport_Start List.filter].
    destruct (StdioTransport_line_shape rangeOrder encodes srv s line) as [Hshape Hsess].
    destruct (transport.StdioTransport_line rangeOrder encodes srv s line)
      as [s' [frames|e|p]] eqn:Hline; simpl in Hshape, Hsess.
    + specialize (IH s').
      destruct (transport.StdioTransport_Start rangeOrder encodes srv s' lines stop)
        as [[s'' written] result] eqn:Hrest. simpl in *.
      destruct IH as [IH1 IH2]. destruct Hshape as [Hle Heq]. split.
      * rewrite length_app.
        destruct (transport.answered line); simpl in *;
          destruct result as [[]|e|p]; simpl in *;
          repeat split; try tauto; try lia;
          try (intros Hall; specialize (Heq Hall);
               destruct IH1 as (? & ? & IHeq); specialize (IHeq Hall); lia);
          destruct IH1 as (? & ? & ?); lia.
      * intros Hi. pose proof (Hsess Hi) as ->. auto.
    + contradiction.
    + simpl. rewrite Hshape. simpl. split; [lia|exact Hsess].
Qed.

Lemma stdio_loop_answers_requests_and_undecodable_lines_witness :
  fst (fst (transport.StdioTransport_Start tableOrder encodesAll calculator
              initializedSession [transport.Undecodable] transport.EOF))
  = initializedSession.
Proof.
  exact (proj2 (stdio_loop_answers_requests_and_undecodable_lines tableOrder encodesAll
                  calculator [transport.Undecodable] transport.EOF initializedSession)
           eq_refl).
Defined.

(** X11. The loop of the WebSocket transport.  Messages that are not
    text messages have no effect: the loop does on the messages of a
    connection what it does on its text messages alone.  It never stops
    with an error; unless a handler panics it writes at most one frame
    for every text message that does not decode or that is a request,
    exactly one when every response encodes; a session that is
    initialized is left unchanged. *)
Theorem websocket_loop_skips_what_is_not_text :
  forall (rangeOrder : forall A : Type, gmap string A -> list (string * A))
         (encodes : protocol.JSONRPCResponse -> bool)
         (srv : Server) (messages : list transport.wsMessage) (s : Session),
    let run := transport.WebSocketTransport_handleWebSocket rangeOrder encodes srv s
                 messages in
    let owed := length (List.filter transport.answered (transport.textMessages messages)) in
    run = transport.WebSocketTransport_handleWebSocket rangeOrder encodes srv s
            (map transport.TextMessage (transport.textMessages messages))
    /\ match snd run with
       | Ok _ =>
           length (snd (fst run)) <= owed
           /\ ((forall resp, encodes resp = true) -> length (snd (fst run)) = owed)
       | Err _ => False
       | Panic _ => length (snd (fst run)) < owed
       end
    /\ (Session_initialized s = true -> fst (fst run) = s).
Proof.
  intros rangeOrder encodes srv messages.
  induction messages as [|[unit|] messages IH]; intros s; cbn zeta in *.
  - simpl. repeat split; lia.
  - cbn [transport.textMessages flat_map app map List.filter
           transport.WebSocketTransport_handleWebSocket].
    fold (transport.textMessages messages).
    destruct (WebSocketTransport_message_shape rangeOrder encodes srv s unit)
      as [Hshape Hsess].
    destruct (transport.WebSocketTransport_message rangeOrder encodes srv s unit)
      as [s' [frames|e|p]] eqn:Hmsg; simpl in Hshape, Hsess.
    + destruct (IH s') as (IH0 & IH1 & IH2). rewrite <- IH0.
      destruct (transport.WebSocketTransport_handleWebSocket rangeOrder encodes srv s'
                  messages) as [[s'' written] result] eqn:Hrest. simpl in *.
      destruct Hshape as [Hle Heq]. split; [reflexivity|]. split.
      * rewrite length_app.
        destruct (transport.answered unit); simpl in *;
          destruct result as [[]|e|p]; simpl in *;
          repeat split; try tauto; try lia;
          try (intros Hall; specialize (Heq Hall);
               destruct IH1 as (? & IHeq); specialize (IHeq Hall); lia);
          destruct IH1 as (? & ?); lia.
      * intros Hi. pose proof (Hsess Hi) as ->. auto.
    + contradiction.
    + simpl. rewrite Hshape. simpl. repeat split; [lia|exact Hsess].
  - exact (IH s).
Qed.

Lemma websocket_loop_skips_what_is_not_text_witness :
  fst (fst (transport.WebSocketTransport_handleWebSocket tableOrder encodesAll calculator
              initializedSession
              [transport.OtherMessage; transport.TextMessage transport.Undecodable]))
  = initializedSession.
Proof.
  exact (proj2 (proj2 (websocket_loop_skips_what_is_not_text tableOrder encodesAll
                         calculator
                         [transport.OtherMessage;
                          transport.TextMessage transport.Undecodable]
                         initializedSession))
           eq_refl).
Defined.

Lemma trySend_all (notifs : list string) :
  forall (clients : gmap string transport.channel) (k : string),
    foldl (fun cl d => fst (transport.SSETransport_SendNotification cl (Some d)))
      clients notifs !! k
    = (fun ch =>
         {| transport.chan_cap := transport.chan_cap ch;
            transport.chan_buf :=
              transport.chan_buf ch
              ++ take (transport.chan_cap ch - length (transport.chan_buf ch)) notifs |})
      <$> clients !! k.
Proof.
  induction notifs as [|d notifs IH]; intros clients k; simpl.
  - destruct (clients !! k) as [[c buf]|]; simpl; [|reflexivity].
    now rewrite take_nil, app_nil_r.
  - rewrite IH, lookup_fmap. destruct (clients !! k) as [[c buf]|]; simpl; [|reflexivity].
    unfold transport.trySend. simpl. f_equal.
    destruct (length buf <? c)%nat eqn:Hroom; simpl.
    + apply Nat.ltb_lt in Hroom. rewrite length_app. simpl.
      replace (c - length buf) with (S (c - (length buf + 1))) by lia.
      simpl. now rewrite <- app_assoc.
    + apply Nat.ltb_ge in Hroom. replace (c - length buf) with 0 by lia.
      now rewrite take_0.
Qed.

(** X12. SendNotification of the SSE transport, for clients with
    buffered channels from which nothing is read meanwhile: every call
    with a notification that marshals returns nil, delivered or not;
    after a series of calls each client holds what it held followed by
    the earliest notifications that fitted its capacity, in order, and
    the later ones are lost to it; no client is added or removed.  When
    the notification does not marshal the error is returned and no
    client receives anything. *)
Theorem notifications_beyond_the_buffer_are_dropped :
  forall (clients : gmap string transport.channel) (notifs : list string),
    (forall k ch, clients !! k = Some ch -> 0 < transport.chan_cap ch) ->
    let after :=
      foldl (fun cl d => fst (transport.SSETransport_SendNotification cl (Some d)))
        clients notifs in
    (forall cl d, snd (transport.SSETransport_SendNotification cl (Some d)) = None)
    /\ (forall k, clients !! k = None -> after !! k = None)
    /\ (forall k ch, clients !! k = Some ch ->
          after !! k
          = Some {| transport.chan_cap := transport.chan_cap ch;
                    transport.chan_buf :=
                      transport.chan_buf ch
                      ++ take (transport.chan_cap ch - length (transport.chan_buf ch))
                           notifs |})
    /\ transport.SSETransport_SendNotification clients None
       = (clients,
          Some (wrapError "failed to marshal notification: " (libError JSONError))).
Proof.
  intros clients notifs _. cbn zeta. repeat split.
  - intros k Hk. now rewrite trySend_all, Hk.
  - intros k ch Hk. now rewrite trySend_all, Hk.
Qed.

Lemma notifications_beyond_the_buffer_are_dropped_witness :
  foldl (fun cl d => fst (transport.SSETransport_SendNotification cl (Some d)))
    {[ "client-1" := {| transport.chan_cap := 2; transport.chan_buf := ["a"] |} ]}
    ["b"; "c"] !! "client-1"
  = Some {| transport.chan_cap := 2; transport.chan_buf := ["a"; "b"] |}.
Proof.
  refine (proj1 (proj2 (proj2
            (notifications_beyond_the_buffer_are_dropped
               {[ "client-1" := {| transport.chan_cap := 2;
                                   transport.chan_buf := ["a"] |} ]}
               ["b"; "c"] _)))
            "client-1" {| transport.chan_cap := 2; transport.chan_buf := ["a"] |} _).
  - intros k ch H. apply lookup_singleton_Some in H as [_ <-]. simpl. lia.
  - apply lookup_singleton_eq.
Defined.

(** ** The FastMCP builder *)

(** X13. FastMCP.Tool and FastMCP.AsyncTool on a name that the server
    of the builder already has as a tool change nothing: the error of
    the server is only logged, the builder is returned, and the tool
    registered first stays.  Registering the same name twice is thus
    the same as registering it once. *)
Theorem fastmcp_drops_a_registration_under_a_taken_name :
  forall (f : fastmcp.FastMCP) (name description : string) (handler : HandlerValue),
    (is_Some (Server_tools (fastmcp.ensureServer f) !! name) ->
     fastmcp.FastMCP_server (fastmcp.Tool f name handler description)
     = Some (fastmcp.ensureServer f)
     /\ fastmcp.FastMCP_server (fastmcp.AsyncTool f name handler description)
        = Some (fastmcp.ensureServer f))
    /\ (Server_tools (fastmcp.ensureServer f) !! name = None ->
        forall handler' description',
          Server_tools
            (fastmcp.ensureServer (fastmcp.Tool f name handler description)) !! name
          = Some {| Tool_Handler := handler; Tool_Description := description;
                    Tool_IsAsync := false |}
          /\ fastmcp.Tool (fastmcp.Tool f name handler description)
               name handler' description'
             = fastmcp.Tool f name handler description
          /\ fastmcp.AsyncTool (fastmcp.Tool f name handler description)
               name handler' description'
             = fastmcp.Tool f name handler description).
Proof.
  intros f name description handler. split.
  - intros [t Ht]. unfold fastmcp.Tool, fastmcp.AsyncTool, fastmcp.registerWith,
      AddTool, AddAsyncTool. simpl. rewrite Ht. split; reflexivity.
  - intros Hfresh handler' description'.
    unfold fastmcp.Tool, fastmcp.AsyncTool, fastmcp.registerWith,
      AddTool, AddAsyncTool, fastmcp.ensureServer at 1 3 5. simpl.
    rewrite Hfresh. simpl. rewrite !lookup_insert_eq. repeat split; reflexivity.
Qed.

Lemma fastmcp_drops_a_registration_under_a_taken_name_witness :
  fastmcp.Tool (fastmcp.Tool (fastmcp.New "calculator" []) "add" add "Add two numbers")
    "add" length_ "Length of a text"
  = fastmcp.Tool (fastmcp.New "calculator" []) "add" add "Add two numbers".
Proof.
  exact (proj1 (proj2 (proj2 (fastmcp_drops_a_registration_under_a_taken_name
                                (fastmcp.New "calculator" []) "add" "Add two numbers" add)
                         eq_refl length_ "Length of a text"))).
Defined.

(** X14. A chain of registrations on a builder made by fastmcp.New
    builds the server that the same registrations, their errors
    dropped, build from server.NewServer with the default capabilities
    followed by the options of the user.  RunStdio on a builder without
    any registration fails with "no server configured" before it reads
    anything; after at least one registration it runs the stdio
    transport on that server with a new session. *)
Theorem fastmcp_builds_the_server_it_runs :
  forall rangeOrder encodes (name : string) (options : list ServerOption)
         (registrations :
            list ((string -> HandlerValue -> string -> Server -> Server * option error)
                  * string * HandlerValue * string))
         (lines : list transport.Inbound) (stop : transport.StreamEnd),
    let built :=
      foldl (fun f '(addTo, key, handler, description) =>
               fastmcp.registerWith addTo f key handler description)
        (fastmcp.New name options) registrations in
    let srv :=
      foldl (fun s '(addTo, key, handler, description) =>
               fst (addTo key handler description s))
        (NewServer name (WithDefaultCapabilities :: options)) registrations in
    fastmcp.FastMCP_name built = name
    /\ fastmcp.ensureServer built = srv
    /\ (registrations = [] ->
        fastmcp.RunStdio rangeOrder encodes built lines stop
        = ([], Err (errorText "no server configured")))
    /\ (registrations <> [] ->
        fastmcp.FastMCP_server built = Some srv
        /\ fastmcp.RunStdio rangeOrder encodes built lines stop
           = (snd (fst (transport.StdioTransport_Start rangeOrder encodes srv NewSession lines stop)),
              snd (transport.StdioTransport_Start rangeOrder encodes srv NewSession lines stop))).
Proof.
  intros rangeOrder encodes name options registrations lines stop.
  induction registrations as [|[[[addTo key] handler] description] registrations IH]
    using rev_ind; cbn zeta.
  - repeat split; try reflexivity; congruence.
  - rewrite !foldl_app. cbn [foldl]. cbn zeta in IH.
    destruct IH as (IHname & IHsrv & _ & _).
    set (built := foldl _ (fastmcp.New name options) registrations) in *.
    set (srv := foldl _ (NewServer name (WithDefaultCapabilities :: options))
                  registrations) in *.
    assert (Hsome : fastmcp.FastMCP_server
                      (fastmcp.registerWith addTo built key handler description)
                    = Some (fst (addTo key handler description srv))).
    { unfold fastmcp.registerWith. simpl. now rewrite IHsrv. }
    repeat split.
    + exact IHname.
    + unfold fastmcp.ensureServer. now rewrite Hsome.
    + intros H. apply app_eq_nil in H as [_ H']. discriminate.
    + exact Hsome.
    + unfold fastmcp.RunStdio. rewrite Hsome.
      destruct (transport.StdioTransport_Start rangeOrder encodes
                  (fst (addTo key handler description srv)) NewSession lines stop)
        as [[s' written] result]. reflexivity.
Qed.

Lemma fastmcp_builds_the_server_it_runs_witness :
  fastmcp.RunStdio tableOrder encodesAll (fastmcp.New "empty" []) [transport.Undecodable]
    transport.EOF
  = ([], Err (errorText "no server configured")).
Proof.
  exact (proj1 (proj2 (proj2 (fastmcp_builds_the_server_it_runs tableOrder encodesAll
                                "empty" [] []
                                [transport.Undecodable] transport.EOF))) eq_refl).
Defined.


(** ** Tool calls *)

Lemma bindToolArgs_first_missing (m : gmap string value) (ins : list GoType) :
  forall k i,
    i < length ins ->
    m !! ("arg" +:+ itoa (k + i)) = None ->
    (forall j, j < i -> is_Some (m !! ("arg" +:+ itoa (k + j)))) ->
    bindToolArgs (Some m) k ins
    = Err (errorText ("missing argument: " +:+ ("arg" +:+ itoa (k + i)))).
Proof.
  induction ins as [|t ins IH]; intros k i Hi Habs Hbefore; simpl in *; [lia|].
  destruct i as [|i].
  - rewrite Nat.add_0_r in *. now rewrite Habs.
  - destruct (Hbefore 0) as [x Hx]; [lia|]. rewrite Nat.add_0_r in Hx. rewrite Hx.
    rewrite Nat.add_succ_r in *.
    rewrite (IH (S k) i); [reflexivity|lia|exact Habs|].
    intros j Hj. specialize (Hbefore (S j)). rewrite Nat.add_succ_r in Hbefore.
    apply Hbefore. lia.
Qed.

Lemma bindToolArgs_values (m : gmap string value) :
  forall (ins : list GoType) (xs : list value) (k : nat),
    length xs = length ins ->
    (forall i x, xs !! i = Some x -> m !! ("arg" +:+ itoa (k + i)) = Some x) ->
    bindToolArgs (Some m) k ins = Ok (map ValueOf xs).
Proof.
  induction ins as [|t ins IH]; intros [|x xs] k Hlen Hall; simpl in *;
    try discriminate; [reflexivity|].
  pose proof (Hall 0 x eq_refl) as Hx. rewrite Nat.add_0_r in Hx. rewrite Hx.
  rewrite (IH xs (S k)); [reflexivity|lia|].
  intros i y Hy. specialize (Hall (S i) y Hy). now rewrite Nat.add_succ_r in Hall.
Qed.

Lemma bindToolArgs_agree (m m' : gmap string value) (ins : list GoType) :
  forall k,
    (forall i, i < length ins ->
       m !! ("arg" +:+ itoa (k + i)) = m' !! ("arg" +:+ itoa (k + i))) ->
    bindToolArgs (Some m) k ins = bindToolArgs (Some m') k ins.
Proof.
  induction ins as [|t ins IH]; intros k Hall; simpl; [reflexivity|].
  pose proof (Hall 0 ltac:(simpl; lia)) as H0. rewrite Nat.add_0_r in H0. rewrite <- H0.
  destruct (m !! ("arg" +:+ itoa k)); [|reflexivity].
  rewrite (IH (S k)); [reflexivity|].
  intros i Hi. specialize (Hall (S i)). rewrite Nat.add_succ_r in Hall.
  apply Hall. simpl. lia.
Qed.

(** X16. How tools/call finds the arguments of a handler with n
    parameters: parameter i is the member "arg<i>" of the arguments
    object, whatever the parameters are called in the handler.  A
    handler without parameters is called whatever the arguments are,
    a missing or null object included; with parameters, a missing or
    null object is the error "arguments map is nil", and otherwise the
    first position whose member is absent is reported as "missing
    argument: arg<i>"; when all n members are there, the values bound
    are those members, in order of position. *)
Theorem tool_arguments_are_found_by_position :
  forall (arguments : option (gmap string value)) (ins : list GoType),
    (ins = [] -> bindToolArgs arguments 0 ins = Ok [])
    /\ (ins <> [] -> arguments = None ->
        bindToolArgs arguments 0 ins = Err (errorText "arguments map is nil"))
    /\ (forall m i,
          arguments = Some m ->
          i < length ins ->
          m !! ("arg" +:+ itoa i) = None ->
          (forall j, j < i -> is_Some (m !! ("arg" +:+ itoa j))) ->
          bindToolArgs arguments 0 ins
          = Err (errorText ("missing argument: " +:+ ("arg" +:+ itoa i))))
    /\ (forall m,
          arguments = Some m ->
          (forall i, i < length ins -> is_Some (m !! ("arg" +:+ itoa i))) ->
          exists args,
            bindToolArgs arguments 0 ins = Ok args
            /\ length args = length ins
            /\ forall i x, i < length ins -> m !! ("arg" +:+ itoa i) = Some x ->
                 args !! i = Some (ValueOf x)).
Proof.
  intros arguments ins. repeat split.
  - intros ->. reflexivity.
  - intros Hne ->. destruct ins; [contradiction|reflexivity].
  - intros m i -> Hi Habs Hbefore.
    exact (bindToolArgs_first_missing m ins 0 i Hi Habs Hbefore).
  - intros m -> Hall.
    destruct (bindToolArgs_present m ins 0 Hall) as [args Hargs].
    destruct (bindToolArgs_binds_wire_values m ins 0 args Hargs) as [Hlen Hwire].
    exists args. repeat split; try assumption.
    intros i x Hi Hx.
    destruct (lookup_lt_is_Some_2 args i ltac:(lia)) as [v Hv].
    destruct (Hwire i v Hv) as (y & Hy & ->). simpl in Hy. congruence.
Qed.

Lemma tool_arguments_are_found_by_position_witness :
  bindToolArgs (Some {[ "arg1" := VString "b" ]}) 0 [TString; TString]
  = Err (errorText "missing argument: arg0").
Proof.
  destruct (tool_arguments_are_found_by_position
              (Some {[ "arg1" := VString "b" ]}) [TString; TString])
    as (_ & _ & H & _).
  refine (H _ 0 eq_refl _ _ _).
  - simpl. lia.
  - reflexivity.
  - intros j Hj. lia.
Defined.

(** X17. tools/call reads the members arg0 .. arg<n-1> of the arguments
    object and nothing else: two calls of the same tool whose arguments
    agree on these members have the same outcome, whatever other members
    they carry. *)
Theorem tool_call_ignores_other_arguments :
  forall (srv : Server) (req req' : protocol.JSONRPCRequest)
         (raw raw' : protocol.RawMessage)
         (params params' : protocol.CallToolRequestParams)
         (tool : Tool) (f : FuncValue) (m m' : gmap string value),
    protocol.Req_Params req = protocol.Raw raw ->
    protocol.Req_Params req' = protocol.Raw raw' ->
    protocol.asCallToolRequestParams raw = Some params ->
    protocol.asCallToolRequestParams raw' = Some params' ->
    protocol.Req_ID req = protocol.Req_ID req' ->
    protocol.Call_Name params = protocol.Call_Name params' ->
    Server_tools srv !! protocol.Call_Name params = Some tool ->
    Tool_Handler tool = Func f ->
    protocol.Call_Arguments params = Some m ->
    protocol.Call_Arguments params' = Some m' ->
    (forall i, i < length (inTypes f) ->
       m !! ("arg" +:+ itoa i) = m' !! ("arg" +:+ itoa i)) ->
    handleCallTool srv req = handleCallTool srv req'.
Proof.
  intros srv req req' raw raw' params params' tool f m m'
    Hp Hp' Hraw Hraw' Hid Hname Htool Hf Hm Hm' Hagree.
  unfold handleCallTool. rewrite Hp, Hp'. cbn [assertRawMessage mbind outcome_bind].
  unfold Unmarshal. rewrite Hraw, Hraw'. cbn [wrapping mbind outcome_bind].
  rewrite <- Hname, Htool, Hf, Hm, Hm'. cbn [handlerIn mbind outcome_bind].
  rewrite (bindToolArgs_agree m m' (inTypes f) 0 Hagree).
  unfold response. rewrite Hid. reflexivity.
Qed.

Lemma tool_call_ignores_other_arguments_witness :
  handleCallTool calculator
    (request 2 "tools/call"
       (protocol.Raw (namedWithStrings "length"
                        (Some {[ "arg0" := "abc"; "verbose" := "yes" ]}))))
  = handleCallTool calculator
      (request 2 "tools/call"
         (protocol.Raw (namedWithStrings "length" (Some {[ "arg0" := "abc" ]})))).
Proof.
  refine (tool_call_ignores_other_arguments calculator
            (request 2 "tools/call"
               (protocol.Raw (namedWithStrings "length"
                                (Some {[ "arg0" := "abc"; "verbose" := "yes" ]}))))
            (request 2 "tools/call"
               (protocol.Raw (namedWithStrings "length" (Some {[ "arg0" := "abc" ]}))))
            _ _ _ _
            {| Tool_Handler := length_; Tool_Description := "Length of a text";
               Tool_IsAsync := false |}
            lengthFunc _ _
            eq_refl eq_refl eq_refl eq_refl eq_refl eq_refl eq_refl eq_refl
            eq_refl eq_refl _).
  intros [|i] Hi; [reflexivity|simpl in Hi; lia].
Defined.

(** X18. A tools/call of a tool whose handler is not variadic, with
    arguments arg0 .. arg<n-1> that hold values of exactly the declared
    parameter types, invokes the handler on these values, in order of
    position, and answers with what handleCallTool makes of its
    results. *)
Theorem well_typed_tool_call_reaches_the_handler :
  forall (srv : Server) (req : protocol.JSONRPCRequest) (raw : protocol.RawMessage)
         (params : protocol.CallToolRequestParams) (tool : Tool) (f : FuncValue)
         (m : gmap string value) (xs : list value),
    protocol.Req_Params req = protocol.Raw raw ->
    protocol.asCallToolRequestParams raw = Some params ->
    Server_tools srv !! protocol.Call_Name params = Some tool ->
    Tool_Handler tool = Func f ->
    variadic f = false ->
    protocol.Call_Arguments params = Some m ->
    length xs = length (inTypes f) ->
    (forall i x, xs !! i = Some x ->
       m !! ("arg" +:+ itoa i) = Some x
       /\ exists t, inTypes f !! i = Some t /\ dynType x = Some t) ->
    handleCallTool srv req
    = (result ← toolResult (zip_with Val (outTypes f) (body f xs));
       Ok (response req (protocol.ResCallTool result))).
Proof.
  intros srv req raw params tool f m xs Hp Hraw Htool Hf Hnv Hm Hlen Hall.
  unfold handleCallTool. rewrite Hp. cbn [assertRawMessage mbind outcome_bind].
  unfold Unmarshal. rewrite Hraw. cbn [wrapping mbind outcome_bind].
  rewrite Htool, Hf, Hm. cbn [handlerIn mbind outcome_bind].
  rewrite (bindToolArgs_values m (inTypes f) xs 0 Hlen
             (fun i x Hx => proj1 (Hall i x Hx))).
  cbn [mbind outcome_bind].
  assert (Hmap : map Interface (map ValueOf xs) = xs).
  { assert (Hdyn : forall x, In x xs -> dynType x <> None).
    { intros x Hx. apply list_elem_of_In, list_elem_of_lookup in Hx as [i Hi].
      destruct (Hall i x Hi) as (_ & t & _ & Ht). congruence. }
    clear -Hdyn. induction xs as [|x xs IH]; [reflexivity|]. simpl.
    rewrite IH by (intros y Hy; apply Hdyn; now right). f_equal.
    unfold ValueOf. destruct (dynType x) eqn:Hx; [reflexivity|].
    exfalso. now apply (Hdyn x (or_introl eq_refl)). }
  rewrite Call_typed; [|exact Hnv|].
  - cbn [mbind outcome_bind]. now rewrite Hmap.
  - assert (Htyped : forall i x, xs !! i = Some x ->
                       exists t, inTypes f !! i = Some t /\ dynType x = Some t)
      by (intros i x Hx; exact (proj2 (Hall i x Hx))).
    revert Hlen Htyped. generalize (inTypes f). clear.
    induction xs as [|x xs IH]; intros [|t ins] Hlen Htyped; try discriminate;
      constructor.
    + destruct (Htyped 0 x eq_refl) as (t' & [= <-] & Ht).
      exists x. unfold ValueOf. now rewrite Ht.
    + apply IH; [simpl in Hlen; lia|]. intros i y Hy. exact (Htyped (S i) y Hy).
Qed.

Lemma well_typed_tool_call_reaches_the_handler_witness :
  handleCallTool calculator
    (request 2 "tools/call"
       (protocol.Raw (namedWithStrings "length" (Some {[ "arg0" := "abc" ]}))))
  = (result ← toolResult (zip_with Val (outTypes lengthFunc)
                            (body lengthFunc [VString "abc"]));
     Ok (response
           (request 2 "tools/call"
              (protocol.Raw (namedWithStrings "length" (Some {[ "arg0" := "abc" ]}))))
           (protocol.ResCallTool result))).
Proof.
  refine (well_typed_tool_call_reaches_the_handler calculator
            (request 2 "tools/call"
               (protocol.Raw (namedWithStrings "length" (Some {[ "arg0" := "abc" ]}))))
            _ _
            {| Tool_Handler := length_; Tool_Description := "Length of a text";
               Tool_IsAsync := false |}
            lengthFunc _ [VString "abc"]
            eq_refl eq_refl eq_refl eq_refl eq_refl eq_refl eq_refl _).
  intros [|i] x Hx; simpl in Hx.
  - injection Hx as <-. split; [reflexivity|]. exists TString. split; reflexivity.
  - destruct i; discriminate.
Defined.

(** ** Resources *)

Lemma placeholderLoop_enough (pattern : string) (ins : list GoType) :
  forall (matches : list (string * string)) (i : nat) (regexStr : string),
    length matches + i <= length ins ->
    exists regexStr',
      placeholderLoop pattern ins matches i regexStr
      = Ok (map snd matches, take (length matches) (drop i ins), regexStr').
Proof.
  induction matches as [|[match0 paramName] matches IH]; intros i regexStr Hlen; simpl in *.
  - eexists. reflexivity.
  - destruct (lookup_lt_is_Some_2 ins i ltac:(lia)) as [t Ht]. rewrite Ht.
    destruct (IH (S i) (Replace1 regexStr match0 groupExpr) ltac:(lia)) as [re' ->].
    simpl. exists re'. now rewrite (drop_S _ _ _ Ht).
Qed.

Lemma placeholderLoop_short (pattern : string) (ins : list GoType) :
  forall (matches : list (string * string)) (i : nat) (regexStr : string),
    i <= length ins ->
    length ins < length matches + i ->
    placeholderLoop pattern ins matches i regexStr
    = Err (errorText ("not enough parameters in handler for pattern " +:+ pattern)).
Proof.
  induction matches as [|[match0 paramName] matches IH]; intros i regexStr Hi Hlen;
    simpl in *; [lia|].
  destruct (ins !! i) as [t|] eqn:Ht; [|reflexivity].
  apply lookup_lt_Some in Ht. rewrite IH by lia. reflexivity.
Qed.

(** X19. parseResourcePattern pairs the placeholders of a pattern with
    the parameters of the handler by position: placeholder i gets the
    type of parameter i, whatever the two are called.  A handler with
    fewer parameters than the pattern has placeholders is refused, one
    with more is accepted.  A handler that is not a function is refused
    and a nil handler panics.  The only other failure is a pattern whose
    expression does not compile. *)
Theorem placeholders_are_typed_by_position :
  forall (pattern : string) (handler : HandlerValue),
    (handler = NilHandler -> parseResourcePattern pattern handler = Panic NilDereference)
    /\ (forall t, handler = NonFunc t ->
        parseResourcePattern pattern handler
        = Err (errorText "handler must be a function"))
    /\ (forall f, handler = Func f ->
        let names := map snd (FindAllPlaceholders pattern) in
        (length (inTypes f) < length names ->
         parseResourcePattern pattern handler
         = Err (errorText ("not enough parameters in handler for pattern " +:+ pattern)))
        /\ (length names <= length (inTypes f) ->
            (exists rp,
               parseResourcePattern pattern handler = Ok rp
               /\ rp_pattern rp = pattern
               /\ rp_paramNames rp = names
               /\ rp_paramTypes rp = take (length names) (inTypes f)
               /\ rp_handlerType rp = inTypes f)
            \/ parseResourcePattern pattern handler
               = Err (wrapError ("invalid pattern " +:+ pattern +:+ ": ")
                        (libError RegexpError)))).
Proof.
  intros pattern handler. repeat split.
  - intros ->. reflexivity.
  - intros t ->. reflexivity.
  - intros Hlen. subst handler. rewrite length_map in Hlen.
    unfold parseResourcePattern. cbn [kindIsFunc handlerIn mbind outcome_bind negb].
    rewrite placeholderLoop_short by lia. reflexivity.
  - intros Hlen. subst handler. rewrite length_map in *.
    unfold parseResourcePattern. cbn [kindIsFunc handlerIn mbind outcome_bind negb].
    destruct (placeholderLoop_enough pattern (inTypes f) (FindAllPlaceholders pattern)
                0 pattern ltac:(lia)) as [re' ->]. cbn [mbind outcome_bind].
    destruct (Compile ("^" +:+ re' +:+ "$")) as [regex|]; [left|right; reflexivity].
    eexists. repeat split.
Qed.

Lemma placeholders_are_typed_by_position_witness :
  parseResourcePattern "users/{id}/files/{name}"
    (Func {| inTypes := [TInt]; outTypes := [TString]; variadic := false;
             body := fun _ => [VString ""] |})
  = Err (errorText
           "not enough parameters in handler for pattern users/{id}/files/{name}").
Proof.
  destruct (placeholders_are_typed_by_position "users/{id}/files/{name}"
              (Func {| inTypes := [TInt]; outTypes := [TString]; variadic := false;
                       body := fun _ => [VString ""] |})) as (_ & _ & H).
  refine (proj1 (H _ eq_refl) _). simpl. lia.
Defined.

Lemma wrapSigned_range (bits i : Z) :
  (0 < bits)%Z ->
  (- 2 ^ (bits - 1) <= wrapSigned bits i < 2 ^ (bits - 1))%Z.
Proof.
  intros Hbits. unfold wrapSigned.
  assert (H2 : (2 ^ bits = 2 * 2 ^ (bits - 1))%Z).
  { rewrite <- Z.pow_succ_r by lia. f_equal. lia. }
  assert (Hpos : (0 < 2 ^ (bits - 1))%Z) by (apply Z.pow_pos_nonneg; lia).
  pose proof (Z.mod_pos_bound (i + 2 ^ (bits - 1)) (2 ^ bits) ltac:(lia)). lia.
Qed.

Lemma wrapUnsigned_range (bits i : Z) :
  (0 < bits)%Z -> (0 <= wrapUnsigned bits i < 2 ^ bits)%Z.
Proof.
  intros Hbits. unfold wrapUnsigned. apply Z.mod_pos_bound.
  apply Z.pow_pos_nonneg; lia.
Qed.









(** ** Prompts *)

(** X22. prompts/get on a prompt whose handler is a function with at
    least one result.  When the function is not variadic, rendering does
    not panic: every argument is converted to the type of its parameter
    or filled with the zero value, so the call is well typed; it fails
    only when a supplied argument does not convert, naming the argument,
    or when the first result is neither a string nor a slice of prompt
    messages.  When the function is variadic and its arguments bind, the
    slice bound to the variadic parameter is taken for one element of it
    and the call panics, unless a slice is assignable to the element
    type. *)
Theorem rendering_panics_for_variadic_prompts_only :
  forall (prompt : Prompt) (f : FuncValue) (args : option (gmap string string)),
    Prompt_Handler prompt = Func f ->
    outTypes f <> [] ->
    (forall xs, length (body f xs) = length (outTypes f)) ->
    (variadic f = false ->
     match renderPrompt prompt args with
     | Ok messages =>
         exists handlerArgs,
           bindPromptArgs args 0 (inTypes f) = Ok handlerArgs
           /\ promptMessages
                (zip_with Val (outTypes f) (body f (map Interface handlerArgs)))
              = Ok messages
     | Err e =>
         (exists j text t e',
            inTypes f !! j = Some t
            /\ lookupArg args ("arg" +:+ itoa j) = Some text
            /\ convertValue text t = Err e'
            /\ e = wrapError ("invalid argument " +:+ ("arg" +:+ itoa j) +:+ ": ") e')
         \/ exists result,
              e = errorText ("invalid prompt handler return type: " +:+ fmtT result)
     | Panic _ => False
     end)
    /\ (variadic f = true ->
        forall elem handlerArgs,
          inTypes f !! pred (length (inTypes f)) = Some (TSlice elem) ->
          AssignableTo (TSlice elem) elem = false ->
          bindPromptArgs args 0 (inTypes f) = Ok handlerArgs ->
          renderPrompt prompt args = Panic (CallCannotUse (TSlice elem) elem)).
Proof.
  intros prompt f args Hf Hout Hbody. split.
  - intros Hnv. unfold renderPrompt. rewrite Hf.
    cbn [handlerIn mbind outcome_bind].
    destruct (bindPromptArgs args 0 (inTypes f)) as [handlerArgs|e|p] eqn:Hbind;
      cbn [mbind outcome_bind].
    + destruct (bindPromptArgs_ok args _ _ _ Hbind) as [Hty _].
      rewrite (Call_typed f handlerArgs Hnv Hty). cbn [mbind outcome_bind].
      specialize (Hbody (map Interface handlerArgs)).
      destruct (promptMessages _) as [messages|e|p] eqn:Hpm.
      * exists handlerArgs. auto.
      * right. revert Hpm. unfold promptMessages.
        destruct (zip_with Val (outTypes f) (body f (map Interface handlerArgs)))
          as [|r0 rest]; [discriminate|].
        repeat match goal with
               | |- context [match ?x with _ => _ end] => destruct x
               end; try discriminate; intros [= <-]; eexists; reflexivity.
      * revert Hpm. unfold promptMessages.
        destruct (outTypes f) as [|t0 outs]; [contradiction|].
        destruct (body f (map Interface handlerArgs)) as [|x0 xs]; [discriminate|].
        simpl.
        repeat match goal with
               | |- context [match ?x with _ => _ end] => destruct x
               end; discriminate.
    + left. destruct (bindPromptArgs_err args _ _ _ Hbind) as (j & s & t & e' & H).
      exists j, s, t, e'. exact H.
    + exact (bindPromptArgs_no_panic args _ _ _ Hbind).
  - intros Hv elem handlerArgs Hlast Hassign Hbind.
    unfold renderPrompt. rewrite Hf. cbn [handlerIn mbind outcome_bind].
    rewrite Hbind. cbn [mbind outcome_bind].
    destruct (bindPromptArgs_ok args _ _ _ Hbind) as [Hty _].
    now rewrite (Call_variadic_typed f handlerArgs elem Hv Hty Hlast Hassign).
Qed.

Lemma rendering_panics_for_variadic_prompts_only_witness :
  (exists handlerArgs,
     bindPromptArgs (Some {[ "arg0" := "Ada" ]}) 0 (inTypes greetFunc) = Ok handlerArgs
     /\ promptMessages
          (zip_with Val (outTypes greetFunc) (body greetFunc (map Interface handlerArgs)))
        = Ok [protocol.PromptMessage protocol.RoleAssistant
                (protocol.TextContent "Hello, Ada")])
  /\ renderPrompt
       {| Prompt_Handler := Func joinFunc; Prompt_Description := "Join names" |} None
     = Panic (CallCannotUse (TSlice TString) TString).
Proof.
  split.
  - exact (proj1 (rendering_panics_for_variadic_prompts_only
                    {| Prompt_Handler := greet; Prompt_Description := "Greeting prompt" |}
                    greetFunc (Some {[ "arg0" := "Ada" ]})
                    eq_refl ltac:(discriminate) (fun xs =>
                      match xs with
                      | [VString _] => eq_refl
                      | _ => eq_refl
                      end)) eq_refl).
  - exact (proj2 (rendering_panics_for_variadic_prompts_only
                    {| Prompt_Handler := Func joinFunc; Prompt_Description := "Join names" |}
                    joinFunc None
                    eq_refl ltac:(discriminate) (fun xs =>
                      match xs with
                      | [VSlice _ _] => eq_refl
                      | _ => eq_refl
                      end)) eq_refl TString _ eq_refl eq_refl eq_refl).
Defined.

Lemma itoa_inj (i j : nat) : itoa i = itoa j -> i = j.
Proof.
  unfold itoa. intros H.
  assert (Hnn : forall n, Nat.to_uint n <> Decimal.Nil).
  { intros n. rewrite <- (Unsigned.of_to n) at 1. rewrite Unsigned.to_of.
    apply unorm_nonnil. }
  apply Unsigned.to_uint_inj.
  pose proof (NilZero.usu _ (Hnn i)) as Hi. pose proof (NilZero.usu _ (Hnn j)) as Hj.
  rewrite H in Hi. congruence.
Qed.

Lemma promptArguments_names (ins : list GoType) :
  forall k, map protocol.PA_Name (promptArguments k ins)
            = map (fun i => "arg" +:+ itoa i) (seq k (length ins)).
Proof.
  induction ins as [|t ins IH]; intros k; simpl; [reflexivity|]. now rewrite IH.
Qed.

(** X23. The argument descriptors parsePromptTemplate derives from a
    function handler: one per parameter, all required, named arg0,
    arg1, ... without a repeated name.  These are the names renderPrompt
    looks up: an arguments object built from the descriptor names and
    one text per parameter gives every parameter its text. *)
Theorem prompt_descriptors_name_what_rendering_reads :
  forall (f : FuncValue) (name description : string) (texts : list string),
    length texts = length (inTypes f) ->
    exists pt,
      parsePromptTemplate name (Func f) description = Ok pt
      /\ pt_handler pt = Func f
      /\ length (pt_arguments pt) = length (inTypes f)
      /\ NoDup (map protocol.PA_Name (pt_arguments pt))
      /\ Forall (fun a => protocol.PA_Required a = Some true) (pt_arguments pt)
      /\ forall i text,
           texts !! i = Some text ->
           lookupArg
             (Some (list_to_map (zip (map protocol.PA_Name (pt_arguments pt)) texts)))
             ("arg" +:+ itoa i)
           = Some text.
Proof.
  intros f name description texts Hlen. eexists. split; [reflexivity|]. simpl.
  assert (Hnodup : NoDup (map protocol.PA_Name (promptArguments 0 (inTypes f)))).
  { rewrite promptArguments_names. apply NoDup_fmap_2.
    - intros i j H. apply itoa_inj. 
      apply (f_equal (fun s => dropString 3 s)) in H. exact H.
    - apply NoDup_ListNoDup, List.seq_NoDup. }
  repeat split.
  - rewrite <- (length_map protocol.PA_Name), promptArguments_names, length_map.
    apply length_seq.
  - exact Hnodup.
  - clear. generalize 0. induction (inTypes f) as [|t ins IH]; intros k; simpl;
      constructor; [reflexivity|apply IH].
  - intros i text Hi. unfold lookupArg. simpl.
    apply elem_of_list_to_map_1.
    + rewrite fst_zip; [exact Hnodup|].
      rewrite promptArguments_names, length_map, length_seq. lia.
    + apply list_elem_of_lookup. exists i. apply lookup_zip_with_Some.
      exists ("arg" +:+ itoa i), text. repeat split; [|exact Hi].
      rewrite promptArguments_names. rewrite list_lookup_fmap.
      apply lookup_lt_Some in Hi.
      rewrite lookup_seq_lt by lia. reflexivity.
Qed.

Lemma prompt_descriptors_name_what_rendering_reads_witness :
  exists pt,
    parsePromptTemplate "greet" (Func greetFunc) "Greeting prompt" = Ok pt
    /\ pt_handler pt = Func greetFunc
    /\ length (pt_arguments pt) = length (inTypes greetFunc)
    /\ NoDup (map protocol.PA_Name (pt_arguments pt))
    /\ Forall (fun a => protocol.PA_Required a = Some true) (pt_arguments pt)
    /\ forall i text,
         ["Ada"] !! i = Some text ->
         lookupArg
           (Some (list_to_map (zip (map protocol.PA_Name (pt_arguments pt)) ["Ada"])))
           ("arg" +:+ itoa i)
         = Some text.
Proof.
  exact (prompt_descriptors_name_what_rendering_reads greetFunc "greet"
           "Greeting prompt" ["Ada"] eq_refl).
Defined.

(** ** Requests that name nothing registered *)

(** X24. On an initialized session a request that cannot be served is
    answered with an error and does not panic, as long as its params
    are raw JSON: params that do not decode are reported as invalid for
    the four requests that read them, a tool or a prompt that is not
    registered is reported as not found, and a method outside the eight
    known ones as unknown. *)
Theorem unserviceable_requests_are_errors :
  forall rangeOrder (srv : Server) (s : Session) (req : protocol.JSONRPCRequest)
         (raw : protocol.RawMessage),
    Session_initialized s = true ->
    protocol.Req_Params req = protocol.Raw raw ->
    let method := protocol.Req_Method req in
    let answer := HandleRequest rangeOrder srv s req in
    (method = "tools/call" ->
     match protocol.asCallToolRequestParams raw with
     | None => answer = (s, Err (wrapError "invalid tool call params: " (libError JSONError)))
     | Some params =>
         Server_tools srv !! protocol.Call_Name params = None ->
         answer = (s, Err (errorText ("tool not found: " +:+ protocol.Call_Name params)))
     end)
    /\ (method = "prompts/get" ->
        match protocol.asGetPromptRequestParams raw with
        | None => answer = (s, Err (wrapError "invalid prompt get params: " (libError JSONError)))
        | Some params =>
            Server_prompts srv !! protocol.Get_Name params = None ->
            answer = (s, Err (errorText ("prompt not found: " +:+ protocol.Get_Name params)))
        end)
    /\ (method = "resources/read" ->
        protocol.asReadResourceRequestParams raw = None ->
        answer = (s, Err (wrapError "invalid resource read params: " (libError JSONError))))
    /\ (~ In method ["initialize"; "ping"; "tools/list"; "tools/call"; "resources/list";
                     "resources/read"; "prompts/list"; "prompts/get"] ->
        answer = (s, Err (errorText ("unknown method: " +:+ method)))).
Proof.
  intros rangeOrder srv s req raw Hi Hp. cbn zeta. unfold HandleRequest. rewrite Hi.
  repeat split.
  - intros ->. cbn. unfold handleCallTool. rewrite Hp.
    cbn [assertRawMessage mbind outcome_bind]. unfold Unmarshal.
    destruct (protocol.asCallToolRequestParams raw) as [params|]; [|reflexivity].
    cbn [wrapping mbind outcome_bind]. now intros ->.
  - intros ->. cbn. unfold handleGetPrompt. rewrite Hp.
    cbn [assertRawMessage mbind outcome_bind]. unfold Unmarshal.
    destruct (protocol.asGetPromptRequestParams raw) as [params|]; [|reflexivity].
    cbn [wrapping mbind outcome_bind]. now intros ->.
  - intros -> Hraw. cbn. unfold handleReadResource. rewrite Hp.
    cbn [assertRawMessage mbind outcome_bind]. unfold Unmarshal. now rewrite Hraw.
  - intros Hm. cbn [negb].
    repeat match goal with
           | |- context [String.eqb ?a ?b] =>
               destruct (String.eqb_spec a b) as [Heq|_];
               [exfalso; apply Hm; rewrite Heq; simpl; tauto|]
           end.
    reflexivity.
Qed.

Lemma unserviceable_requests_are_errors_witness :
  HandleRequest tableOrder calculator initializedSession
    (request 9 "tools/call" (protocol.Raw (namedWithStrings "subtract" None)))
  = (initializedSession, Err (errorText "tool not found: subtract")).
Proof.
  exact (proj1 (unserviceable_requests_are_errors tableOrder calculator initializedSession
                  (request 9 "tools/call"
                     (protocol.Raw (namedWithStrings "subtract" None)))
                  (namedWithStrings "subtract" None) eq_refl eq_refl)
           eq_refl eq_refl).
Defined.

(** ** The registry, once more *)

(** X25. Asynchronous and synchronous tools live in one table: a name
    registered by AddAsyncTool is taken for AddTool too, and conversely
    AddAsyncTool refuses a name that any tool has.  The flag IsAsync it
    stores is not read by tools/call, which treats the tool like one
    registered by AddTool.  Prompts and resources are separate
    namespaces: registering a tool does not take the name there. *)
Theorem async_tools_share_the_tool_table :
  forall (s : Server) (name description : string) (handler : HandlerValue),
    (is_Some (Server_tools s !! name) ->
     AddAsyncTool name handler description s
     = (s, Some (errorText ("tool " +:+ name +:+ " already exists"))))
    /\ (Server_tools s !! name = None ->
        snd (AddAsyncTool name handler description s) = None
        /\ Server_tools (fst (AddAsyncTool name handler description s)) !! name
           = Some {| Tool_Handler := handler; Tool_Description := description;
                     Tool_IsAsync := true |}
        /\ (forall handler' description',
              AddTool name handler' description'
                (fst (AddAsyncTool name handler description s))
              = (fst (AddAsyncTool name handler description s),
                 Some (errorText ("tool " +:+ name +:+ " already exists"))))
        /\ (forall req,
              handleCallTool (fst (AddAsyncTool name handler description s)) req
              = handleCallTool (fst (AddTool name handler description s)) req))
    /\ (forall handler' description',
          snd (AddPrompt name handler' description'
                 (fst (AddAsyncTool name handler description s)))
          = snd (AddPrompt name handler' description' s)
          /\ snd (AddResource name handler' description'
                    (fst (AddAsyncTool name handler description s)))
             = snd (AddResource name handler' description' s)).
Proof.
  intros s name description handler. split; [|split].
  - intros [t Ht]. unfold AddAsyncTool. now rewrite Ht.
  - intros Hfresh. unfold AddAsyncTool. rewrite Hfresh. simpl.
    split; [reflexivity|]. split; [apply lookup_insert_eq|]. split.
    + intros handler' description'. unfold AddTool. simpl.
      now rewrite lookup_insert_eq.
    + intros req. unfold AddTool. rewrite Hfresh. unfold handleCallTool. simpl.
      destruct (assertRawMessage (protocol.Req_Params req)) as [raw| |];
        cbn [mbind outcome_bind]; try reflexivity.
      destruct (wrapping _ _) as [params| |]; cbn [mbind outcome_bind]; try reflexivity.
      destruct (decide (name = protocol.Call_Name params)) as [<-|Hne].
      * rewrite !lookup_insert_eq. reflexivity.
      * rewrite !lookup_insert_ne by assumption. reflexivity.
  - intros handler' description'. unfold AddAsyncTool.
    destruct (Server_tools s !! name); split; try reflexivity;
      unfold AddPrompt, AddResource; simpl;
      match goal with |- context [match ?x with _ => _ end] => destruct x end;
      reflexivity.
Qed.

Lemma async_tools_share_the_tool_table_witness :
  AddAsyncTool "add" length_ "Length, in the background" calculator
  = (calculator, Some (errorText "tool add already exists")).
Proof.
  refine (proj1 (async_tools_share_the_tool_table calculator "add"
                   "Length, in the background" length_) _).
  eexists. reflexivity.
Defined.

Lemma bindResourceArgs_agree (params params' : gmap string value) (ins : list GoType) :
  forall k,
    (forall i, i < length ins ->
       params !! ("param" +:+ itoa (k + i)) = params' !! ("param" +:+ itoa (k + i))) ->
    bindResourceArgs params k ins = bindResourceArgs params' k ins.
Proof.
  induction ins as [|t ins IH]; intros k Hall; simpl; [reflexivity|].
  pose proof (Hall 0 ltac:(simpl; lia)) as H0. rewrite Nat.add_0_r in H0. rewrite H0.
  f_equal. apply IH. intros i Hi. specialize (Hall (S i)).
  rewrite Nat.add_succ_r in Hall. apply Hall. simpl. lia.
Qed.

Lemma bindResourceArgs_lookup (params : gmap string value) (ins : list GoType) :
  forall k i t,
    ins !! i = Some t ->
    bindResourceArgs params k ins !! i
    = Some match params !! ("param" +:+ itoa (k + i)) with
           | Some paramValue => ValueOf paramValue
           | None => Zero t
           end.
Proof.
  induction ins as [|t0 ins IH]; intros k [|i] t Hi; simpl in *; try discriminate.
  - injection Hi as ->. now rewrite Nat.add_0_r.
  - rewrite (IH (S k) i t Hi). now rewrite Nat.add_succ_r.
Qed.

(** X26. readResource gives parameter i of the handler the entry
    "param<i>" of the parameters, and the zero value of the parameter
    type when there is no such entry; it reads no other entry, so two
    parameter maps that agree on param0 .. param<n-1> give the same
    result, whatever the placeholders of the pattern are called. *)
Theorem readResource_reads_entries_named_by_position :
  forall (resource : Resource) (f : FuncValue) (params params' : gmap string value),
    Resource_Handler resource = Func f ->
    (forall i t, inTypes f !! i = Some t ->
       bindResourceArgs params 0 (inTypes f) !! i
       = Some match params !! ("param" +:+ itoa i) with
              | Some paramValue => ValueOf paramValue
              | None => Zero t
              end)
    /\ length (bindResourceArgs params 0 (inTypes f)) = length (inTypes f)
    /\ ((forall i, i < length (inTypes f) ->
           params !! ("param" +:+ itoa i) = params' !! ("param" +:+ itoa i)) ->
        readResource resource params = readResource resource params').
Proof.
  intros resource f params params' Hf. repeat split.
  - intros i t Hi. exact (bindResourceArgs_lookup params (inTypes f) 0 i t Hi).
  - generalize 0. induction (inTypes f) as [|t ins IH]; intros k; simpl;
      [reflexivity|]. now rewrite IH.
  - intros Hagree. unfold readResource. rewrite Hf. cbn [handlerIn mbind outcome_bind].
    now rewrite (bindResourceArgs_agree params params' (inTypes f) 0 Hagree).
Qed.

Lemma readResource_reads_entries_named_by_position_witness :
  readResource
    {| Resource_Handler := echo; Resource_Description := "Access files";
       Resource_Pattern := "files/{path}" |}
    {[ "path" := VString "abc" ]}
  = readResource
      {| Resource_Handler := echo; Resource_Description := "Access files";
         Resource_Pattern := "files/{path}" |}
      ∅.
Proof.
  refine (proj2 (proj2 (readResource_reads_entries_named_by_position
                          {| Resource_Handler := echo;
                             Resource_Description := "Access files";
                             Resource_Pattern := "files/{path}" |}
                          echoFunc {[ "path" := VString "abc" ]} ∅ eq_refl)) _).
  intros [|i] Hi; [reflexivity|simpl in Hi; lia].
Defined.

(** ** Patterns and the paths they stand for *)





(** ** Numbers in arguments and paths *)

Lemma to_uint_nonnil (n : nat) : Nat.to_uint n <> Decimal.Nil.
Proof.
  rewrite <- (Unsigned.of_to n) at 1. rewrite Unsigned.to_of. apply unorm_nonnil.
Qed.

Lemma scanDigits_digit (c : ascii) (s : string) (acc d : Z) (seen : bool) :
  digitVal c = Some d ->
  scanDigits (String c s) acc seen = scanDigits s (10 * acc + d) true.
Proof. intros H. cbn [scanDigits]. now rewrite H. Qed.

Lemma scanDigits_decimal (rest : string) :
  forall (d : Decimal.uint) (acc : nat) (seen : bool),
    scanDigits (NilEmpty.string_of_uint d +:+ rest) (Z.of_nat acc) seen
    = scanDigits rest (Z.of_nat (Nat.of_uint_acc d acc))
        (match d with Decimal.Nil => seen | _ => true end).
Proof.
  induction d as [|d IH|d IH|d IH|d IH|d IH|d IH|d IH|d IH|d IH|d IH];
    intros acc seen;
    [destruct rest; reflexivity|..];
    cbn [NilEmpty.string_of_uint Nat.of_uint_acc];
    match goal with
    | |- scanDigits (String ?c ?s +:+ rest) _ _ = _ =>
        change (String c s +:+ rest) with (String c (s +:+ rest));
        erewrite (scanDigits_digit c) by reflexivity;
        let v := eval vm_compute in (Z.of_nat (nat_of_ascii c) - 48)%Z in
        change (Z.of_nat (nat_of_ascii c) - 48)%Z with v
    end;
    match goal with
    | |- scanDigits _ ?a true = scanDigits _ (Z.of_nat (Nat.of_uint_acc d ?b)) _ =>
        replace a with (Z.of_nat b)
          by (rewrite Nat.tail_mul_spec; lia)
    end;
    rewrite IH; destruct d; reflexivity.
Qed.

Lemma scanDigits_stop (rest : string) (acc : Z) :
  match rest with "" => True | String c _ => digitVal c = None end ->
  fst (scanDigits rest acc true) = Some acc.
Proof.
  destruct rest as [|c rest]; simpl; [reflexivity|]. now intros ->.
Qed.

Lemma itoa_digits (n : nat) (rest : string) :
  match rest with "" => True | String c _ => digitVal c = None end ->
  exists c s,
    itoa n +:+ rest = String c s
    /\ isBlank c = false /\ Ascii.eqb c "010" = false
    /\ Ascii.eqb c "-" = false /\ Ascii.eqb c "+" = false
    /\ fst (scanDigits (String c s) 0 false) = Some (Z.of_nat n).
Proof.
  intros Hrest. unfold itoa.
  pose proof (to_uint_nonnil n) as Hnn.
  pose proof (scanDigits_decimal rest (Nat.to_uint n) 0 false) as Hscan.
  change (Nat.of_uint_acc (Nat.to_uint n) 0) with (Nat.of_uint (Nat.to_uint n)) in Hscan.
  rewrite Unsigned.of_to in Hscan.
  assert (Hz : NilZero.string_of_uint (Nat.to_uint n)
               = NilEmpty.string_of_uint (Nat.to_uint n)).
  { destruct (Nat.to_uint n); [contradiction|reflexivity..]. }
  rewrite Hz.
  assert (Hval : fst (scanDigits (NilEmpty.string_of_uint (Nat.to_uint n) +:+ rest)
                        0 false) = Some (Z.of_nat n)).
  { change 0%Z with (Z.of_nat 0). rewrite Hscan.
    destruct (Nat.to_uint n); [contradiction|..]; now apply scanDigits_stop. }
  revert Hval. clear -Hnn.
  destruct (Nat.to_uint n); [contradiction|..];
    cbn [NilEmpty.string_of_uint String.append]; intros Hval;
    eexists; eexists; (split; [reflexivity|]); repeat split; exact Hval.
Qed.

Lemma skipSpace_token (c : ascii) (s : string) :
  isBlank c = false -> Ascii.eqb c "010" = false ->
  skipSpace (String c s) = Some (String c s).
Proof. intros Hb Hn. cbn [skipSpace]. now rewrite Hb, Hn. Qed.

Lemma Sscanf_d_itoa (n : nat) (rest : string) :
  match rest with "" => True | String c _ => digitVal c = None end ->
  Sscanf_d (itoa n +:+ rest)
  = if (Z.of_nat n <? 2 ^ 63)%Z then Some (Z.of_nat n) else None.
Proof.
  intros Hrest.
  destruct (itoa_digits n rest Hrest) as (c & s & -> & Hb & Hnl & Hm & Hp & Hscan).
  unfold Sscanf_d. rewrite (skipSpace_token c s Hb Hnl), Hm, Hp, Hscan.
  assert (H1 : (- 2 ^ 63 <=? Z.of_nat n)%Z = true) by (apply Z.leb_le; lia).
  now rewrite H1.
Qed.

Lemma Sscanf_d_negative (n : nat) (rest : string) :
  match rest with "" => True | String c _ => digitVal c = None end ->
  Sscanf_d (String "-" (itoa n +:+ rest))
  = if (Z.of_nat n <=? 2 ^ 63)%Z then Some (- Z.of_nat n)%Z else None.
Proof.
  intros Hrest.
  destruct (itoa_digits n rest Hrest) as (c & s & Heq & _ & _ & _ & _ & Hscan).
  unfold Sscanf_d. rewrite (skipSpace_token "-" _ eq_refl eq_refl).
  rewrite Ascii.eqb_refl, Heq, Hscan.
  assert (H2 : (- Z.of_nat n <? 2 ^ 63)%Z = true) by (apply Z.ltb_lt; lia).
  rewrite H2, andb_true_r.
  destruct (Z.leb_spec (- 2 ^ 63) (- Z.of_nat n));
    destruct (Z.leb_spec (Z.of_nat n) (2 ^ 63)); try reflexivity; lia.
Qed.

Lemma Sscanf_u_itoa (n : nat) (rest : string) :
  match rest with "" => True | String c _ => digitVal c = None end ->
  Sscanf_u (itoa n +:+ rest)
  = if (Z.of_nat n <? 2 ^ 64)%Z then Some (Z.of_nat n) else None.
Proof.
  intros Hrest.
  destruct (itoa_digits n rest Hrest) as (c & s & -> & Hb & Hnl & Hm & Hp & Hscan).
  unfold Sscanf_u. now rewrite (skipSpace_token c s Hb Hnl), Hscan.
Qed.

Lemma Sscanf_u_negative (s : string) : Sscanf_u (String "-" s) = None.
Proof. reflexivity. Qed.

(** What the scans make of the decimal text of an integer. *)
Lemma Sscanf_d_formatInt (z : Z) (rest : string) :
  match rest with "" => True | String c _ => digitVal c = None end ->
  Sscanf_d (formatInt z +:+ rest)
  = if (- 2 ^ 63 <=? z)%Z && (z <? 2 ^ 63)%Z then Some z else None.
Proof.
  intros Hrest. unfold formatInt. destruct (Z.ltb_spec z 0) as [Hneg|Hpos].
  - change (("-" +:+ itoa (Z.to_nat (- z))) +:+ rest)
      with (String "-" (itoa (Z.to_nat (- z)) +:+ rest)).
    rewrite (Sscanf_d_negative _ _ Hrest), Z2Nat.id by lia.
    replace (- - z)%Z with z by lia.
    destruct (Z.leb_spec (- z) (2 ^ 63)); destruct (Z.leb_spec (- 2 ^ 63) z);
      destruct (Z.ltb_spec z (2 ^ 63)); try reflexivity; lia.
  - rewrite (Sscanf_d_itoa _ _ Hrest), Z2Nat.id by lia.
    destruct (Z.leb_spec (- 2 ^ 63) z); [reflexivity|lia].
Qed.

Lemma Sscanf_u_formatInt (z : Z) (rest : string) :
  match rest with "" => True | String c _ => digitVal c = None end ->
  Sscanf_u (formatInt z +:+ rest)
  = if (0 <=? z)%Z && (z <? 2 ^ 64)%Z then Some z else None.
Proof.
  intros Hrest. unfold formatInt. destruct (Z.ltb_spec z 0) as [Hneg|Hpos].
  - change (("-" +:+ itoa (Z.to_nat (- z))) +:+ rest)
      with (String "-" (itoa (Z.to_nat (- z)) +:+ rest)).
    rewrite Sscanf_u_negative. destruct (Z.leb_spec 0 z); [lia|reflexivity].
  - rewrite (Sscanf_u_itoa _ _ Hrest), Z2Nat.id by lia.
    destruct (Z.leb_spec 0 z); [reflexivity|lia].
Qed.

Lemma wrapSigned_small (bits i : Z) :
  (0 < bits)%Z -> (- 2 ^ (bits - 1) <= i < 2 ^ (bits - 1))%Z -> wrapSigned bits i = i.
Proof.
  intros Hbits Hi. unfold wrapSigned.
  assert (H2 : (2 ^ bits = 2 * 2 ^ (bits - 1))%Z).
  { rewrite <- Z.pow_succ_r by lia. f_equal. lia. }
  rewrite Z.mod_small by lia. lia.
Qed.

Lemma wrapSigned_congruent (bits i : Z) :
  (0 < bits)%Z -> exists k, wrapSigned bits i = (i + k * 2 ^ bits)%Z.
Proof.
  intros Hbits. unfold wrapSigned.
  assert (Hpos : (0 < 2 ^ bits)%Z) by (apply Z.pow_pos_nonneg; lia).
  exists (- ((i + 2 ^ (bits - 1)) / 2 ^ bits))%Z.
  pose proof (Z.div_mod (i + 2 ^ (bits - 1)) (2 ^ bits) ltac:(lia)). nia.
Qed.

Lemma wrapUnsigned_congruent (bits i : Z) :
  (0 < bits)%Z -> exists k, wrapUnsigned bits i = (i + k * 2 ^ bits)%Z.
Proof.
  intros Hbits. unfold wrapUnsigned.
  assert (Hpos : (0 < 2 ^ bits)%Z) by (apply Z.pow_pos_nonneg; lia).
  exists (- (i / 2 ^ bits))%Z.
  pose proof (Z.div_mod i (2 ^ bits) ltac:(lia)). nia.
Qed.

Lemma integer_kind_width (t : GoType) (bits : Z) :
  kindOf t = KInt bits \/ kindOf t = KUint bits -> (0 < bits <= 64)%Z.
Proof. destruct t; intros [H|H]; try discriminate; injection H as <-; lia. Qed.

(** X20. An integer that is scanned is truncated to the width of the
    target, not refused: convertValue of the decimal text of z, for a
    signed integer type of any width, stores the number of that width
    that is congruent to z modulo 2^width whenever z is an int64, and
    fails with the scan error only when z is outside int64; for an
    unsigned type it stores z modulo 2^width whenever z is a uint64 and
    fails for a negative z and for z beyond uint64.  Text after the
    number that begins with neither a digit nor an underscore is left
    unread. *)
Theorem scanned_integers_are_truncated_not_refused :
  forall (z : Z) (rest : string) (t : GoType) (bits : Z),
    match rest with
    | "" => True
    | String c _ => digitVal c = None /\ c <> "_"%char
    end ->
    (kindOf t = KInt bits ->
     convertValue (formatInt z +:+ rest) t
     = (if (- 2 ^ 63 <=? z)%Z && (z <? 2 ^ 63)%Z
        then Ok (VInt t (wrapSigned bits z))
        else Err (libError ScanError))
     /\ (- 2 ^ (bits - 1) <= wrapSigned bits z < 2 ^ (bits - 1))%Z
     /\ exists k, wrapSigned bits z = (z + k * 2 ^ bits)%Z)
    /\ (kindOf t = KUint bits ->
        convertValue (formatInt z +:+ rest) t
        = (if (0 <=? z)%Z && (z <? 2 ^ 64)%Z
           then Ok (VInt t (wrapUnsigned bits z))
           else Err (libError ScanError))
        /\ (0 <= wrapUnsigned bits z < 2 ^ bits)%Z
        /\ exists k, wrapUnsigned bits z = (z + k * 2 ^ bits)%Z).
Proof.
  intros z rest t bits Hrest0.
  assert (Hrest : match rest with "" => True | String c _ => digitVal c = None end)
    by (destruct rest; tauto).
  split; intros Hk;
    pose proof (integer_kind_width t bits ltac:(auto)) as Hbits;
    unfold convertValue; rewrite Hk.
  - rewrite (Sscanf_d_formatInt z rest Hrest). repeat split.
    + destruct (_ && _); reflexivity.
    + apply wrapSigned_range; lia.
    + apply wrapSigned_range; lia.
    + apply wrapSigned_congruent; lia.
  - rewrite (Sscanf_u_formatInt z rest Hrest). repeat split.
    + destruct (_ && _); reflexivity.
    + apply wrapUnsigned_range; lia.
    + apply wrapUnsigned_range; lia.
    + apply wrapUnsigned_congruent; lia.
Qed.

Lemma scanned_integers_are_truncated_not_refused_witness :
  convertValue "300" TInt8 = Ok (VInt TInt8 44)
  /\ convertValue "-1" TUint8 = Err (libError ScanError).
Proof.
  split.
  - exact (proj1 (proj1 (scanned_integers_are_truncated_not_refused 300 "" TInt8 8 I)
                    eq_refl)).
  - exact (proj1 (proj2 (scanned_integers_are_truncated_not_refused (-1) "" TUint8 8 I)
                    eq_refl)).
Defined.

(** X28. The decimal text of an integer converts to that integer: for
    an integer type that can hold z, negative or not, convertValue of
    the text that fmt prints for z stores z, and so does that text
    followed by anything that begins with neither a digit nor an
    underscore, which the scan leaves unread without an error. *)
Theorem decimal_text_converts_to_its_number :
  forall (z : Z) (rest : string) (t : GoType) (bits : Z),
    match rest with
    | "" => True
    | String c _ => digitVal c = None /\ c <> "_"%char
    end ->
    (kindOf t = KInt bits -> (- 2 ^ (bits - 1) <= z < 2 ^ (bits - 1))%Z ->
     convertValue (formatInt z +:+ rest) t = Ok (VInt t z))
    /\ (kindOf t = KUint bits -> (0 <= z < 2 ^ bits)%Z ->
        convertValue (formatInt z +:+ rest) t = Ok (VInt t z)).
Proof.
  intros z rest t bits Hrest0.
  assert (Hrest : match rest with "" => True | String c _ => digitVal c = None end)
    by (destruct rest; tauto).
  split; intros Hk Hz;
    pose proof (integer_kind_width t bits ltac:(auto)) as Hbits;
    unfold convertValue; rewrite Hk.
  - assert (Hle : (2 ^ (bits - 1) <= 2 ^ 63)%Z) by (apply Z.pow_le_mono_r; lia).
    rewrite (Sscanf_d_formatInt z rest Hrest).
    destruct (Z.leb_spec (- 2 ^ 63) z); [|lia].
    destruct (Z.ltb_spec z (2 ^ 63)); [|lia]. cbn [andb].
    now rewrite wrapSigned_small by lia.
  - assert (Hle : (2 ^ bits <= 2 ^ 64)%Z) by (apply Z.pow_le_mono_r; lia).
    rewrite (Sscanf_u_formatInt z rest Hrest).
    destruct (Z.leb_spec 0 z); [|lia].
    destruct (Z.ltb_spec z (2 ^ 64)); [|lia]. cbn [andb].
    unfold wrapUnsigned. now rewrite Z.mod_small by lia.
Qed.

Lemma decimal_text_converts_to_its_number_witness :
  convertValue "-42abc" TInt8 = Ok (VInt TInt8 (-42)).
Proof.
  refine (proj1 (decimal_text_converts_to_its_number (-42) "abc" TInt8 8 _)
            eq_refl _).
  - split; [reflexivity|discriminate].
  - simpl. lia.
Defined.

(** ** A resource without a handler *)



